(** * bci-logger-sim: spike trains, EEG synthesis, the brain model, the
    loggers and the API hooks

    A shallow embedding of [bci_logger/spike_generator.py],
    [bci_logger/eeg_generator.py], [bci_logger/brain_model.py],
    [bci_logger/logger.py] and [bci_logger/api_hooks.py].

    Conventions of the embedding.
    - Python floats are idealised as exact rationals ([Q]); Python ints are
      [Z].  [int(x)] truncates toward zero ([py_int]), [//] is floor
      division ([Z.div]).  A property that involves floats is stated
      through the expression the code itself evaluates
      ([int(duration / dt)], [onset + i * interval], the clock [t += dt],
      [w / total]), so that it reads the same over the floats.  What
      holds for the rationals only is not claimed: that normalised
      weights add up to 1, that two computed spike times differ by
      exactly the interval, that sums agree after reordering, a bound
      obtained by cancelling a division, the number of iterations of a
      loop that adds up a float.
    - A [numpy.random.RandomState] is an abstract state with the drawing
      primitives the code uses (class [RandomState]); every theorem holds
      for any implementation of the generator.  Vectorised draws
      ([rng.random(n)], [rng.uniform(a, b, n)]) are [n] successive draws.
    - [np.sin] and [np.pi] are parameters of the EEG part.
    - A method is a computation in the monad [Py S], over the mutable
      object state [S]: an exception leaves the state as mutated so far,
      exactly as a Python exception leaves the object. *)

From Stdlib Require Import ZArith QArith Qround Qabs Qfield Lqa List String Bool Lia.
From Stdlib Require Import Sorted Permutation.
Import ListNotations.
Open Scope Q_scope.

(** ** Python values, exceptions and the method monad *)

Inductive PyExc : Type :=
| ValueError (msg : string)
| TypeError (msg : string)
| ZeroDivisionError (msg : string).

(** Outcome of a call: a value, a raised exception, or no return at all
    (the [while] loop of [refractory_spikes] never exits). *)
Inductive Result (A : Type) : Type :=
| Ok (a : A)
| Raise (e : PyExc)
| Diverge.
Arguments Ok {A} a.
Arguments Raise {A} e.
Arguments Diverge {A}.

Definition Py (S A : Type) : Type := S -> Result A * S.

Definition ret {S A} (a : A) : Py S A := fun s => (Ok a, s).
Definition raise {S A} (e : PyExc) : Py S A := fun s => (Raise e, s).
Definition bind {S A B} (c : Py S A) (k : A -> Py S B) : Py S B :=
  fun s => match c s with
           | (Ok a, s') => k a s'
           | (Raise e, s') => (Raise e, s')
           | (Diverge, s') => (Diverge, s')
           end.
Definition get {S} : Py S S := fun s => (Ok s, s).
Definition put {S} (s : S) : Py S unit := fun _ => (Ok tt, s).

(** Run a method of a sub-object stored in a field of the state. *)
Definition zoom {S T A} (proj : S -> T) (upd : T -> S -> S) (c : Py T A) : Py S A :=
  fun s => let (r, t') := c (proj s) in (r, upd t' s).

Declare Scope py_scope.
Delimit Scope py_scope with py.
Notation "x <- c ;; k" := (bind c (fun x => k))
  (at level 61, c at next level, right associativity) : py_scope.
Notation "c ;;; k" := (bind c (fun _ => k))
  (at level 61, right associativity) : py_scope.
Open Scope py_scope.

(** [for x in xs: body(x)], collecting the appended results. *)
Fixpoint for_each {S A B} (body : A -> Py S B) (xs : list A) : Py S (list B) :=
  match xs with
  | [] => ret []
  | x :: xs' => y <- body x ;; ys <- for_each body xs' ;; ret (y :: ys)
  end.

(** [range(n)] for a Python int [n] (empty when [n <= 0]). *)
Definition range (n : Z) : list Z := map Z.of_nat (seq 0 (Z.to_nat n)).

(** [int(x)] on a float: truncation toward zero. *)
Definition py_int (x : Q) : Z := Z.quot (Qnum x) (Zpos (Qden x)).

Definition Qltb (x y : Q) : bool := negb (Qle_bool y x).

Definition Qsum (l : list Q) : Q := fold_left Qplus l 0.

(** Float division [x / y]: Python raises on a zero divisor. *)
Definition py_div {S} (x y : Q) : Py S Q :=
  if Qeq_bool y 0 then raise (ZeroDivisionError "float division by zero")
  else ret (x / y).

(** ** The random generator *)

Class RandomState (RS : Type) : Type := {
  rs_seed : Z -> RS;                      (* np.random.RandomState(seed) *)
  random_sample : RS -> Q * RS;           (* rng.random() *)
  uniform : Q -> Q -> RS -> Q * RS;       (* rng.uniform(low, high) *)
  normal : Q -> Q -> RS -> Q * RS;        (* rng.normal(loc, scale) *)
  randint : Z -> Z -> RS -> Z * RS        (* rng.randint(low, high) *)
}.

(** A small linear congruential generator, used to run the model on
    concrete inputs.  Its uniform draws lie in [0, 1). *)
Module LCG.
Definition modulus : Z := 2147483648.
Definition next (x : Z) : Z := ((1103515245 * x + 12345) mod modulus)%Z.
Definition sample (x : Z) : Q * Z :=
  let x' := next x in (Qmake x' 2147483648, x').
Definition unif (lo hi : Q) (x : Z) : Q * Z :=
  let (u, x') := sample x in (lo + (hi - lo) * u, x').
Definition gauss (loc scale : Q) (x : Z) : Q * Z :=
  let (u, x') := sample x in (loc + scale * (2 * u - 1), x').
Definition int_in (lo hi : Z) (x : Z) : Z * Z :=
  let (u, x') := sample x in
  ((lo + Qfloor (u * inject_Z (hi - lo)))%Z, x').
End LCG.

#[export] Instance LCG_RandomState : RandomState Z := {
  rs_seed := fun s => (s mod LCG.modulus)%Z;
  random_sample := LCG.sample;
  uniform := LCG.unif;
  normal := LCG.gauss;
  randint := LCG.int_in
}.

(** ** spike_generator.py *)

(** Keyword arguments forwarded by [generate_spike_train] ([**kwargs]):
    the parameter names of the three generators. *)
Record Kwargs : Type := {
  kw_dt : option Q;
  kw_refractory_period : option Q;
  kw_spikes_per_burst : option Z;
  kw_intraburst_interval : option Q
}.

Definition no_kwargs : Kwargs :=
  {| kw_dt := None; kw_refractory_period := None;
     kw_spikes_per_burst := None; kw_intraburst_interval := None |}.

Definition is_none {A} (o : option A) : bool :=
  match o with None => true | Some _ => false end.

Definition default {A} (d : A) (o : option A) : A :=
  match o with None => d | Some a => a end.

Record SpikeTrain : Type := {
  neuron_id : Z;
  spike_times : list Q;
  spike_count : nat;
  st_duration : Q;
  st_mode : string;
  firing_rate : Q;
  parameters : Kwargs
}.

(** [np.where(mask)[0]]: the indices at which the mask holds. *)
Fixpoint np_where_from (i : nat) (mask : list bool) : list nat :=
  match mask with
  | [] => []
  | b :: mask' => if b then i :: np_where_from (S i) mask'
                  else np_where_from (S i) mask'
  end.
Definition np_where (mask : list bool) : list nat := np_where_from 0 mask.

(** [sorted(xs)] on floats. *)
Fixpoint insert_sorted (x : Q) (l : list Q) : list Q :=
  match l with
  | [] => [x]
  | y :: l' => if Qle_bool x y then x :: y :: l' else y :: insert_sorted x l'
  end.
Definition sorted (l : list Q) : list Q := fold_right insert_sorted [] l.

Section SpikeGenerator.
Context {RS : Type} `{RandomState RS}.

(** [rng.random(n)] *)
Fixpoint random_n (n : nat) (rng : RS) : list Q * RS :=
  match n with
  | O => ([], rng)
  | S n' => let (u, rng1) := random_sample rng in
            let (us, rng2) := random_n n' rng1 in
            (u :: us, rng2)
  end.

(** [rng.random(n_bins)] with the size check of numpy. *)
Definition rng_random (n_bins : Z) : Py RS (list Q) :=
  if (n_bins <? 0)%Z
  then raise (ValueError "negative dimensions are not allowed")
  else fun rng => let (us, rng') := random_n (Z.to_nat n_bins) rng in
                  (Ok us, rng').

Definition poisson_spikes (rate duration dt : Q) : Py RS (list Q) :=
  q <- py_div duration dt ;;
  let n_bins := py_int q in
  let prob := rate * dt in
  draws <- rng_random n_bins ;;
  let spikes := map (fun u => Qltb u prob) draws in
  let spike_times := map (fun i => inject_Z (Z.of_nat i) * dt) (np_where spikes) in
  ret spike_times.

(** The [while t < duration] loop of [refractory_spikes]; [None] when
    the loop has not exited within [fuel] iterations. *)
Fixpoint refractory_loop (fuel : nat) (rate duration refractory_period dt : Q)
         (t last_spike : Q) (spike_times : list Q) (rng : RS)
  : option (list Q * RS) :=
  match fuel with
  | O => None
  | S fuel' =>
    if Qltb t duration then
      if Qle_bool refractory_period (t - last_spike) then
        let (u, rng') := random_sample rng in
        if Qltb u (rate * dt)
        then refractory_loop fuel' rate duration refractory_period dt
                             (t + dt) t (spike_times ++ [t]) rng'
        else refractory_loop fuel' rate duration refractory_period dt
                             (t + dt) last_spike spike_times rng'
      else refractory_loop fuel' rate duration refractory_period dt
                           (t + dt) last_spike spike_times rng
    else Some (spike_times, rng)
  end.

(** Fuel for the loop when [dt > 0]: the least [k] with
    [k * dt >= duration], by which the rational clock has reached
    [duration].  The float clock is a running sum and may take another
    iteration; nothing is stated about the number of iterations. *)
Definition refractory_steps (duration dt : Q) : nat :=
  Z.to_nat (Qceiling (duration / dt)).

(** With [dt > 0] the loop exits within that fuel; with [duration <= 0]
    it is not entered; otherwise [t] never reaches [duration] and the
    call does not return (lemmas [refractory_loop_exits] and
    [refractory_loop_stuck] below). *)
Definition refractory_spikes (rate duration refractory_period dt : Q)
  : Py RS (list Q) :=
  fun rng =>
    if Qltb 0 dt || Qle_bool duration 0 then
      match refractory_loop (S (refractory_steps duration dt))
                            rate duration refractory_period dt
                            0 (- refractory_period) [] rng with
      | Some (spike_times, rng') => (Ok spike_times, rng')
      | None => (Diverge, rng)
      end
    else (Diverge, rng).

(** The spikes of one burst that fall before [duration]. *)
Definition burst_of (spikes_per_burst : Z) (duration intraburst_interval : Q)
           (burst_start : Q) : list Q :=
  flat_map (fun i =>
              let spike_time := burst_start + inject_Z i * intraburst_interval in
              if Qltb spike_time duration then [spike_time] else [])
           (range spikes_per_burst).

Definition burst_spikes (burst_rate : Q) (spikes_per_burst : Z)
           (duration intraburst_interval dt : Q) : Py RS (list Q) :=
  burst_times <- poisson_spikes burst_rate duration dt ;;
  let spike_times :=
    flat_map (burst_of spikes_per_burst duration intraburst_interval) burst_times in
  ret (sorted spike_times).

Definition unexpected_kwarg {A} : Py RS A :=
  raise (TypeError "got an unexpected keyword argument").

Definition generate_spike_train (neuron_id : Z) (rate duration : Q)
           (mode : string) (kwargs : Kwargs) : Py RS SpikeTrain :=
  spike_times <-
    (if String.eqb mode "poisson" then
       if is_none (kw_refractory_period kwargs)
          && is_none (kw_spikes_per_burst kwargs)
          && is_none (kw_intraburst_interval kwargs)
       then poisson_spikes rate duration (default (1#1000) (kw_dt kwargs))
       else unexpected_kwarg
     else if String.eqb mode "refractory" then
       if is_none (kw_spikes_per_burst kwargs)
          && is_none (kw_intraburst_interval kwargs)
       then refractory_spikes rate duration
              (default (2#1000) (kw_refractory_period kwargs))
              (default (1#1000) (kw_dt kwargs))
       else unexpected_kwarg
     else if String.eqb mode "burst" then
       if is_none (kw_refractory_period kwargs) then
         match kw_spikes_per_burst kwargs with
         | Some spikes_per_burst =>
             burst_spikes rate spikes_per_burst duration
               (default (5#1000) (kw_intraburst_interval kwargs))
               (default (1#1000) (kw_dt kwargs))
         | None => raise (TypeError "missing 1 required positional argument: 'spikes_per_burst'")
         end
       else unexpected_kwarg
     else raise (ValueError ("Unknown mode: " ++ mode))) ;;
  ret {| neuron_id := neuron_id;
         spike_times := spike_times;
         spike_count := List.length spike_times;
         st_duration := duration;
         st_mode := mode;
         firing_rate := if Qltb 0 duration
                        then inject_Z (Z.of_nat (List.length spike_times)) / duration
                        else 0;
         parameters := kwargs |}.

Definition generate_population (n_neurons : Z) (rate_range : Q * Q)
           (duration : Q) (mode : string) : Py RS (list SpikeTrain) :=
  for_each (fun i =>
              rate <- (fun rng => let (r, rng') := uniform (fst rate_range) (snd rate_range) rng
                                  in (Ok r, rng')) ;;
              generate_spike_train i rate duration mode no_kwargs)
           (range n_neurons).

End SpikeGenerator.

(** ** eeg_generator.py *)

(** [np.sin] and [np.pi], which the rationals do not have. *)
Class FloatMath : Type := {
  np_sin : Q -> Q;
  np_pi : Q
}.

(** A rational sine (Bhaskara's approximation on [0, pi], extended by
    periodicity), used to run the model on concrete inputs. *)
Module RationalSine.
Definition pi : Q := 355 # 113.
Definition half_wave (x : Q) : Q :=
  16 * x * (pi - x) / (5 * pi * pi - 4 * x * (pi - x)).
Definition sin (x : Q) : Q :=
  let r := x - inject_Z (Qfloor (x / (2 * pi))) * (2 * pi) in
  if Qle_bool r pi then half_wave r else - half_wave (r - pi).
End RationalSine.

#[export] Instance Rational_FloatMath : FloatMath := {
  np_sin := RationalSine.sin;
  np_pi := RationalSine.pi
}.

(** Python dict as the list of its items, in insertion order. *)
Fixpoint dict_get {V} (k : string) (d : list (string * V)) : option V :=
  match d with
  | [] => None
  | (k', v) :: d' => if String.eqb k k' then Some v else dict_get k d'
  end.

Definition dict_has {V} (k : string) (d : list (string * V)) : bool :=
  match dict_get k d with Some _ => true | None => false end.

(** [d[k] = v]: overwrite in place, or append a new key. *)
Fixpoint dict_set {V} (k : string) (v : V) (d : list (string * V)) : list (string * V) :=
  match d with
  | [] => [(k, v)]
  | (k', v') :: d' => if String.eqb k k' then (k', v) :: d'
                      else (k', v') :: dict_set k v d'
  end.

Definition BANDS : list (string * (Q * Q)) :=
  [ ("delta", (5#10, 4)); ("theta", (4, 8)); ("alpha", (8, 13));
    ("beta", (13, 30)); ("gamma", (30, 100)) ]%string.

Definition state_profiles : list (string * list (string * Q)) :=
  [ ("relaxed", [("alpha", 3); ("theta", 1); ("beta", 5#10); ("delta", 5#10); ("gamma", 2#10)]);
    ("focused", [("beta", 3); ("gamma", 2); ("alpha", 5#10); ("theta", 3#10); ("delta", 2#10)]);
    ("drowsy", [("delta", 3); ("theta", 2); ("alpha", 5#10); ("beta", 2#10); ("gamma", 1#10)]);
    ("active", [("beta", 2); ("gamma", 25#10); ("alpha", 1); ("theta", 5#10); ("delta", 3#10)])
  ]%string.

Record ChannelData : Type := {
  channel_name : string;
  signal : list Q;
  time : list Q;
  cd_sampling_rate : Q;
  cd_duration : Q;
  n_samples : nat;
  cd_state : string;
  mean_amplitude : Q;
  peak_amplitude : Q
}.

(** Element-wise [a + b] on arrays of one shape. *)
Fixpoint array_add (a b : list Q) : list Q :=
  match a, b with
  | x :: a', y :: b' => (x + y) :: array_add a' b'
  | _, _ => []
  end.

Definition Qmax (x y : Q) : Q := if Qle_bool x y then y else x.

Section EEGGenerator.
Context {RS : Type} `{RandomState RS} `{FloatMath}.

(** [rng.uniform(low, high, n)] *)
Fixpoint uniform_n (low high : Q) (n : nat) : Py RS (list Q) :=
  match n with
  | O => ret []
  | S n' => fun rng => let (u, rng1) := uniform low high rng in
                       (us <- uniform_n low high n' ;; ret (u :: us)) rng1
  end.

(** [rng.normal(loc, scale, n)] *)
Fixpoint normal_n (loc scale : Q) (n : nat) : Py RS (list Q) :=
  match n with
  | O => ret []
  | S n' => fun rng => let (u, rng1) := normal loc scale rng in
                       (us <- normal_n loc scale n' ;; ret (u :: us)) rng1
  end.

(** [np.zeros(n)] *)
Definition np_zeros (n : Z) : Py RS (list Q) :=
  if (n <? 0)%Z then raise (ValueError "negative dimensions are not allowed")
  else ret (repeat 0 (Z.to_nat n)).

(** [np.arange(n) / sampling_rate] *)
Definition time_axis (n : Z) (sampling_rate : Q) : list Q :=
  map (fun i => inject_Z i / sampling_rate) (range n).

(** One pass of the loop over [zip(frequencies, phases, weights)]. *)
Fixpoint add_components (t : list Q) (comps : list (Q * Q * Q)) (signal : list Q)
  : list Q :=
  match comps with
  | [] => signal
  | (freq, phase, weight) :: comps' =>
      add_components t comps'
        (array_add signal
           (map (fun tj => weight * np_sin (2 * np_pi * freq * tj + phase)) t))
  end.

Definition generate_band (sampling_rate : Q) (band_name : string)
           (duration amplitude : Q) : Py RS (list Q) :=
  match dict_get band_name BANDS with
  | None => raise (ValueError ("Unknown band: " ++ band_name))
  | Some (freq_min, freq_max) =>
      let n_samples := py_int (duration * sampling_rate) in
      let t := time_axis n_samples sampling_rate in
      let n_components := 3%nat in
      frequencies <- uniform_n freq_min freq_max n_components ;;
      phases <- uniform_n 0 (2 * np_pi) n_components ;;
      weights <- uniform_n (5#10) 1 n_components ;;
      let weights := map (fun w => w / Qsum weights) weights in
      signal <- np_zeros n_samples ;;
      let signal := add_components t (combine (combine frequencies phases) weights) signal in
      ret (map (fun x => amplitude * x) signal)
  end.

(** Lines 96-101: the default weights and their normalisation. *)
Definition default_band_weights : list (string * Q) :=
  map (fun b => (fst b, 1)) BANDS.

Definition normalize_weights (band_weights : list (string * Q))
  : Py RS (list (string * Q)) :=
  let total_weight := Qsum (map snd band_weights) in
  for_each (fun kv => w <- py_div (snd kv) total_weight ;; ret (fst kv, w))
           band_weights.

(** The loop of lines 107-110: bands with a positive weight are
    generated with that weight as amplitude and added to the signal. *)
Fixpoint add_bands (sampling_rate duration : Q) (band_weights : list (string * Q))
         (signal : list Q) : Py RS (list Q) :=
  match band_weights with
  | [] => ret signal
  | (band_name, weight) :: rest =>
      if Qltb 0 weight then
        band_signal <- generate_band sampling_rate band_name duration weight ;;
        add_bands sampling_rate duration rest (array_add signal band_signal)
      else add_bands sampling_rate duration rest signal
  end.

Definition generate_mixed_signal (sampling_rate duration : Q)
           (band_weights : option (list (string * Q))) (noise_level : Q)
  : Py RS (list Q) :=
  let band_weights := match band_weights with
                      | None => default_band_weights
                      | Some bw => bw
                      end in
  band_weights <- normalize_weights band_weights ;;
  let n_samples := py_int (duration * sampling_rate) in
  signal <- np_zeros n_samples ;;
  signal <- add_bands sampling_rate duration band_weights signal ;;
  if Qltb 0 noise_level then
    noise <- normal_n 0 noise_level (Z.to_nat n_samples) ;;
    ret (array_add signal noise)
  else ret signal.

Definition generate_mental_state (sampling_rate : Q) (state : string) (duration : Q)
  : Py RS (list Q) :=
  match dict_get state state_profiles with
  | None => raise (ValueError ("Unknown state: " ++ state))
  | Some profile => generate_mixed_signal sampling_rate duration (Some profile) (2#10)
  end.

Definition generate_channel_data (sampling_rate : Q) (channel_name : string)
           (duration : Q) (state : string) (noise_level : Q) : Py RS ChannelData :=
  signal <- generate_mental_state sampling_rate state duration ;;
  let n_samples := List.length signal in
  let time_array := time_axis (Z.of_nat n_samples) sampling_rate in
  let magnitudes := map Qabs signal in
  match magnitudes with
  | [] => raise (ValueError "zero-size array to reduction operation maximum which has no identity")
  | m :: ms =>
      ret {| channel_name := channel_name;
             signal := signal;
             time := time_array;
             cd_sampling_rate := sampling_rate;
             cd_duration := duration;
             n_samples := n_samples;
             cd_state := state;
             mean_amplitude := Qsum magnitudes / inject_Z (Z.of_nat n_samples);
             peak_amplitude := fold_left Qmax ms m |}
  end.

Definition generate_montage (sampling_rate : Q) (channel_names : list string)
           (duration : Q) (state : string) : Py RS (list ChannelData) :=
  for_each (fun channel => generate_channel_data sampling_rate channel duration state (1#10))
           channel_names.

End EEGGenerator.

(** ** brain_model.py *)

Record HistoryEntry : Type := {
  h_duration : Q;
  h_state : string;
  h_spike_count : nat
}.

Record IntuitionData : Type := {
  d20_roll : Z;
  wisdom_modifier : Z;
  total_score : Z;
  difficulty_class : Z;
  success : bool;
  character_wisdom : Z
}.

(** The activity dict; [intuition_data] is the key added afterwards by
    [generate_intuition_signal]. *)
Record Activity : Type := {
  a_duration : Q;
  a_state : string;
  a_spike_trains : list SpikeTrain;
  a_eeg_signals : list ChannelData;
  a_n_neurons : Z;
  a_n_channels : nat;
  a_sampling_rate : Q;
  a_timestamp : option Q;
  intuition_data : option IntuitionData
}.

(** Values of the summary dict. *)
Record StateStat : Type := {
  ss_count : Z;
  ss_duration : Q
}.

Inductive StatValue : Type :=
| SInt (n : Z)
| SFloat (x : Q)
| SStates (states : list (string * StateStat)).

(** Lines 130-150: the score and the brain state chosen from it. *)
Record Outcome : Type := {
  o_wisdom_mod : Z;
  o_intuition_score : Z;
  o_success : bool;
  o_state : string;
  o_spike_rate_range : Q * Q
}.

Definition intuition_outcome (base_roll character_wisdom difficulty : Z) : Outcome :=
  let wisdom_mod := ((character_wisdom - 10) / 2)%Z in
  let intuition_score := (base_roll + wisdom_mod)%Z in
  let success := (difficulty <=? intuition_score)%Z in
  let (state, spike_rate_range) :=
    if success then
      if (difficulty + 5 <=? intuition_score)%Z
      then ("focused"%string, (30, 60))
      else ("active"%string, (20, 45))
    else
      if (intuition_score <? difficulty - 5)%Z
      then ("drowsy"%string, (5, 20))
      else ("relaxed"%string, (10, 30)) in
  {| o_wisdom_mod := wisdom_mod;
     o_intuition_score := intuition_score;
     o_success := success;
     o_state := state;
     o_spike_rate_range := spike_rate_range |}.

(** One pass of the loop of lines 185-190 over the history. *)
Definition count_state (states : list (string * StateStat)) (h : HistoryEntry)
  : list (string * StateStat) :=
  let state := h_state h in
  let states := if dict_has state states then states
                else dict_set state {| ss_count := 0; ss_duration := 0 |} states in
  match dict_get state states with
  | Some e => dict_set state {| ss_count := ss_count e + 1;
                                ss_duration := ss_duration e + h_duration h |} states
  | None => states
  end.

Section BrainModel.
Context {RS : Type} `{RandomState RS} `{FloatMath}.

Record EEGGenerator : Type := {
  eeg_sampling_rate : Q;
  eeg_rng : RS
}.

Record BrainModel : Type := {
  n_neurons : Z;
  sampling_rate : Q;
  seed : Z;
  eeg_channels : list string;
  spike_gen : RS;                 (* the SpikeGenerator: its rng *)
  eeg_gen : EEGGenerator;
  current_state : string;
  activity_history : list HistoryEntry
}.

Definition BrainModel_init (n_neurons : Z) (eeg_channels : option (list string))
           (sampling_rate : Q) (seed : Z) : BrainModel :=
  {| n_neurons := n_neurons;
     sampling_rate := sampling_rate;
     seed := seed;
     eeg_channels := match eeg_channels with
                     | None => ["Fp1"; "Fp2"; "F3"; "F4"; "C3"; "C4"; "P3"; "P4"]%string
                     | Some chs => chs
                     end;
     spike_gen := rs_seed seed;
     eeg_gen := {| eeg_sampling_rate := sampling_rate; eeg_rng := rs_seed seed |};
     current_state := "active";
     activity_history := [] |}.

Definition set_current_state (state : string) (self : BrainModel) : BrainModel :=
  {| n_neurons := n_neurons self; sampling_rate := sampling_rate self;
     seed := seed self; eeg_channels := eeg_channels self;
     spike_gen := spike_gen self; eeg_gen := eeg_gen self;
     current_state := state;
     activity_history := activity_history self |}.

Definition set_spike_gen (rng : RS) (self : BrainModel) : BrainModel :=
  {| n_neurons := n_neurons self; sampling_rate := sampling_rate self;
     seed := seed self; eeg_channels := eeg_channels self;
     spike_gen := rng; eeg_gen := eeg_gen self;
     current_state := current_state self;
     activity_history := activity_history self |}.

Definition set_eeg_rng (rng : RS) (self : BrainModel) : BrainModel :=
  {| n_neurons := n_neurons self; sampling_rate := sampling_rate self;
     seed := seed self; eeg_channels := eeg_channels self;
     spike_gen := spike_gen self;
     eeg_gen := {| eeg_sampling_rate := eeg_sampling_rate (eeg_gen self);
                   eeg_rng := rng |};
     current_state := current_state self;
     activity_history := activity_history self |}.

Definition history_append (h : HistoryEntry) (self : BrainModel) : BrainModel :=
  {| n_neurons := n_neurons self; sampling_rate := sampling_rate self;
     seed := seed self; eeg_channels := eeg_channels self;
     spike_gen := spike_gen self; eeg_gen := eeg_gen self;
     current_state := current_state self;
     activity_history := activity_history self ++ [h] |}.

Definition modify (f : BrainModel -> BrainModel) : Py BrainModel unit :=
  fun self => (Ok tt, f self).

Definition simulate_activity (duration : Q) (state : string)
           (spike_rate_range : Q * Q) : Py BrainModel Activity :=
  modify (set_current_state state) ;;;
  self <- get ;;
  spike_data <- zoom spike_gen set_spike_gen
                  (generate_population (n_neurons self) spike_rate_range
                                       duration "poisson") ;;
  eeg_data <- zoom (fun s => eeg_rng (eeg_gen s)) set_eeg_rng
                (generate_montage (eeg_sampling_rate (eeg_gen self))
                                  (eeg_channels self) duration state) ;;
  let activity :=
    {| a_duration := duration;
       a_state := state;
       a_spike_trains := spike_data;
       a_eeg_signals := eeg_data;
       a_n_neurons := n_neurons self;
       a_n_channels := List.length (eeg_channels self);
       a_sampling_rate := sampling_rate self;
       a_timestamp := None;
       intuition_data := None |} in
  modify (history_append
            {| h_duration := duration;
               h_state := state;
               h_spike_count := fold_left Nat.add (map spike_count spike_data) 0%nat |}) ;;;
  ret activity.

(** The interpreter process: the module-level generator behind
    [np.random.randint], and the model object. *)
Record Process : Type := {
  np_random : RS;
  brain : BrainModel
}.

Definition set_brain (b : BrainModel) (p : Process) : Process :=
  {| np_random := np_random p; brain := b |}.

(** [np.random.randint(low, high)] *)
Definition np_random_randint (low high : Z) : Py Process Z :=
  fun p => let (r, g) := randint low high (np_random p) in
           (Ok r, {| np_random := g; brain := brain p |}).

Definition generate_intuition_signal (difficulty character_wisdom : Z) (duration : Q)
  : Py Process Activity :=
  base_roll <- np_random_randint 1 21 ;;
  let o := intuition_outcome base_roll character_wisdom difficulty in
  activity <- zoom brain set_brain
                (simulate_activity duration (o_state o) (o_spike_rate_range o)) ;;
  ret {| a_duration := a_duration activity;
         a_state := a_state activity;
         a_spike_trains := a_spike_trains activity;
         a_eeg_signals := a_eeg_signals activity;
         a_n_neurons := a_n_neurons activity;
         a_n_channels := a_n_channels activity;
         a_sampling_rate := a_sampling_rate activity;
         a_timestamp := a_timestamp activity;
         intuition_data :=
           Some {| d20_roll := base_roll;
                   wisdom_modifier := o_wisdom_mod o;
                   total_score := o_intuition_score o;
                   difficulty_class := difficulty;
                   success := o_success o;
                   character_wisdom := character_wisdom |} |}.

Definition get_summary_stats (self : BrainModel) : list (string * StatValue) :=
  match activity_history self with
  | [] => [ ("total_simulations", SInt 0);
            ("total_duration", SFloat 0);
            ("states", SStates []) ]%string
  | _ :: _ =>
      let total_duration := Qsum (map h_duration (activity_history self)) in
      let total_spikes :=
        fold_left Nat.add (map h_spike_count (activity_history self)) 0%nat in
      let states := fold_left count_state (activity_history self) [] in
      [ ("total_simulations", SInt (Z.of_nat (List.length (activity_history self))));
        ("total_duration", SFloat total_duration);
        ("total_spikes", SInt (Z.of_nat total_spikes));
        ("average_firing_rate",
         if Qltb 0 total_duration
         then SFloat (inject_Z (Z.of_nat total_spikes) / total_duration)
         else SInt 0);
        ("states", SStates states);
        ("n_neurons", SInt (n_neurons self));
        ("n_channels", SInt (Z.of_nat (List.length (eeg_channels self)))) ]%string
  end.

End BrainModel.

Arguments EEGGenerator RS : clear implicits.
Arguments BrainModel RS : clear implicits.
Arguments Process RS : clear implicits.

(** ** logger.py *)

(** A value handed to the CSV writer. *)
Inductive Cell : Type :=
| CNone
| CBool (b : bool)
| CInt (n : Z)
| CFloat (x : Q)
| CStr (s : string).

(** A logged entry: the copied data and the ["timestamp"] key added to
    the copy when [add_timestamp] holds. *)
Record Stamped (D : Type) : Type := {
  entry_data : D;
  entry_timestamp : option string
}.
Arguments entry_data {D} s.
Arguments entry_timestamp {D} s.

(** What a file holds after a save: the entries dumped as JSON, or the
    rows written through the CSV writer. *)
Inductive FileContent (D : Type) : Type :=
| JsonFile (entries : list (Stamped D)) (pretty : bool)
| CsvFile (rows : list (list Cell)).
Arguments JsonFile {D} entries pretty.
Arguments CsvFile {D} rows.

Record JSONLogger (D : Type) : Type := {
  jl_output_dir : string;
  jl_filepath : string;
  log_entries : list (Stamped D)
}.
Arguments jl_output_dir {D} j.
Arguments jl_filepath {D} j.
Arguments log_entries {D} j.

Record CSVLogger : Type := {
  cl_output_dir : string;
  cl_filepath : string
}.

(** [JSONLogger.log]; [now] is the reading of [datetime.now().isoformat()]
    at the call. *)
Definition log {D} (now : string) (data : D) (add_timestamp : bool)
           (self : JSONLogger D) : JSONLogger D :=
  let entry := {| entry_data := data;
                  entry_timestamp := if add_timestamp then Some now else None |} in
  {| jl_output_dir := jl_output_dir self;
     jl_filepath := jl_filepath self;
     log_entries := log_entries self ++ [entry] |}.

(** [JSONLogger.clear] *)
Definition clear {D} (self : JSONLogger D) : JSONLogger D :=
  {| jl_output_dir := jl_output_dir self;
     jl_filepath := jl_filepath self;
     log_entries := [] |}.

Definition spike_trains_header : list Cell :=
  [CStr "neuron_id"; CStr "spike_time"; CStr "spike_count"; CStr "duration";
   CStr "firing_rate"; CStr "mode"].

(** The rows written for one neuron by [save_spike_trains]. *)
Definition neuron_rows (neuron : SpikeTrain) : list (list Cell) :=
  let neuron_id := CInt (neuron_id neuron) in
  let spike_count := CInt (Z.of_nat (spike_count neuron)) in
  let duration := CFloat (st_duration neuron) in
  let firing_rate := CFloat (firing_rate neuron) in
  let mode := CStr (st_mode neuron) in
  match spike_times neuron with
  | [] => [[neuron_id; CNone; spike_count; duration; firing_rate; mode]]
  | _ :: _ =>
      map (fun spike_time =>
             [neuron_id; CFloat spike_time; spike_count; duration; firing_rate; mode])
          (spike_times neuron)
  end.

Definition spike_trains_rows (spike_data : list SpikeTrain) : list (list Cell) :=
  spike_trains_header :: flat_map neuron_rows spike_data.




(** [sorted(fieldnames)] on strings, after the [set] has dropped the
    repeated keys. *)
Fixpoint insert_key (k : string) (l : list string) : list string :=
  match l with
  | [] => [k]
  | k' :: l' => if String.leb k k' then k :: k' :: l' else k' :: insert_key k l'
  end.

Definition sorted_fieldnames (data : list (list (string * Cell))) : list string :=
  fold_right insert_key [] (nodup string_dec (flat_map (map fst) data)).

(** The row [csv.DictWriter] writes for one dict: a missing key gives
    the empty string. *)
Definition dict_row (fieldnames : list string) (entry : list (string * Cell))
  : list Cell :=
  map (fun k => match dict_get k entry with Some v => v | None => CStr "" end)
      fieldnames.

Definition summary_rows (data : list (list (string * Cell))) : list (list Cell) :=
  let fieldnames := sorted_fieldnames data in
  map CStr fieldnames :: map (dict_row fieldnames) data.

Section Files.
Context {D : Type}.
(** [Path(output_dir) / filename], then [str(...)]. *)
Variable path_join : string -> string -> string.

(** The files of the log directory, by path. *)
Definition Files : Type := list (string * FileContent D).

(** [if filename: output_dir / filename else: self.filepath] *)
Definition csv_target (self : CSVLogger) (filename : option string) : string :=
  match filename with
  | Some f => if String.eqb f "" then cl_filepath self
              else path_join (cl_output_dir self) f
  | None => cl_filepath self
  end.

Definition save (self : JSONLogger D) (pretty : bool) (files : Files) : string * Files :=
  (jl_filepath self, dict_set (jl_filepath self) (JsonFile (log_entries self) pretty) files).

Definition save_spike_trains (self : CSVLogger) (spike_data : list SpikeTrain)
           (filename : option string) (files : Files) : string * Files :=
  let filepath := csv_target self filename in
  (filepath, dict_set filepath (CsvFile (spike_trains_rows spike_data)) files).


Definition save_summary (self : CSVLogger) (data : list (list (string * Cell)))
           (filename : option string) (files : Files) : string * Files :=
  let filepath := csv_target self filename in
  match data with
  | [] => (filepath, files)
  | _ :: _ => (filepath, dict_set filepath (CsvFile (summary_rows data)) files)
  end.

End Files.

(** ** api_hooks.py *)

Record NeuralSummary : Type := {
  ns_state : string;
  ns_n_neurons : Z;
  ns_total_spikes : nat;
  ns_duration : Q
}.

(** The result dict of [intuition_check]. *)
Record CheckResult : Type := {
  cr_character_name : string;
  cr_intuition_check : IntuitionData;
  cr_context : option string;
  cr_neural_summary : NeuralSummary
}.

Record PreData : Type := {
  pd_character_name : string;
  pd_wisdom : Z;
  pd_difficulty : Z;
  pd_context : option string
}.

(** One entry of [checks] in [batch_intuition_checks]: the keys that are
    present. *)
Record CheckParams : Type := {
  cp_character_name : option string;
  cp_wisdom : option Z;
  cp_difficulty : option Z;
  cp_context : option string;
  cp_duration : option Q
}.

(** Exceptions that are not [Exception]s: [except Exception] does not
    catch them. *)
Inductive BaseExc : Type :=
| SystemExit
| KeyboardInterrupt
| GeneratorExit.

(** Exceptions at the level of the API: those of the generators, the two
    the API layer adds, and what a callback lets escape. *)
Inductive ApiExc : Type :=
| CoreError (e : PyExc)
| RuntimeError (msg : string)
| KeyError (key : string)
| NotAnException (e : BaseExc).

(** How a call of a callback ends: it returns, it raises an [Exception]
    whose text is [message], or it raises something that is not an
    [Exception]. *)
Inductive CallbackExit : Type :=
| Returns
| Raises (message : string)
| Escapes (e : BaseExc).

Inductive ApiResult (A : Type) : Type :=
| Done (a : A)
| Failed (e : ApiExc)
| Hangs.
Arguments Done {A} a.
Arguments Failed {A} e.
Arguments Hangs {A}.

Definition Api (S A : Type) : Type := S -> ApiResult A * S.

Definition api_ret {S A} (a : A) : Api S A := fun s => (Done a, s).
Definition api_raise {S A} (e : ApiExc) : Api S A := fun s => (Failed e, s).
Definition api_bind {S A B} (c : Api S A) (k : A -> Api S B) : Api S B :=
  fun s => match c s with
           | (Done a, s') => k a s'
           | (Failed e, s') => (Failed e, s')
           | (Hangs, s') => (Hangs, s')
           end.

Notation "x <~ c ;; k" := (api_bind c (fun x => k))
  (at level 61, c at next level, right associativity) : py_scope.
Notation "c ~;; k" := (api_bind c (fun _ => k))
  (at level 61, right associativity) : py_scope.

Fixpoint api_for_each {S A B} (body : A -> Api S B) (xs : list A) : Api S (list B) :=
  match xs with
  | [] => api_ret []
  | x :: xs' => y <~ body x ;; ys <~ api_for_each body xs' ;; api_ret (y :: ys)
  end.

(** The values of the statistics dict. *)
Definition count_where {A} (f : A -> bool) (l : list A) : Z :=
  Z.of_nat (List.length (filter f l)).

Definition summary_entry (entry : Stamped CheckResult) : list (string * Cell) :=
  let r := entry_data entry in
  [ ("character_name", CStr (cr_character_name r));
    ("d20_roll", CInt (d20_roll (cr_intuition_check r)));
    ("wisdom_modifier", CInt (wisdom_modifier (cr_intuition_check r)));
    ("total_score", CInt (total_score (cr_intuition_check r)));
    ("difficulty", CInt (difficulty_class (cr_intuition_check r)));
    ("success", CBool (success (cr_intuition_check r)));
    ("state", CStr (ns_state (cr_neural_summary r)));
    ("total_spikes", CInt (Z.of_nat (ns_total_spikes (cr_neural_summary r))));
    ("context", match cr_context r with Some c => CStr c | None => CNone end) ]%string.

Section IntuitionRollAPI.
Context {RS : Type} `{RandomState RS} `{FloatMath}.
(** The world the callbacks act on. *)
Context {W : Type}.
Variable path_join : string -> string -> string.

(** Caller-supplied code called with a dict of shape [P]: besides how it
    ends, the call yields what it leaves in that very dict, in the
    process-wide generator [np.random] and in the world of the caller.
    The dict is the one the API goes on to use, so what the callback
    writes into it is seen by everything that reads it afterwards. *)
Definition Hook (P : Type) : Type := P -> RS -> W -> CallbackExit * P * RS * W.

(** A registered callback: a callable, given by what it does with each
    of the two dicts the API calls callbacks with (the data of pre_roll,
    the result of the other three events).  It is taken to keep no
    reference to the dict once it has returned, and not to reach the API
    object. *)
Record Callback : Type := {
  on_pre_roll_data : Hook PreData;
  on_result : Hook CheckResult
}.

Record IntuitionRollAPI : Type := {
  brain_model : BrainModel RS;
  enable_logging : bool;
  log_dir : string;
  json_logger : JSONLogger CheckResult;   (* read only under enable_logging *)
  csv_logger : CSVLogger;                 (* read only under enable_logging *)
  callbacks : list (string * list Callback)
}.

(** What a call can touch besides the API object: the process-wide
    generator, the world of the callbacks, the printed lines, the clock
    (its readings, and how many were taken) and the files. *)
Record Session : Type := {
  ses_np_random : RS;
  ses_world : W;
  ses_stdout : list string;
  ses_clock : nat -> string;
  ses_ticks : nat;
  ses_files : list (string * FileContent CheckResult);
  api : IntuitionRollAPI
}.

Definition IntuitionRollAPI_init (brain_model : BrainModel RS) (enable_logging : bool)
           (log_dir json_filename csv_filename : string) : IntuitionRollAPI :=
  {| brain_model := brain_model;
     enable_logging := enable_logging;
     log_dir := log_dir;
     json_logger := {| jl_output_dir := log_dir;
                       jl_filepath := path_join log_dir json_filename;
                       log_entries := [] |};
     csv_logger := {| cl_output_dir := log_dir;
                      cl_filepath := path_join log_dir csv_filename |};
     callbacks := [ ("pre_roll", []); ("post_roll", []);
                    ("critical_success", []); ("critical_failure", []) ]%string |}.

Definition with_api (f : IntuitionRollAPI -> IntuitionRollAPI) (s : Session) : Session :=
  {| ses_np_random := ses_np_random s; ses_world := ses_world s;
     ses_stdout := ses_stdout s; ses_clock := ses_clock s; ses_ticks := ses_ticks s;
     ses_files := ses_files s; api := f (api s) |}.

Definition set_callbacks (cbs : list (string * list Callback)) (a : IntuitionRollAPI)
  : IntuitionRollAPI :=
  {| brain_model := brain_model a; enable_logging := enable_logging a;
     log_dir := log_dir a; json_logger := json_logger a; csv_logger := csv_logger a;
     callbacks := cbs |}.

Definition set_json_logger (j : JSONLogger CheckResult) (a : IntuitionRollAPI)
  : IntuitionRollAPI :=
  {| brain_model := brain_model a; enable_logging := enable_logging a;
     log_dir := log_dir a; json_logger := j; csv_logger := csv_logger a;
     callbacks := callbacks a |}.

Definition set_brain_model (b : BrainModel RS) (a : IntuitionRollAPI)
  : IntuitionRollAPI :=
  {| brain_model := b; enable_logging := enable_logging a;
     log_dir := log_dir a; json_logger := json_logger a; csv_logger := csv_logger a;
     callbacks := callbacks a |}.

Definition register_callback (event : string) (callback : Callback) : Api Session unit :=
  fun s =>
    match dict_get event (callbacks (api s)) with
    | None => (Failed (CoreError (ValueError ("Unknown event: " ++ event))), s)
    | Some registered =>
        (Done tt,
         with_api (set_callbacks
                     (dict_set event (registered ++ [callback]) (callbacks (api s)))) s)
    end.

(** The session after a callback: the generator, the world and the
    printed lines as the call left them. *)
Definition after_callback (rng : RS) (w : W) (out : list string) (s : Session) : Session :=
  {| ses_np_random := rng; ses_world := w; ses_stdout := out;
     ses_clock := ses_clock s; ses_ticks := ses_ticks s;
     ses_files := ses_files s; api := api s |}.

(** One callback under [try ... except Exception]: an [Exception] is
    printed and swallowed, anything else goes on to the caller.  The
    value is the content of the dict after the call. *)
Definition run_callback {P} (call : Callback -> Hook P) (event : string)
           (callback : Callback) (data : P) : Api Session P :=
  fun s =>
    let '(exit, data', rng, w) := call callback data (ses_np_random s) (ses_world s) in
    match exit with
    | Returns => (Done data', after_callback rng w (ses_stdout s) s)
    | Raises e =>
        (Done data',
         after_callback rng w
           (ses_stdout s ++ [("Callback error for " ++ event ++ ": " ++ e)%string]) s)
    | Escapes e => (Failed (NotAnException e), after_callback rng w (ses_stdout s) s)
    end.

(** The loop of [_trigger_callbacks] over the registered callbacks. *)
Fixpoint run_callbacks {P} (call : Callback -> Hook P) (event : string)
         (registered : list Callback) (data : P) : Api Session P :=
  match registered with
  | [] => api_ret data
  | callback :: rest =>
      data <~ run_callback call event callback data ;;
      run_callbacks call event rest data
  end.

(** [_trigger_callbacks]; the value is the content of [data] afterwards. *)
Definition trigger_callbacks {P} (call : Callback -> Hook P) (event : string) (data : P)
  : Api Session P :=
  fun s =>
    let registered := match dict_get event (callbacks (api s)) with
                      | Some cbs => cbs
                      | None => []
                      end in
    run_callbacks call event registered data s.

(** The call of [self.brain_model.generate_intuition_signal]. *)
Definition call_brain (difficulty wisdom : Z) (duration : Q) : Api Session Activity :=
  fun s =>
    let (r, p) := generate_intuition_signal difficulty wisdom duration
                    {| np_random := ses_np_random s; brain := brain_model (api s) |} in
    let s' := {| ses_np_random := np_random p; ses_world := ses_world s;
                 ses_stdout := ses_stdout s; ses_clock := ses_clock s;
                 ses_ticks := ses_ticks s; ses_files := ses_files s;
                 api := set_brain_model (brain p) (api s) |} in
    (match r with
     | Ok a => Done a
     | Raise e => Failed (CoreError e)
     | Diverge => Hangs
     end, s').

(** [self.json_logger.log(result)], reading the clock once. *)
Definition log_result (result : CheckResult) : Api Session unit :=
  fun s =>
    (Done tt,
     {| ses_np_random := ses_np_random s; ses_world := ses_world s;
        ses_stdout := ses_stdout s; ses_clock := ses_clock s;
        ses_ticks := S (ses_ticks s); ses_files := ses_files s;
        api := set_json_logger
                 (log (ses_clock s (ses_ticks s)) result true (json_logger (api s)))
                 (api s) |}).

Definition intuition_check (character_name : string) (wisdom difficulty : Z)
           (context : option string) (duration : Q) : Api Session CheckResult :=
  let pre_data := {| pd_character_name := character_name; pd_wisdom := wisdom;
                     pd_difficulty := difficulty; pd_context := context |} in
  trigger_callbacks on_pre_roll_data "pre_roll" pre_data ~;;
  neural_data <~ call_brain difficulty wisdom duration ;;
  match intuition_data neural_data with
  | None => api_raise (KeyError "intuition_data")
  | Some intuition_result =>
      let result :=
        {| cr_character_name := character_name;
           cr_intuition_check := intuition_result;
           cr_context := context;
           cr_neural_summary :=
             {| ns_state := a_state neural_data;
                ns_n_neurons := a_n_neurons neural_data;
                ns_total_spikes :=
                  fold_left Nat.add (map spike_count (a_spike_trains neural_data)) 0%nat;
                ns_duration := duration |} |} in
      result <~ (if (d20_roll intuition_result =? 20)%Z
                 then trigger_callbacks on_result "critical_success" result
                 else if (d20_roll intuition_result =? 1)%Z
                      then trigger_callbacks on_result "critical_failure" result
                      else api_ret result) ;;
      result <~ trigger_callbacks on_result "post_roll" result ;;
      (fun s => if enable_logging (api s) then log_result result s
                else (Done tt, s)) ~;;
      api_ret result
  end.

Definition batch_intuition_checks (checks : list CheckParams)
  : Api Session (list CheckResult) :=
  api_for_each (fun check =>
                  intuition_check (default "Unknown"%string (cp_character_name check))
                                  (default 10%Z (cp_wisdom check))
                                  (default 10%Z (cp_difficulty check))
                                  (cp_context check)
                                  (default 1 (cp_duration check)))
               checks.

Definition save_logs (format : string) : Api Session string :=
  fun s =>
    if negb (enable_logging (api s))
    then (Failed (RuntimeError "Logging is not enabled"), s)
    else
      let write (saved : string * list (string * FileContent CheckResult)) :=
        (Done (fst saved),
         {| ses_np_random := ses_np_random s; ses_world := ses_world s;
            ses_stdout := ses_stdout s; ses_clock := ses_clock s;
            ses_ticks := ses_ticks s; ses_files := snd saved; api := api s |}) in
      if String.eqb format "json"
      then write (save (json_logger (api s)) true (ses_files s))
      else if String.eqb format "csv"
      then
        let summary_data := map summary_entry (log_entries (json_logger (api s))) in
        write (save_summary path_join (csv_logger (api s)) summary_data
                            (Some "intuition_checks.csv"%string) (ses_files s))
      else (Failed (CoreError (ValueError ("Unknown format: " ++ format))), s).

Definition get_statistics (self : IntuitionRollAPI) : list (string * StatValue) :=
  if negb (enable_logging self)
     || match log_entries (json_logger self) with [] => true | _ :: _ => false end
  then [ ("total_checks", SInt 0); ("success_rate", SFloat 0);
         ("critical_success_rate", SFloat 0);
         ("critical_failure_rate", SFloat 0) ]%string
  else
    let entries := map (fun e => cr_intuition_check (entry_data e))
                       (log_entries (json_logger self)) in
    let total := Z.of_nat (List.length entries) in
    let successes := count_where success entries in
    let nat_20s := count_where (fun e => (d20_roll e =? 20)%Z) entries in
    let nat_1s := count_where (fun e => (d20_roll e =? 1)%Z) entries in
    let avg_roll := inject_Z (fold_left Z.add (map d20_roll entries) 0%Z)
                    / inject_Z total in
    let avg_total := inject_Z (fold_left Z.add (map total_score entries) 0%Z)
                     / inject_Z total in
    [ ("total_checks", SInt total);
      ("success_count", SInt successes);
      ("success_rate", SFloat (inject_Z successes / inject_Z total));
      ("critical_success_count", SInt nat_20s);
      ("critical_success_rate", SFloat (inject_Z nat_20s / inject_Z total));
      ("critical_failure_count", SInt nat_1s);
      ("critical_failure_rate", SFloat (inject_Z nat_1s / inject_Z total));
      ("average_d20_roll", SFloat avg_roll);
      ("average_total_score", SFloat avg_total) ]%string.

End IntuitionRollAPI.

Arguments IntuitionRollAPI RS W : clear implicits.
Arguments Session RS W : clear implicits.
Arguments Callback RS W : clear implicits.
Arguments Hook RS W P : clear implicits.

(** * Vocabulary of the properties *)

(** The call ends in an exception. *)
Definition raises {A} (r : Result A) : Prop := exists e, r = Raise e.

(** The exceptions the code raises for a bad mode or state. *)
Definition InvalidMode (mode : string) : PyExc := ValueError ("Unknown mode: " ++ mode).
Definition UnknownState (state : string) : PyExc := ValueError ("Unknown state: " ++ state).

Definition known_mode (mode : string) : Prop :=
  mode = "poisson"%string \/ mode = "refractory"%string \/ mode = "burst"%string.

Definition canonical_state (state : string) : Prop :=
  state = "relaxed"%string \/ state = "focused"%string \/
  state = "drowsy"%string \/ state = "active"%string.

(** A rate range with min > max, or a duration that is not positive. *)
Definition invalid_range (rate_range : Q * Q) (duration : Q) : Prop :=
  snd rate_range < fst rate_range \/ duration <= 0.

(** The bins drawn by [poisson_spikes] and the times it returns. *)
Definition poisson_bins (duration dt : Q) : nat :=
  Z.to_nat (Qfloor (duration / dt)).

Definition poisson_times (rate dt : Q) (draws : list Q) : list Q :=
  map (fun i => inject_Z (Z.of_nat i) * dt)
      (np_where (map (fun u => Qltb u (rate * dt)) draws)).

(** The activity dict after [activity["intuition_data"] = {...}]. *)
Definition with_intuition_data (activity : Activity) (d : IntuitionData) : Activity :=
  {| a_duration := a_duration activity;
     a_state := a_state activity;
     a_spike_trains := a_spike_trains activity;
     a_eeg_signals := a_eeg_signals activity;
     a_n_neurons := a_n_neurons activity;
     a_n_channels := a_n_channels activity;
     a_sampling_rate := a_sampling_rate activity;
     a_timestamp := a_timestamp activity;
     intuition_data := Some d |}.

(** The history entries of one state, their number and their summed
    duration (added in history order, as the loop does). *)
Definition entries_of (state : string) (history : list HistoryEntry) : list HistoryEntry :=
  filter (fun h => String.eqb (h_state h) state) history.

Definition state_count (state : string) (history : list HistoryEntry) : Z :=
  Z.of_nat (List.length (entries_of state history)).

Definition state_duration (state : string) (history : list HistoryEntry) : Q :=
  Qsum (map h_duration (entries_of state history)).

(** The summary of an empty history as the specification words it:
    zero simulations and duration, a spike total, a zero average rate and
    an empty breakdown. *)
Definition empty_summary_as_specified (stats : list (string * StatValue)) : Prop :=
  dict_get "total_simulations" stats = Some (SInt 0) /\
  dict_get "total_duration" stats = Some (SFloat 0) /\
  (exists v, dict_get "total_spikes" stats = Some v) /\
  (dict_get "average_firing_rate" stats = Some (SInt 0) \/
   dict_get "average_firing_rate" stats = Some (SFloat 0)) /\
  dict_get "states" stats = Some (SStates []).

(** The entry of one state while the history is scanned. *)
Fixpoint tally (state : string) (cur : option StateStat) (history : list HistoryEntry)
  : option StateStat :=
  match history with
  | [] => cur
  | h :: rest =>
      if String.eqb (h_state h) state then
        let c := match cur with Some e => ss_count e | None => 0%Z end in
        let d := match cur with Some e => ss_duration e | None => 0 end in
        tally state (Some {| ss_count := c + 1; ss_duration := d + h_duration h |}) rest
      else tally state cur rest
  end.

(** Consecutive entries at least [gap] apart. *)
Fixpoint gaps_at_least (gap : Q) (l : list Q) : Prop :=
  match l with
  | a :: ((b :: _) as rest) => gap <= b - a /\ gaps_at_least gap rest
  | _ => True
  end.

(** The burst property as the specification words it: every run of
    [spikes_per_burst] consecutive output entries whose last spike would
    still fall before [duration] is spaced exactly [interval] apart. *)
Definition runs_evenly_spaced (spikes_per_burst : Z) (duration interval : Q)
           (l : list Q) : Prop :=
  forall j : nat,
    (j + Z.to_nat spikes_per_burst <= List.length l)%nat ->
    nth j l 0 + inject_Z (spikes_per_burst - 1) * interval < duration ->
    forall k : nat,
      (S k < Z.to_nat spikes_per_burst)%nat ->
      nth (j + S k) l 0 - nth (j + k) l 0 == interval.

Section OutcomeVocabulary.
Context {RS : Type} `{RandomState RS} `{FloatMath}.

(** [simulate_activity] with an unknown state: the error, the history
    left alone, and [current_state] already overwritten. *)
Definition unknown_state_outcome (self : BrainModel RS) (duration : Q)
           (state : string) (spike_rate_range : Q * Q) : Prop :=
  let (r, self') := simulate_activity duration state spike_rate_range self in
  r = Raise (UnknownState state) /\
  activity_history self' = activity_history self /\
  current_state self' = state.

(** The activity dict and history entry built by [simulate_activity]. *)
Definition activity_of (self : BrainModel RS) (duration : Q) (state : string)
           (spike_data : list SpikeTrain) (eeg_data : list ChannelData) : Activity :=
  {| a_duration := duration;
     a_state := state;
     a_spike_trains := spike_data;
     a_eeg_signals := eeg_data;
     a_n_neurons := n_neurons self;
     a_n_channels := List.length (eeg_channels self);
     a_sampling_rate := sampling_rate self;
     a_timestamp := None;
     intuition_data := None |}.

Definition history_entry_of (duration : Q) (state : string)
           (spike_data : list SpikeTrain) : HistoryEntry :=
  {| h_duration := duration;
     h_state := state;
     h_spike_count := fold_left Nat.add (map spike_count spike_data) 0%nat |}.



(** The result of [poisson_spikes] as the specification words it:
    times in [0, duration), each a bin index times [dt], and strictly
    fewer than duration/dt of them. *)
Definition poisson_as_specified (rate duration dt : Q) (rng : RS) : Prop :=
  exists l rng',
    poisson_spikes rate duration dt rng = (Ok l, rng') /\
    Forall (fun t => 0 <= t /\ t < duration) l /\
    (exists idxs : list nat, l = map (fun i => inject_Z (Z.of_nat i) * dt) idxs) /\
    inject_Z (Z.of_nat (List.length l)) < duration / dt.

Definition burst_as_specified (burst_rate : Q) (spikes_per_burst : Z)
           (duration interval dt : Q) (rng : RS) : Prop :=
  exists l rng',
    burst_spikes burst_rate spikes_per_burst duration interval dt rng = (Ok l, rng') /\
    StronglySorted Qle l /\
    Forall (fun t => t < duration) l /\
    runs_evenly_spaced spikes_per_burst duration interval l.

End OutcomeVocabulary.

(** The five band names of [BANDS]. *)
Definition canonical_band (band : string) : Prop :=
  In band ["delta"; "theta"; "alpha"; "beta"; "gamma"]%string.

(** The number of samples of a signal: [int(duration * sampling_rate)]. *)
Definition sample_count (sampling_rate duration : Q) : Z :=
  py_int (duration * sampling_rate).

(** The clock of the loop of [refractory_spikes] after [k] executions
    of [t += dt], starting from 0.0. *)
Definition clock (dt : Q) (k : nat) : Q := Nat.iter k (fun t => t + dt) 0.

(** What numpy says when [np.max] gets an empty array. *)
Definition EmptyReduction : PyExc :=
  ValueError "zero-size array to reduction operation maximum which has no identity".

(** The four states from the worst outcome to the best. *)
Definition state_rank (state : string) : Z :=
  if String.eqb state "drowsy" then 0
  else if String.eqb state "relaxed" then 1
  else if String.eqb state "active" then 2
  else if String.eqb state "focused" then 3
  else (-1).

(** The counts of a per-state breakdown, added up. *)
Definition breakdown_count (states : list (string * StateStat)) : Z :=
  fold_right (fun kv acc => (ss_count (snd kv) + acc)%Z) 0%Z states.

(** What the callbacks of one event act on: the dict they are handed,
    the process-wide generator, the world of the caller and the printed
    lines. *)
Record Reach (RS W P : Type) : Type := {
  r_data : P;
  r_np_random : RS;
  r_world : W;
  r_stdout : list string
}.
Arguments r_data {RS W P} r.
Arguments r_np_random {RS W P} r.
Arguments r_world {RS W P} r.
Arguments r_stdout {RS W P} r.
Arguments Build_Reach {RS W P} r_data r_np_random r_world r_stdout.

Section ApiVocabulary.
Context {RS : Type} `{RandomState RS} `{FloatMath} {W : Type}.

(** The callbacks registered for an event ([self.callbacks.get(event, [])]). *)
Definition registered_for (event : string) (a : IntuitionRollAPI RS W)
  : list (Callback RS W) :=
  match dict_get event (callbacks a) with
  | Some cbs => cbs
  | None => []
  end.

Definition reach_of {P} (data : P) (s : Session RS W) : Reach RS W P :=
  {| r_data := data; r_np_random := ses_np_random s;
     r_world := ses_world s; r_stdout := ses_stdout s |}.

Definition with_reach {P} (o : Reach RS W P) (s : Session RS W) : Session RS W :=
  after_callback (r_np_random o) (r_world o) (r_stdout o) s.

(** The generator, the world and the printed lines of a session. *)
Definition outside (s : Session RS W) : RS * W * list string :=
  (ses_np_random s, ses_world s, ses_stdout s).

Definition reached {P} (o : Reach RS W P) : RS * W * list string :=
  (r_np_random o, r_world o, r_stdout o).

Definition error_line (event message : string) : string :=
  ("Callback error for " ++ event ++ ": " ++ message)%string.

(** Callbacks called one after the other in list order, each on what the
    one before it left.  One that raises an [Exception] adds a line and
    the next one is called; one that lets anything else escape ends the
    run there: the later ones are not called and no line is added. *)
Fixpoint callbacks_run {P} (call : Callback RS W -> Hook RS W P) (event : string)
         (cbs : list (Callback RS W)) (o : Reach RS W P) : option BaseExc * Reach RS W P :=
  match cbs with
  | [] => (None, o)
  | cb :: rest =>
      let '(exit, data, rng, w) := call cb (r_data o) (r_np_random o) (r_world o) in
      match exit with
      | Returns =>
          callbacks_run call event rest
            {| r_data := data; r_np_random := rng; r_world := w;
               r_stdout := r_stdout o |}
      | Raises message =>
          callbacks_run call event rest
            {| r_data := data; r_np_random := rng; r_world := w;
               r_stdout := r_stdout o ++ [error_line event message] |}
      | Escapes e =>
          (Some e, {| r_data := data; r_np_random := rng; r_world := w;
                      r_stdout := r_stdout o |})
      end
  end.

(** The critical event of a roll, if any. *)
Definition critical_event (roll : Z) : option string :=
  if (roll =? 20)%Z then Some "critical_success"%string
  else if (roll =? 1)%Z then Some "critical_failure"%string
  else None.

(** The callbacks of the critical event of a roll, run on a result. *)
Definition critical_run (roll : Z) (a : IntuitionRollAPI RS W) (o : Reach RS W CheckResult)
  : option BaseExc * Reach RS W CheckResult :=
  match critical_event roll with
  | Some event => callbacks_run on_result event (registered_for event a) o
  | None => (None, o)
  end.

(** The dict handed to the pre_roll callbacks. *)
Definition pre_data_of (character_name : string) (wisdom difficulty : Z)
           (context : option string) : PreData :=
  {| pd_character_name := character_name; pd_wisdom := wisdom;
     pd_difficulty := difficulty; pd_context := context |}.

(** The pre_roll callbacks of a check, run on its data. *)
Definition pre_roll_run (character_name : string) (wisdom difficulty : Z)
           (context : option string) (s : Session RS W)
  : option BaseExc * Reach RS W PreData :=
  callbacks_run on_pre_roll_data "pre_roll" (registered_for "pre_roll" (api s))
                (reach_of (pre_data_of character_name wisdom difficulty context) s).

(** The result dict built by [intuition_check] from the neural data. *)
Definition check_result_of (character_name : string) (context : option string)
           (duration : Q) (neural_data : Activity) (d : IntuitionData) : CheckResult :=
  {| cr_character_name := character_name;
     cr_intuition_check := d;
     cr_context := context;
     cr_neural_summary :=
       {| ns_state := a_state neural_data;
          ns_n_neurons := a_n_neurons neural_data;
          ns_total_spikes :=
            fold_left Nat.add (map spike_count (a_spike_trains neural_data)) 0%nat;
          ns_duration := duration |} |}.

(** The process the brain call of a session runs in. *)
Definition process_of (s : Session RS W) : Process RS :=
  {| np_random := ses_np_random s; brain := brain_model (api s) |}.

(** The session when the brain call has ended in the process [p]. *)
Definition after_brain_call (s : Session RS W) (p : Process RS) : Session RS W :=
  {| ses_np_random := np_random p; ses_world := ses_world s;
     ses_stdout := ses_stdout s;
     ses_clock := ses_clock s; ses_ticks := ses_ticks s; ses_files := ses_files s;
     api := set_brain_model (brain p) (api s) |}.

(** The session after the result has been logged when logging is on. *)
Definition after_logging (s : Session RS W) (result : CheckResult) : Session RS W :=
  if enable_logging (api s) then
    {| ses_np_random := ses_np_random s; ses_world := ses_world s;
       ses_stdout := ses_stdout s;
       ses_clock := ses_clock s; ses_ticks := S (ses_ticks s);
       ses_files := ses_files s;
       api := set_json_logger
                (log (ses_clock s (ses_ticks s)) result true (json_logger (api s)))
                (api s) |}
  else s.




(** One check of a batch, with the defaults of the keys it lacks. *)
Definition check_of (check : CheckParams) : Api (Session RS W) CheckResult :=
  intuition_check (match cp_character_name check with Some n => n | None => "Unknown"%string end)
                  (match cp_wisdom check with Some w => w | None => 10%Z end)
                  (match cp_difficulty check with Some d => d | None => 10%Z end)
                  (cp_context check)
                  (match cp_duration check with Some d => d | None => 1 end).

(** Checks run one after the other, each from the session the one before
    it left, every one of them returning. *)
Inductive checks_run : Session RS W -> list CheckParams -> list CheckResult
                       -> Session RS W -> Prop :=
| run_none (s : Session RS W) : checks_run s [] [] s
| run_next (s : Session RS W) (check : CheckParams) (result : CheckResult)
           (s1 : Session RS W) (checks : list CheckParams)
           (results : list CheckResult) (s2 : Session RS W) :
    check_of check s = (Done result, s1) ->
    checks_run s1 checks results s2 ->
    checks_run s (check :: checks) (result :: results) s2.

(** The entries a call has added to the log are those of [results], in
    order, when logging is on, and none when it is off. *)
Definition logged_exactly (s s' : Session RS W) (results : list CheckResult) : Prop :=
  exists added,
    log_entries (json_logger (api s')) = log_entries (json_logger (api s)) ++ added /\
    if enable_logging (api s) then map entry_data added = results else added = [].

End ApiVocabulary.

(** A world for concrete runs: the names of the callbacks that were
    called.  [named_callback name exit] records its call and ends as
    [exit]; the other two also write: one into the result dict, one into
    the process-wide generator. *)
Definition named_hook {P} (name : string) (exit : CallbackExit) : Hook Z (list string) P :=
  fun data rng w => (exit, data, rng, w ++ [name]).

Definition named_callback (name : string) (exit : CallbackExit) : Callback Z (list string) :=
  {| on_pre_roll_data := named_hook name exit; on_result := named_hook name exit |}.

Definition recording_callback (name : string) : Callback Z (list string) :=
  named_callback name Returns.

Definition raising_callback (name : string) : Callback Z (list string) :=
  named_callback name (Raises "boom").

Definition exiting_callback (name : string) : Callback Z (list string) :=
  named_callback name (Escapes SystemExit).

(** [data["character_name"] = new_name] *)
Definition renaming_callback (new_name : string) : Callback Z (list string) :=
  {| on_pre_roll_data :=
       fun d rng w =>
         (Returns,
          {| pd_character_name := new_name; pd_wisdom := pd_wisdom d;
             pd_difficulty := pd_difficulty d; pd_context := pd_context d |},
          rng, w ++ ["rename"%string]);
     on_result :=
       fun r rng w =>
         (Returns,
          {| cr_character_name := new_name;
             cr_intuition_check := cr_intuition_check r;
             cr_context := cr_context r;
             cr_neural_summary := cr_neural_summary r |},
          rng, w ++ ["rename"%string]) |}.

(** [np.random.seed(seed)] *)
Definition reseeding_callback (seed : Z) : Callback Z (list string) :=
  {| on_pre_roll_data := fun d _ w => (Returns, d, rs_seed seed, w ++ ["reseed"%string]);
     on_result := fun r _ w => (Returns, r, rs_seed seed, w ++ ["reseed"%string]) |}.

Definition posix_join (dir filename : string) : string :=
  (dir ++ "/" ++ filename)%string.

Definition fresh_session (b : BrainModel Z) (enable_logging : bool)
  : Session Z (list string) :=
  {| ses_np_random := 7%Z; ses_world := []; ses_stdout := [];
     ses_clock := fun _ => "2024-01-01T00:00:00"%string; ses_ticks := 0;
     ses_files := [];
     api := IntuitionRollAPI_init posix_join b enable_logging "logs" "bci.json" "bci.csv" |}.

(** The columns of the CSV summary of the logged checks, and the row of
    one logged check under them. *)
Definition summary_columns : list string :=
  ["character_name"; "context"; "d20_roll"; "difficulty"; "state"; "success";
   "total_score"; "total_spikes"; "wisdom_modifier"]%string.

Definition summary_row (entry : Stamped CheckResult) : list Cell :=
  let r := entry_data entry in
  [ CStr (cr_character_name r);
    match cr_context r with Some c => CStr c | None => CNone end;
    CInt (d20_roll (cr_intuition_check r));
    CInt (difficulty_class (cr_intuition_check r));
    CStr (ns_state (cr_neural_summary r));
    CBool (success (cr_intuition_check r));
    CInt (total_score (cr_intuition_check r));
    CInt (Z.of_nat (ns_total_spikes (cr_neural_summary r)));
    CInt (wisdom_modifier (cr_intuition_check r)) ].

(** The number of CSV rows of a population: one per spike, and one for
    a neuron without spikes. *)
Definition spike_row_count (spike_data : list SpikeTrain) : nat :=
  fold_right (fun neuron acc => (Nat.max 1 (List.length (spike_times neuron)) + acc)%nat)
             0%nat spike_data.

(** Alphabetical order of two field names. *)
Definition key_le (a b : string) : Prop := String.leb a b = true.

(** The model objects of the concrete runs: seed 42, two neurons. *)
Definition brain_no_channels : BrainModel Z := BrainModel_init 2 (Some []) 250 42.
Definition brain_one_channel : BrainModel Z :=
  BrainModel_init 2 (Some ["Fp1"%string]) 250 42.

(** * Properties *)

(** ** Arithmetic helpers *)

Lemma Qltb_lt (x y : Q) : Qltb x y = true <-> x < y.
Proof.
  unfold Qltb. rewrite negb_true_iff. split; intro Hxy.
  - apply Qnot_le_lt. intro Hle. apply Qle_bool_iff in Hle. congruence.
  - destruct (Qle_bool y x) eqn:E; [|reflexivity].
    apply Qle_bool_iff in E. exfalso. apply (Qlt_not_le _ _ Hxy E).
Qed.

Lemma Qltb_ge (x y : Q) : Qltb x y = false <-> y <= x.
Proof.
  unfold Qltb. rewrite negb_false_iff. apply Qle_bool_iff.
Qed.

Lemma py_int_nonneg (x : Q) : 0 <= x -> py_int x = Qfloor x.
Proof.
  intro Hx. destruct x as [n d]. unfold py_int, Qfloor. simpl.
  apply Z.quot_div_nonneg; [|lia].
  unfold Qle in Hx. simpl in Hx. lia.
Qed.

Lemma floor_half (w : Z) : Qfloor ((inject_Z w - 10) / 2) = ((w - 10) / 2)%Z.
Proof.
  assert (E : (inject_Z w - 10) / 2 == (w - 10) # 2).
  { unfold Qeq, Qdiv, Qminus, Qplus, Qmult, Qinv, Qopp, inject_Z. simpl. lia. }
  rewrite (Qfloor_comp _ _ E). reflexivity.
Qed.

(** ** Outcome classification *)

Lemma outcome_fields (roll wisdom difficulty : Z) :
  let o := intuition_outcome roll wisdom difficulty in
  o_wisdom_mod o = ((wisdom - 10) / 2)%Z /\
  o_intuition_score o = (roll + (wisdom - 10) / 2)%Z /\
  o_success o = (difficulty <=? roll + (wisdom - 10) / 2)%Z.
Proof.
  unfold intuition_outcome.
  destruct (difficulty <=? _)%Z; [destruct (_ <=? _)%Z|destruct (_ <? _)%Z];
    repeat split.
Qed.

Lemma outcome_selection (roll wisdom difficulty : Z) :
  let o := intuition_outcome roll wisdom difficulty in
  let score := (roll + (wisdom - 10) / 2)%Z in
  (o_state o, o_spike_rate_range o) =
  if (difficulty <=? score)%Z then
    if (difficulty + 5 <=? score)%Z
    then ("focused"%string, (30, 60)) else ("active"%string, (20, 45))
  else
    if (score <? difficulty - 5)%Z
    then ("drowsy"%string, (5, 20)) else ("relaxed"%string, (10, 30)).
Proof.
  unfold intuition_outcome.
  destruct (difficulty <=? _)%Z; [destruct (_ <=? _)%Z|destruct (_ <? _)%Z];
    reflexivity.
Qed.

(** Settles one branch of the selection from the two comparisons. *)
Ltac outcome_case Hsel :=
  revert Hsel;
  match goal with
  | |- context [(?d <=? ?s)%Z] =>
      destruct (d <=? s)%Z eqn:?;
      [destruct (d + 5 <=? s)%Z eqn:?|destruct (s <? d - 5)%Z eqn:?]
  end;
  intro Hsel; injection Hsel as -> ->;
  try (split; reflexivity); try discriminate;
  exfalso;
  rewrite ?Z.leb_le, ?Z.leb_gt, ?Z.ltb_lt, ?Z.ltb_ge in *; lia.

Section Classification.
Context {RS : Type} `{RandomState RS} `{FloatMath}.

(** [generate_intuition_signal] is the roll, the classification of
    lines 130-150, and [simulate_activity] at the chosen state. *)
Lemma generate_intuition_signal_unfold
      (difficulty wisdom : Z) (duration : Q) (p : Process RS) :
  generate_intuition_signal difficulty wisdom duration p =
  let (roll, g) := randint 1 21 (np_random p) in
  let o := intuition_outcome roll wisdom difficulty in
  let (r, b) := simulate_activity duration (o_state o) (o_spike_rate_range o) (brain p) in
  (match r with
   | Ok a => Ok (with_intuition_data a
                   {| d20_roll := roll;
                      wisdom_modifier := o_wisdom_mod o;
                      total_score := o_intuition_score o;
                      difficulty_class := difficulty;
                      success := o_success o;
                      character_wisdom := wisdom |})
   | Raise e => Raise e
   | Diverge => Diverge
   end,
   {| np_random := g; brain := b |}).
Proof.
  unfold generate_intuition_signal, bind, np_random_randint, zoom, set_brain, ret.
  destruct (randint 1 21 (np_random p)) as [roll g]. cbn [brain np_random].
  destruct (simulate_activity duration _ _ (brain p)) as [[a|e|] b]; reflexivity.
Qed.

(** C2. For every d20 roll in [1, 20], wisdom and difficulty, the
    classification computes wisdom_modifier = floor((wisdom - 10) / 2),
    total_score = roll + modifier, success = (total_score >= difficulty),
    and selects focused (30, 60) on success by at least 5, active (20, 45)
    on any other success, drowsy (5, 20) on failure by more than 5 and
    relaxed (10, 30) otherwise; [generate_intuition_signal] reports
    these values and simulates exactly the selected state and envelope,
    so the outcome depends on (roll, wisdom, difficulty) only. *)
Theorem C2_outcome_classification :
  forall d20_roll wisdom difficulty : Z,
    (1 <= d20_roll <= 20)%Z ->
    let o := intuition_outcome d20_roll wisdom difficulty in
    o_wisdom_mod o = Qfloor ((inject_Z wisdom - 10) / 2) /\
    o_intuition_score o = (d20_roll + o_wisdom_mod o)%Z /\
    (o_success o = true <-> (o_intuition_score o >= difficulty)%Z) /\
    (o_success o = true -> (o_intuition_score o >= difficulty + 5)%Z ->
     o_state o = "focused"%string /\ o_spike_rate_range o = (30, 60)) /\
    (o_success o = true -> ~ (o_intuition_score o >= difficulty + 5)%Z ->
     o_state o = "active"%string /\ o_spike_rate_range o = (20, 45)) /\
    (o_success o = false -> (o_intuition_score o < difficulty - 5)%Z ->
     o_state o = "drowsy"%string /\ o_spike_rate_range o = (5, 20)) /\
    (o_success o = false -> ~ (o_intuition_score o < difficulty - 5)%Z ->
     o_state o = "relaxed"%string /\ o_spike_rate_range o = (10, 30)) /\
    (forall (p : Process RS) (g : RS) (duration : Q),
        randint 1 21 (np_random p) = (d20_roll, g) ->
        generate_intuition_signal difficulty wisdom duration p =
        let (r, b) := simulate_activity duration (o_state o)
                                        (o_spike_rate_range o) (brain p) in
        (match r with
         | Ok a => Ok (with_intuition_data a
                         {| d20_roll := d20_roll;
                            wisdom_modifier := o_wisdom_mod o;
                            total_score := o_intuition_score o;
                            difficulty_class := difficulty;
                            success := o_success o;
                            character_wisdom := wisdom |})
         | Raise e => Raise e
         | Diverge => Diverge
         end,
         {| np_random := g; brain := b |})).
Proof.
  intros roll wisdom difficulty _ o.
  pose proof (outcome_fields roll wisdom difficulty) as (Hmod & Hscore & Hsucc).
  pose proof (outcome_selection roll wisdom difficulty) as Hsel.
  cbv zeta in Hsel. fold o in Hmod, Hscore, Hsucc, Hsel.
  rewrite Hscore, Hmod, Hsucc, floor_half.
  split; [reflexivity|]. split; [reflexivity|].
  split; [rewrite Z.leb_le; lia|].
  split; [intros Hs Hm; outcome_case Hsel|].
  split; [intros Hs Hm; outcome_case Hsel|].
  split; [intros Hs Hm; outcome_case Hsel|].
  split; [intros Hs Hm; outcome_case Hsel|].
  intros p g duration Hroll.
  rewrite generate_intuition_signal_unfold, Hroll. cbv zeta. fold o.
  rewrite Hmod, Hscore, Hsucc. reflexivity.
Qed.

End Classification.

(** The boundary and end-to-end cases of the classification. *)
Example wisdom_10_modifier : o_wisdom_mod (intuition_outcome 1 10 10) = 0%Z.
Proof. reflexivity. Qed.

Example wisdom_8_modifier : o_wisdom_mod (intuition_outcome 1 8 10) = (-1)%Z.
Proof. reflexivity. Qed.

Example strong_success :
  let o := intuition_outcome 17 18 10 in
  o_intuition_score o = 21%Z /\ o_success o = true /\ o_state o = "focused"%string.
Proof. repeat split. Qed.

Example critical_failure :
  let o := intuition_outcome 3 10 15 in
  o_intuition_score o = 3%Z /\ o_success o = false /\ o_state o = "drowsy"%string.
Proof. repeat split. Qed.

(** ** Loops and calls that cannot fail *)

Lemma for_each_ok {S A B} (P : B -> Prop) (body : A -> Py S B) (xs : list A) :
  (forall x s, exists y s', body x s = (Ok y, s') /\ P y) ->
  forall s, exists ys s',
      for_each body xs s = (Ok ys, s') /\
      List.length ys = List.length xs /\ Forall P ys.
Proof.
  intros Hbody. induction xs as [|x xs IH]; intros s.
  - exists [], s. repeat split. constructor.
  - destruct (Hbody x s) as (y & s1 & Ey & Py).
    destruct (IH s1) as (ys & s2 & Eys & Hlen & Hall).
    exists (y :: ys), s2. cbn [for_each]. unfold bind at 1. rewrite Ey.
    unfold bind at 1. rewrite Eys. unfold ret.
    repeat split; [cbn; congruence | constructor; assumption].
Qed.

Lemma range_length (n : Z) : List.length (range n) = Z.to_nat n.
Proof. unfold range. rewrite length_map, length_seq. reflexivity. Qed.

Lemma Qfloor_nonneg (x : Q) : 0 <= x -> (0 <= Qfloor x)%Z.
Proof. intro Hx. apply (Qfloor_resp_le 0 x) in Hx. exact Hx. Qed.

Lemma Qdiv_nonneg (x y : Q) : 0 <= x -> 0 < y -> 0 <= x / y.
Proof.
  intros Hx Hy. apply Qle_shift_div_l; [assumption|].
  rewrite Qmult_0_l. assumption.
Qed.

Lemma Qeq_bool_pos (x : Q) : 0 < x -> Qeq_bool x 0 = false.
Proof.
  intro Hx. destruct (Qeq_bool x 0) eqn:E; [|reflexivity].
  apply Qeq_bool_eq in E. rewrite E in Hx. exfalso. apply (Qlt_irrefl 0 Hx).
Qed.

Section Totality.
Context {RS : Type} `{RandomState RS}.

Lemma poisson_spikes_eq (rate duration dt : Q) (rng : RS) :
  0 < dt -> 0 <= duration ->
  poisson_spikes rate duration dt rng =
  (Ok (poisson_times rate dt (fst (random_n (poisson_bins duration dt) rng))),
   snd (random_n (poisson_bins duration dt) rng)).
Proof.
  intros Hdt Hdur.
  unfold poisson_spikes, bind, py_div, rng_random, ret, poisson_bins, poisson_times.
  rewrite (Qeq_bool_pos dt Hdt).
  pose proof (Qdiv_nonneg duration dt Hdur Hdt) as Hq.
  rewrite (py_int_nonneg _ Hq).
  pose proof (Qfloor_nonneg _ Hq) as Hn.
  destruct (Qfloor (duration / dt) <? 0)%Z eqn:E;
    [apply Z.ltb_lt in E; lia|].
  destruct (random_n (Z.to_nat (Qfloor (duration / dt))) rng) as [us rng'].
  reflexivity.
Qed.

Lemma random_n_length (n : nat) (rng : RS) :
  List.length (fst (random_n n rng)) = n.
Proof.
  revert rng. induction n as [|n IH]; intros rng; [reflexivity|].
  cbn [random_n]. destruct (random_sample rng) as [u rng1].
  specialize (IH rng1). destruct (random_n n rng1) as [us rng2].
  cbn in *. congruence.
Qed.

(** Poisson mode with the default [dt]: no exception for a duration
    that is not negative. *)
Lemma generate_spike_train_poisson (neuron_id : Z) (rate duration : Q) (rng : RS) :
  0 <= duration ->
  exists train rng',
    generate_spike_train neuron_id rate duration "poisson" no_kwargs rng
    = (Ok train, rng') /\
    spike_times train
    = poisson_times rate (1#1000)
                    (fst (random_n (poisson_bins duration (1#1000)) rng)) /\
    firing_rate train
    = (if Qltb 0 duration
       then inject_Z (Z.of_nat (List.length (spike_times train))) / duration
       else 0).
Proof.
  intro Hdur. unfold generate_spike_train. cbn [String.eqb Ascii.eqb Bool.eqb
    no_kwargs kw_dt kw_refractory_period kw_spikes_per_burst
    kw_intraburst_interval is_none andb default].
  unfold bind at 1.
  rewrite (poisson_spikes_eq rate duration (1#1000) rng) by (reflexivity || assumption).
  unfold ret. eexists; eexists. split; [reflexivity|]. split; reflexivity.
Qed.

Lemma generate_population_poisson (n_neurons : Z) (rate_range : Q * Q)
      (duration : Q) (rng : RS) :
  0 <= duration ->
  exists trains rng',
    generate_population n_neurons rate_range duration "poisson" rng
    = (Ok trains, rng') /\
    List.length trains = Z.to_nat n_neurons /\
    Forall (fun train =>
              (duration == 0 -> spike_times train = []) /\
              firing_rate train
              = (if Qltb 0 duration
                 then inject_Z (Z.of_nat (List.length (spike_times train))) / duration
                 else 0)) trains.
Proof.
  intro Hdur. unfold generate_population.
  rewrite <- range_length.
  apply for_each_ok. intros i s. unfold bind at 1.
  destruct (uniform (fst rate_range) (snd rate_range) s) as [rate s1].
  destruct (generate_spike_train_poisson i rate duration s1 Hdur)
    as (train & s2 & Etrain & Htimes & Hrate).
  exists train, s2. split; [assumption|]. split; [|assumption].
  intro Hzero. rewrite Htimes. unfold poisson_bins.
  assert (Eq : duration / (1#1000) == 0).
  { rewrite Hzero. reflexivity. }
  rewrite (Qfloor_comp _ _ Eq). reflexivity.
Qed.

End Totality.

(** ** Exceptions and what they leave behind *)

Lemma unknown_state_lookup (state : string) :
  ~ canonical_state state -> dict_get state state_profiles = None.
Proof.
  intro Hs. unfold canonical_state in Hs. unfold state_profiles, dict_get.
  destruct (String.eqb_spec state "relaxed"); [tauto|].
  destruct (String.eqb_spec state "focused"); [tauto|].
  destruct (String.eqb_spec state "drowsy"); [tauto|].
  destruct (String.eqb_spec state "active"); [tauto|].
  reflexivity.
Qed.

Section Frames.
Context {RS : Type} `{RandomState RS} `{FloatMath}.

(** The steps of [simulate_activity], with the object as each step
    leaves it. *)
Lemma simulate_activity_unfold (duration : Q) (state : string)
      (spike_rate_range : Q * Q) (self : BrainModel RS) :
  simulate_activity duration state spike_rate_range self =
  let self1 := set_current_state state self in
  match generate_population (n_neurons self) spike_rate_range duration "poisson"
                            (spike_gen self) with
  | (Ok spike_data, rng1) =>
      let self2 := set_spike_gen rng1 self1 in
      match generate_montage (eeg_sampling_rate (eeg_gen self)) (eeg_channels self)
                             duration state (eeg_rng (eeg_gen self)) with
      | (Ok eeg_data, rng2) =>
          (Ok (activity_of self duration state spike_data eeg_data),
           history_append (history_entry_of duration state spike_data)
                          (set_eeg_rng rng2 self2))
      | (Raise e, rng2) => (Raise e, set_eeg_rng rng2 self2)
      | (Diverge, rng2) => (Diverge, set_eeg_rng rng2 self2)
      end
  | (Raise e, rng1) => (Raise e, set_spike_gen rng1 self1)
  | (Diverge, rng1) => (Diverge, set_spike_gen rng1 self1)
  end.
Proof.
  unfold simulate_activity, bind, modify, get, zoom, ret.
  cbn [set_current_state n_neurons spike_gen eeg_gen eeg_channels].
  destruct (generate_population _ _ _ _ _) as [[spike_data|e|] rng1];
    try reflexivity.
  cbn [set_spike_gen eeg_gen eeg_rng].
  destruct (generate_montage _ _ _ _ _) as [[eeg_data|e|] rng2]; reflexivity.
Qed.

(** A call of [simulate_activity] that does not return an activity
    appends nothing to the history. *)
Lemma simulate_activity_failure_frame (duration : Q) (state : string)
      (spike_rate_range : Q * Q) (self : BrainModel RS) :
  (forall a, fst (simulate_activity duration state spike_rate_range self) <> Ok a) ->
  activity_history (snd (simulate_activity duration state spike_rate_range self))
  = activity_history self.
Proof.
  rewrite simulate_activity_unfold. cbv zeta.
  destruct (generate_population _ _ _ _ _) as [[spike_data|e|] rng1];
    try (intros _; reflexivity).
  destruct (generate_montage _ _ _ _ _) as [[eeg_data|e|] rng2];
    try (intros _; reflexivity).
  intro Hno. exfalso. apply (Hno _ eq_refl).
Qed.

Lemma simulate_activity_sets_state (duration : Q) (state : string)
      (spike_rate_range : Q * Q) (self : BrainModel RS) :
  current_state (snd (simulate_activity duration state spike_rate_range self)) = state.
Proof.
  rewrite simulate_activity_unfold. cbv zeta.
  destruct (generate_population _ _ _ _ _) as [[spike_data|e|] rng1];
    try reflexivity.
  destruct (generate_montage _ _ _ _ _) as [[eeg_data|e|] rng2]; reflexivity.
Qed.

(** The first channel of a montage already fails on an unknown state,
    before any draw. *)
Lemma generate_montage_unknown_state (sr : Q) (channel : string)
      (channels : list string) (duration : Q) (state : string) (rng : RS) :
  ~ canonical_state state ->
  generate_montage sr (channel :: channels) duration state rng
  = (Raise (UnknownState state), rng).
Proof.
  intro Hs. unfold generate_montage. cbn [for_each]. unfold bind at 1.
  unfold generate_channel_data. unfold bind at 1.
  unfold generate_mental_state. rewrite (unknown_state_lookup state Hs).
  reflexivity.
Qed.

End Frames.

Section ErrorClaims.
Context {RS : Type} `{RandomState RS} `{FloatMath}.

Lemma generate_intuition_signal_failure_frame (difficulty wisdom : Z)
      (duration : Q) (p : Process RS) :
  (forall a, fst (generate_intuition_signal difficulty wisdom duration p) <> Ok a) ->
  activity_history (brain (snd (generate_intuition_signal difficulty wisdom duration p)))
  = activity_history (brain p).
Proof.
  rewrite generate_intuition_signal_unfold.
  destruct (randint 1 21 (np_random p)) as [roll g]. cbv zeta.
  pose proof (simulate_activity_failure_frame
                duration (o_state (intuition_outcome roll wisdom difficulty))
                (o_spike_rate_range (intuition_outcome roll wisdom difficulty))
                (brain p)) as Hframe.
  destruct (simulate_activity duration _ _ (brain p)) as [[a|e|] b];
    cbn [fst snd brain] in *; intro Hno.
  - exfalso. apply (Hno _ eq_refl).
  - apply Hframe. discriminate.
  - apply Hframe. discriminate.
Qed.

(** C9. For every mode string other than poisson, refractory and burst,
    [generate_spike_train] raises the unknown-mode error without
    drawing from the generator or building a spike train; and a
    [BrainModel] call that ends without returning an activity (for this
    or any other reason) leaves [activity_history] as it was. *)
Theorem C9_unknown_mode_rejected :
  forall mode : string,
    ~ known_mode mode ->
    (forall (neuron_id : Z) (rate duration : Q) (kwargs : Kwargs) (rng : RS),
        generate_spike_train neuron_id rate duration mode kwargs rng
        = (Raise (InvalidMode mode), rng)) /\
    (forall (self : BrainModel RS) (duration : Q) (state : string) (range : Q * Q),
        (forall a, fst (simulate_activity duration state range self) <> Ok a) ->
        activity_history (snd (simulate_activity duration state range self))
        = activity_history self) /\
    (forall (p : Process RS) (difficulty wisdom : Z) (duration : Q),
        (forall a, fst (generate_intuition_signal difficulty wisdom duration p) <> Ok a) ->
        activity_history
          (brain (snd (generate_intuition_signal difficulty wisdom duration p)))
        = activity_history (brain p)).
Proof.
  intros mode Hmode. split; [|split].
  - intros neuron_id rate duration kwargs rng.
    unfold known_mode in Hmode. unfold generate_spike_train.
    destruct (String.eqb_spec mode "poisson"); [tauto|].
    destruct (String.eqb_spec mode "refractory"); [tauto|].
    destruct (String.eqb_spec mode "burst"); [tauto|].
    reflexivity.
  - intros self duration state range.
    apply simulate_activity_failure_frame.
  - intros p difficulty wisdom duration.
    apply generate_intuition_signal_failure_frame.
Qed.

(** C10 (as amended). For every model with at least one EEG channel,
    every duration >= 0 and every state string outside the four canonical
    states, [simulate_activity] raises the unknown-state error of the
    EEG generation and leaves [activity_history] unchanged, while
    [current_state] is already the invalid string and stays so. *)
Theorem C10_unknown_state_not_rolled_back :
  forall (self : BrainModel RS) (duration : Q) (state : string)
         (spike_rate_range : Q * Q),
    ~ canonical_state state ->
    eeg_channels self <> [] ->
    0 <= duration ->
    unknown_state_outcome self duration state spike_rate_range.
Proof.
  intros self duration state range Hstate Hchannels Hdur.
  unfold unknown_state_outcome.
  pose proof (simulate_activity_sets_state duration state range self) as Hcur.
  pose proof (simulate_activity_failure_frame duration state range self) as Hframe.
  assert (Hres : fst (simulate_activity duration state range self)
                 = Raise (UnknownState state)).
  { rewrite simulate_activity_unfold. cbv zeta.
    destruct (generate_population_poisson (n_neurons self) range duration
                                          (spike_gen self) Hdur)
      as (trains & rng1 & Epop & _).
    rewrite Epop.
    destruct (eeg_channels self) as [|channel channels]; [congruence|].
    rewrite (generate_montage_unknown_state _ _ _ _ _ _ Hstate). reflexivity. }
  destruct (simulate_activity duration state range self) as [r self'].
  cbn [fst snd] in *. subst r. repeat split; [|assumption].
  apply Hframe. discriminate.
Qed.

(** C3 (as amended). The spike generator does not validate the rate
    range or the duration: for every rate range (min > max included) and
    every duration >= 0, Poisson generation returns normally, one train
    per neuron; at duration 0 each train has no spikes, and the firing
    rate is 0 whenever the duration is not positive. *)
Theorem C3_no_range_validation :
  forall (n_neurons : Z) (rate_range : Q * Q) (duration : Q) (rng : RS),
    0 <= duration ->
    (exists trains rng',
        generate_population n_neurons rate_range duration "poisson" rng
        = (Ok trains, rng') /\
        List.length trains = Z.to_nat n_neurons /\
        Forall (fun train =>
                  (duration == 0 -> spike_times train = []) /\
                  firing_rate train
                  = (if Qltb 0 duration
                     then inject_Z (Z.of_nat (List.length (spike_times train)))
                          / duration
                     else 0)) trains) /\
    (forall (neuron_id : Z) (rate : Q),
        exists train rng',
          generate_spike_train neuron_id rate duration "poisson" no_kwargs rng
          = (Ok train, rng') /\
          (duration == 0 -> spike_times train = [] /\ firing_rate train = 0)).
Proof.
  intros n_neurons rate_range duration rng Hdur. split.
  - apply generate_population_poisson. assumption.
  - intros neuron_id rate.
    destruct (generate_spike_train_poisson neuron_id rate duration rng Hdur)
      as (train & rng' & Etrain & Htimes & Hrate).
    exists train, rng'. split; [assumption|].
    intro Hzero. split.
    + rewrite Htimes. unfold poisson_bins.
      assert (Eq : duration / (1#1000) == 0) by (rewrite Hzero; reflexivity).
      rewrite (Qfloor_comp _ _ Eq). reflexivity.
    + rewrite Hrate.
      assert (E : Qltb 0 duration = false).
      { apply Qltb_ge. rewrite Hzero. apply Qle_refl. }
      rewrite E. reflexivity.
Qed.

End ErrorClaims.

(** *** Concrete runs *)

Lemma C9_unknown_mode_rejected_witness :
  ~ known_mode "telepathy" /\
  generate_spike_train 1 20 1 "telepathy" no_kwargs (rs_seed 42 : Z)
  = (Raise (InvalidMode "telepathy"), rs_seed 42) /\
  activity_history (snd (simulate_activity (4#1000) "zen" (5, 50) brain_one_channel))
  = activity_history brain_one_channel /\
  activity_history
    (brain (snd (generate_intuition_signal
                   10 10 0 {| np_random := 7%Z; brain := brain_one_channel |})))
  = activity_history brain_one_channel.
Proof.
  assert (Hmode : ~ known_mode "telepathy").
  { intros [E|[E|E]]; discriminate E. }
  pose proof (C9_unknown_mode_rejected (RS := Z) "telepathy" Hmode)
    as (Htrain & Hsimulate & Hsignal).
  split; [exact Hmode|]. split; [apply Htrain|]. split.
  - apply Hsimulate. intros a E. vm_compute in E. discriminate E.
  - apply (Hsignal {| np_random := 7%Z; brain := brain_one_channel |}).
    intros a E. vm_compute in E. discriminate E.
Defined.

(** With an empty channel list no EEG is generated, so an unknown state
    raises nothing and is recorded in the history. *)
Lemma C10_counterexample_no_channels :
  ~ unknown_state_outcome brain_no_channels 1 "zen" (5, 50).
Proof.
  unfold unknown_state_outcome.
  destruct (simulate_activity 1 "zen" (5, 50) brain_no_channels) as [r self'] eqn:E.
  intros (Hr & _ & _). subst r.
  pose proof (f_equal fst E) as E1. cbn [fst] in E1.
  rewrite simulate_activity_unfold in E1. cbv zeta in E1.
  destruct (generate_population_poisson (n_neurons brain_no_channels) (5, 50) 1
                                        (spike_gen brain_no_channels))
    as (trains & rng1 & Epop & _); [discriminate|].
  rewrite Epop in E1. cbn in E1. discriminate E1.
Qed.

Lemma C10_unknown_state_not_rolled_back_witness :
  ~ canonical_state "zen" /\ eeg_channels brain_one_channel <> [] /\ 0 <= 1 /\
  unknown_state_outcome brain_one_channel 1 "zen" (5, 50).
Proof.
  assert (Hstate : ~ canonical_state "zen").
  { intros [E|[E|[E|E]]]; discriminate E. }
  assert (Hch : eeg_channels brain_one_channel <> []) by discriminate.
  assert (Hdur : 0 <= 1) by discriminate.
  split; [exact Hstate|]. split; [exact Hch|]. split; [exact Hdur|].
  exact (C10_unknown_state_not_rolled_back brain_one_channel 1 "zen" (5, 50)
                                            Hstate Hch Hdur).
Defined.

(** A reversed rate range and a zero duration are both accepted. *)
Lemma C3_counterexample_accepted :
  (invalid_range (50, 10) 1 /\
   ~ raises (fst (generate_population 2 (50, 10) 1 "poisson" (rs_seed 42 : Z)))) /\
  (invalid_range (10, 30) 0 /\
   ~ raises (fst (generate_spike_train 0 20 0 "poisson" no_kwargs (rs_seed 42 : Z)))).
Proof.
  split; split.
  - left. reflexivity.
  - destruct (generate_population_poisson 2 (50, 10) 1 (rs_seed 42 : Z))
      as (trains & rng' & E & _); [discriminate|].
    rewrite E. intros [e He]. discriminate He.
  - right. discriminate.
  - destruct (generate_spike_train_poisson 0 20 0 (rs_seed 42 : Z))
      as (train & rng' & E & _); [discriminate|].
    rewrite E. intros [e He]. discriminate He.
Qed.

Lemma C3_no_range_validation_witness :
  0 <= 0 /\
  exists trains rng',
    generate_population 2 (50, 10) 0 "poisson" (rs_seed 42 : Z) = (Ok trains, rng') /\
    List.length trains = 2%nat.
Proof.
  assert (Hdur : 0 <= 0) by discriminate.
  split; [exact Hdur|].
  destruct (proj1 (C3_no_range_validation (RS := Z) 2 (50, 10) 0 (rs_seed 42) Hdur))
    as (trains & rng' & E & Hlen & _).
  exists trains, rng'. split; assumption.
Defined.

(** ** Summary statistics *)

Lemma dict_get_set_same {V} (k : string) (v : V) (d : list (string * V)) :
  dict_get k (dict_set k v d) = Some v.
Proof.
  induction d as [|[k' v'] d IH]; cbn.
  - rewrite String.eqb_refl. reflexivity.
  - destruct (String.eqb k k') eqn:E; cbn; rewrite E; [reflexivity|exact IH].
Qed.

Lemma dict_get_set_other {V} (k k' : string) (v : V) (d : list (string * V)) :
  k <> k' -> dict_get k' (dict_set k v d) = dict_get k' d.
Proof.
  intro Hne. induction d as [|[k0 v0] d IH]; cbn.
  - destruct (String.eqb_spec k' k); [congruence|reflexivity].
  - destruct (String.eqb_spec k k0) as [->|Hk]; cbn.
    + destruct (String.eqb_spec k' k0); [congruence|reflexivity].
    + destruct (String.eqb k' k0); [reflexivity|exact IH].
Qed.

Lemma count_state_same (states : list (string * StateStat)) (h : HistoryEntry) :
  dict_get (h_state h) (count_state states h) =
  Some {| ss_count := match dict_get (h_state h) states with
                      | Some e => ss_count e | None => 0%Z end + 1;
          ss_duration := match dict_get (h_state h) states with
                         | Some e => ss_duration e | None => 0 end + h_duration h |}.
Proof.
  unfold count_state, dict_has.
  destruct (dict_get (h_state h) states) as [e|] eqn:E.
  - rewrite E. apply dict_get_set_same.
  - rewrite dict_get_set_same. apply dict_get_set_same.
Qed.

Lemma count_state_other (states : list (string * StateStat)) (h : HistoryEntry)
      (state : string) :
  h_state h <> state ->
  dict_get state (count_state states h) = dict_get state states.
Proof.
  intro Hne. unfold count_state, dict_has.
  destruct (dict_get (h_state h) states) as [e|] eqn:E.
  - rewrite E. apply dict_get_set_other. assumption.
  - rewrite dict_get_set_same.
    rewrite !dict_get_set_other by assumption. reflexivity.
Qed.

Lemma fold_count_state (state : string) (history : list HistoryEntry)
      (states : list (string * StateStat)) :
  dict_get state (fold_left count_state history states)
  = tally state (dict_get state states) history.
Proof.
  revert states. induction history as [|h rest IH]; intros states; [reflexivity|].
  cbn [fold_left tally]. rewrite IH.
  destruct (String.eqb_spec (h_state h) state) as [<-|Hne].
  - rewrite count_state_same. reflexivity.
  - rewrite count_state_other by assumption. reflexivity.
Qed.

Lemma tally_entries (state : string) (history : list HistoryEntry)
      (cur : option StateStat) :
  tally state cur history =
  match entries_of state history with
  | [] => cur
  | es =>
      Some {| ss_count := match cur with Some e => ss_count e | None => 0%Z end
                          + Z.of_nat (List.length es);
              ss_duration :=
                fold_left Qplus (map h_duration es)
                          (match cur with Some e => ss_duration e | None => 0 end) |}
  end.
Proof.
  revert cur. unfold entries_of.
  induction history as [|h rest IH]; intros cur; [reflexivity|].
  cbn [tally filter]. destruct (String.eqb (h_state h) state); [|apply IH].
  rewrite IH. cbn [ss_count ss_duration].
  destruct (filter _ rest) as [|e es]; cbn [map fold_left List.length].
  - reflexivity.
  - f_equal. f_equal. lia.
Qed.

Section Summary.
Context {RS : Type} `{RandomState RS}.

(** C4 (as amended). On an empty history [get_summary_stats] returns
    exactly total_simulations = 0, total_duration = 0 and an empty
    per-state breakdown, with no spike total and no average rate, and
    divides nothing; on a non-empty history it returns the number of
    simulations, the total duration, the total spike count, the average
    firing rate = total spikes / total duration when the total duration
    is positive and 0 otherwise, and for each state that occurs its
    count and cumulative duration. *)
Theorem C4_summary_stats :
  forall self : BrainModel RS,
    let history := activity_history self in
    let stats := get_summary_stats self in
    let total_duration := Qsum (map h_duration history) in
    let total_spikes := fold_left Nat.add (map h_spike_count history) 0%nat in
    (history = [] ->
     stats = [ ("total_simulations", SInt 0); ("total_duration", SFloat 0);
               ("states", SStates []) ]%string) /\
    (history <> [] ->
     dict_get "total_simulations" stats = Some (SInt (Z.of_nat (List.length history))) /\
     dict_get "total_duration" stats = Some (SFloat total_duration) /\
     dict_get "total_spikes" stats = Some (SInt (Z.of_nat total_spikes)) /\
     dict_get "average_firing_rate" stats
     = Some (if Qltb 0 total_duration
             then SFloat (inject_Z (Z.of_nat total_spikes) / total_duration)
             else SInt 0) /\
     exists states,
       dict_get "states" stats = Some (SStates states) /\
       forall state,
         dict_get state states =
         if (state_count state history =? 0)%Z then None
         else Some {| ss_count := state_count state history;
                      ss_duration := state_duration state history |}).
Proof.
  intros self. cbv zeta. unfold get_summary_stats.
  destruct (activity_history self) as [|h rest]; split;
    try reflexivity; try congruence.
  intros _. set (history := h :: rest).
  do 4 (split; [reflexivity|]).
  exists (fold_left count_state history []). split; [reflexivity|].
  intro state. rewrite fold_count_state, tally_entries.
  unfold state_count, state_duration, Qsum. cbn [dict_get].
  destruct (entries_of state history) as [|e es]; [reflexivity|].
  replace (Z.of_nat (List.length (e :: es)) =? 0)%Z with false
    by (symmetry; apply Z.eqb_neq; cbn [List.length]; lia).
  reflexivity.
Qed.

End Summary.

(** The summary of a fresh model has neither a spike total nor an average
    firing rate. *)
Lemma C4_counterexample_missing_keys :
  activity_history (BrainModel_init 100 None 250 42 : BrainModel Z) = [] /\
  ~ empty_summary_as_specified
      (get_summary_stats (BrainModel_init 100 None 250 42 : BrainModel Z)).
Proof.
  split; [reflexivity|].
  intros (_ & _ & (v & Hv) & _). cbn in Hv. discriminate Hv.
Qed.

Lemma C4_summary_stats_witness :
  get_summary_stats (BrainModel_init 100 None 250 42 : BrainModel Z)
  = [ ("total_simulations", SInt 0); ("total_duration", SFloat 0);
      ("states", SStates []) ]%string /\
  dict_get "average_firing_rate"
           (get_summary_stats
              (history_append {| h_duration := 2; h_state := "active"; h_spike_count := 6 |}
                              (BrainModel_init 100 None 250 42 : BrainModel Z)))
  = Some (SFloat (6 / (0 + 2))).
Proof.
  split.
  - apply (proj1 (C4_summary_stats (BrainModel_init 100 None 250 42 : BrainModel Z))).
    reflexivity.
  - refine (proj1 (proj2 (proj2 (proj2
      (proj2 (C4_summary_stats
                (history_append
                   {| h_duration := 2; h_state := "active"; h_spike_count := 6 |}
                   (BrainModel_init 100 None 250 42 : BrainModel Z))) _))))).
    discriminate.
Defined.

(** ** Band weights *)

Section BandWeights.
Context {RS : Type} `{RandomState RS} `{FloatMath}.

Lemma normalize_loop (total : Q) (bw : list (string * Q)) (rng : RS) :
  Qeq_bool total 0 = false ->
  for_each (fun kv => w <- py_div (snd kv) total ;; ret (fst kv, w)) bw rng
  = (Ok (map (fun kv => (fst kv, snd kv / total)) bw), rng).
Proof.
  intro Htotal. induction bw as [|kv bw IH]; [reflexivity|].
  cbn [for_each map]. unfold bind at 1. unfold bind at 1. unfold py_div at 1.
  rewrite Htotal. unfold ret at 1. unfold ret at 1.
  unfold bind at 1. rewrite IH. reflexivity.
Qed.


End BandWeights.



(** ** Poisson spike times *)

Lemma np_where_from_bounds (i : nat) (mask : list bool) :
  Forall (fun j => (i <= j < i + List.length mask)%nat) (np_where_from i mask).
Proof.
  revert i. induction mask as [|b mask IH]; intros i; [constructor|].
  cbn [np_where_from List.length].
  assert (Hrest : Forall (fun j => (i <= j < i + S (List.length mask))%nat)
                         (np_where_from (S i) mask)).
  { eapply Forall_impl; [|apply IH]. cbn. intros j Hj. lia. }
  destruct b; [constructor; [lia|]|]; exact Hrest.
Qed.

Lemma np_where_from_increasing (i : nat) (mask : list bool) :
  StronglySorted lt (np_where_from i mask).
Proof.
  revert i. induction mask as [|b mask IH]; intros i; [constructor|].
  cbn [np_where_from]. destruct b; [|apply IH].
  constructor; [apply IH|].
  eapply Forall_impl; [|apply np_where_from_bounds]. cbn. intros j Hj. lia.
Qed.

Lemma np_where_from_length (i : nat) (mask : list bool) :
  (List.length (np_where_from i mask) <= List.length mask)%nat.
Proof.
  revert i. induction mask as [|b mask IH]; intros i; [constructor|].
  cbn [np_where_from List.length]. specialize (IH (S i)).
  destruct b; cbn [List.length]; lia.
Qed.

Lemma Qfloor_div_le (duration dt : Q) :
  0 < dt -> inject_Z (Qfloor (duration / dt)) * dt <= duration.
Proof.
  intro Hdt.
  assert (E : duration == duration / dt * dt) by (field; lra).
  rewrite E at 2. apply Qmult_le_compat_r; [apply Qfloor_le|lra].
Qed.

(** A bin index below the number of bins gives a time before [duration]. *)
Lemma bin_time_in_range (i : nat) (duration dt : Q) :
  0 < dt -> 0 <= duration -> (i < poisson_bins duration dt)%nat ->
  0 <= inject_Z (Z.of_nat i) * dt /\ inject_Z (Z.of_nat i) * dt < duration.
Proof.
  intros Hdt Hdur Hi. unfold poisson_bins in Hi.
  assert (Hi0 : 0 <= inject_Z (Z.of_nat i)).
  { rewrite <- (Zle_Qle 0). lia. }
  split; [apply Qmult_le_0_compat; lra|].
  assert (Hz : (Z.of_nat i + 1 <= Qfloor (duration / dt))%Z) by lia.
  rewrite Zle_Qle, inject_Z_plus in Hz.
  pose proof (Qfloor_div_le duration dt Hdt) as Hfl.
  assert (Hstep : (inject_Z (Z.of_nat i) + inject_Z 1) * dt
                  <= inject_Z (Qfloor (duration / dt)) * dt).
  { apply Qmult_le_compat_r; lra. }
  assert (E : (inject_Z (Z.of_nat i) + inject_Z 1) * dt
              == inject_Z (Z.of_nat i) * dt + dt) by (unfold inject_Z at 2; ring).
  rewrite E in Hstep. lra.
Qed.

Section Poisson.
Context {RS : Type} `{RandomState RS}.

(** C6 (as amended). For every dt > 0, rate with rate * dt <= 1 and
    duration > 0, [poisson_spikes] returns the times of increasing bin
    indexes, each equal to its index times dt and lying in
    [0, duration), and the number of entries is at most the number of
    bins floor(duration / dt), hence at most duration / dt. *)
Theorem C6_poisson_times_in_range :
  forall (rate duration dt : Q) (rng : RS),
    0 < dt -> rate * dt <= 1 -> 0 < duration ->
    exists (idxs : list nat) (rng' : RS),
      poisson_spikes rate duration dt rng
      = (Ok (map (fun i => inject_Z (Z.of_nat i) * dt) idxs), rng') /\
      StronglySorted lt idxs /\
      Forall (fun i => (i < poisson_bins duration dt)%nat) idxs /\
      Forall (fun t => 0 <= t /\ t < duration)
             (map (fun i => inject_Z (Z.of_nat i) * dt) idxs) /\
      (List.length idxs <= poisson_bins duration dt)%nat /\
      inject_Z (Z.of_nat (List.length idxs)) <= duration / dt.
Proof.
  intros rate duration dt rng Hdt _ Hdur.
  assert (Hdur0 : 0 <= duration) by lra.
  rewrite (poisson_spikes_eq rate duration dt rng Hdt Hdur0).
  unfold poisson_times.
  set (draws := fst (random_n (poisson_bins duration dt) rng)).
  set (mask := map (fun u => Qltb u (rate * dt)) draws).
  assert (Hmask : List.length mask = poisson_bins duration dt).
  { unfold mask, draws. rewrite length_map. apply random_n_length. }
  assert (Hbound : Forall (fun i => (i < poisson_bins duration dt)%nat)
                          (np_where mask)).
  { eapply Forall_impl; [|apply (np_where_from_bounds 0 mask)].
    cbn. intros j Hj. lia. }
  assert (Hlen : (List.length (np_where mask) <= poisson_bins duration dt)%nat).
  { rewrite <- Hmask. apply np_where_from_length. }
  exists (np_where mask), (snd (random_n (poisson_bins duration dt) rng)).
  split; [reflexivity|].
  split; [apply np_where_from_increasing|].
  split; [exact Hbound|].
  split; [|split; [exact Hlen|]].
  - apply Forall_map. eapply Forall_impl; [|exact Hbound].
    cbn. intros i Hi. apply bin_time_in_range; assumption.
  - apply Qle_trans with (inject_Z (Qfloor (duration / dt))); [|apply Qfloor_le].
    rewrite <- Zle_Qle. unfold poisson_bins in Hlen.
    pose proof (Qfloor_nonneg _ (Qdiv_nonneg duration dt Hdur0 Hdt)). lia.
Qed.

End Poisson.

(** Two bins that both fire: as many entries as duration / dt. *)
Lemma C6_counterexample_all_bins_fire :
  0 < (1#1000) /\ 1000 * (1#1000) <= 1 /\ 0 < (2#1000) /\
  ~ poisson_as_specified 1000 (2#1000) (1#1000) (rs_seed 42 : Z).
Proof.
  repeat (split; [reflexivity || discriminate|]).
  intros (l & rng' & E & _ & _ & Hlen).
  vm_compute in E. injection E as <- _.
  vm_compute in Hlen. discriminate Hlen.
Qed.

Lemma C6_poisson_times_in_range_witness :
  0 < (1#1000) /\ 20 * (1#1000) <= 1 /\ 0 < 1 /\
  exists (idxs : list nat) (rng' : Z),
    poisson_spikes 20 1 (1#1000) (rs_seed 42 : Z)
    = (Ok (map (fun i => inject_Z (Z.of_nat i) * (1#1000)) idxs), rng') /\
    inject_Z (Z.of_nat (List.length idxs)) <= 1 / (1#1000).
Proof.
  assert (Hdt : 0 < (1#1000)) by reflexivity.
  assert (Hprob : 20 * (1#1000) <= 1) by discriminate.
  assert (Hdur : 0 < 1) by reflexivity.
  split; [exact Hdt|]. split; [exact Hprob|]. split; [exact Hdur|].
  destruct (C6_poisson_times_in_range 20 1 (1#1000) (rs_seed 42 : Z) Hdt Hprob Hdur)
    as (idxs & rng' & E & _ & _ & _ & _ & Hlen).
  exists idxs, rng'. split; assumption.
Defined.

(** ** Bursts *)

Lemma insert_sorted_perm (x : Q) (l : list Q) : Permutation (x :: l) (insert_sorted x l).
Proof.
  induction l as [|y l IH]; cbn [insert_sorted]; [reflexivity|].
  destruct (Qle_bool x y); [reflexivity|].
  rewrite perm_swap. apply perm_skip. exact IH.
Qed.

Lemma sorted_perm (l : list Q) : Permutation l (sorted l).
Proof.
  induction l as [|x l IH]; cbn [sorted fold_right]; [reflexivity|].
  rewrite <- insert_sorted_perm. apply perm_skip. exact IH.
Qed.

Lemma insert_sorted_hd (x y : Q) (l : list Q) :
  y <= x -> HdRel Qle y l -> HdRel Qle y (insert_sorted x l).
Proof.
  intros Hyx Hhd. destruct l as [|z l]; cbn [insert_sorted]; [constructor; exact Hyx|].
  inversion Hhd; subst. destruct (Qle_bool x z); constructor; assumption.
Qed.

Lemma insert_sorted_Sorted (x : Q) (l : list Q) :
  Sorted Qle l -> Sorted Qle (insert_sorted x l).
Proof.
  induction 1 as [|y l Hs IH Hhd]; cbn [insert_sorted]; [repeat constructor|].
  destruct (Qle_bool x y) eqn:E.
  - apply Qle_bool_iff in E. repeat constructor; assumption.
  - assert (Hyx : y <= x).
    { apply Qlt_le_weak. apply Qltb_lt. unfold Qltb. rewrite E. reflexivity. }
    constructor; [exact IH|]. apply insert_sorted_hd; assumption.
Qed.

Lemma sorted_ascending (l : list Q) : StronglySorted Qle (sorted l).
Proof.
  apply Sorted_StronglySorted; [intros a b c; apply Qle_trans|].
  induction l as [|x l IH]; cbn [sorted fold_right]; [constructor|].
  apply insert_sorted_Sorted. exact IH.
Qed.

Lemma burst_of_before_duration (spb : Z) (duration interval b : Q) :
  Forall (fun t => t < duration) (burst_of spb duration interval b).
Proof.
  unfold burst_of. apply Forall_flat_map. apply Forall_forall. intros i _.
  destruct (Qltb (b + inject_Z i * interval) duration) eqn:E; [|constructor].
  constructor; [|constructor]. apply Qltb_lt. exact E.
Qed.

(** A burst that fits before [duration] is emitted whole. *)
Lemma burst_of_whole (spb : Z) (duration interval b : Q) :
  (forall i, (0 <= i < spb)%Z -> b + inject_Z i * interval < duration) ->
  burst_of spb duration interval b
  = map (fun i => b + inject_Z i * interval) (range spb).
Proof.
  intro Hfit. unfold burst_of.
  assert (Hrange : Forall (fun i => (0 <= i < spb)%Z) (range spb)).
  { unfold range. apply Forall_forall. intros i Hi.
    apply in_map_iff in Hi. destruct Hi as (k & <- & Hk).
    apply in_seq in Hk. lia. }
  induction (range spb) as [|i l IH]; [reflexivity|].
  inversion Hrange as [|? ? Hi Hl]; subst.
  cbn [flat_map map]. rewrite (proj2 (Qltb_lt _ _) (Hfit i Hi)).
  cbn [app]. f_equal. apply IH. exact Hl.
Qed.

Section Burst.
Context {RS : Type} `{RandomState RS}.

Lemma burst_spikes_unfold (burst_rate : Q) (spb : Z) (duration interval dt : Q)
      (rng : RS) :
  burst_spikes burst_rate spb duration interval dt rng =
  match poisson_spikes burst_rate duration dt rng with
  | (Ok onsets, rng') =>
      (Ok (sorted (flat_map (burst_of spb duration interval) onsets)), rng')
  | (Raise e, rng') => (Raise e, rng')
  | (Diverge, rng') => (Diverge, rng')
  end.
Proof.
  unfold burst_spikes, bind, ret.
  destruct (poisson_spikes burst_rate duration dt rng) as [[onsets|e|] rng'];
    reflexivity.
Qed.

(** C5 (as amended). Every burst generation returns a sequence sorted
    ascending whose times are all < duration; it is the ascending
    rearrangement of the spikes of all bursts, and a burst whose spikes
    all fall before duration contributes its whole run: the times
    onset + i * intraburst_interval for i < spikes_per_burst, each as
    that expression evaluates (nothing is stated about the difference
    of two such times, which in floating point need not be the
    interval; and such a run is consecutive in the output only when no
    other burst overlaps it).  With dt > 0 and duration >= 0 the call
    returns. *)
Theorem C5_burst_sorted_and_spaced :
  forall (burst_rate : Q) (spikes_per_burst : Z) (duration interval dt : Q) (rng : RS),
    (forall l rng',
        burst_spikes burst_rate spikes_per_burst duration interval dt rng
        = (Ok l, rng') ->
        StronglySorted Qle l /\
        Forall (fun t => t < duration) l /\
        exists onsets,
          poisson_spikes burst_rate duration dt rng = (Ok onsets, rng') /\
          Permutation l (flat_map (burst_of spikes_per_burst duration interval) onsets) /\
          forall b, In b onsets ->
            Forall (fun t => In t l) (burst_of spikes_per_burst duration interval b) /\
            ((forall i, (0 <= i < spikes_per_burst)%Z ->
                        b + inject_Z i * interval < duration) ->
             burst_of spikes_per_burst duration interval b
             = map (fun i => b + inject_Z i * interval) (range spikes_per_burst))) /\
    (0 < dt -> 0 <= duration ->
     exists l rng',
       burst_spikes burst_rate spikes_per_burst duration interval dt rng
       = (Ok l, rng')).
Proof.
  intros burst_rate spb duration interval dt rng. split.
  - intros l rng' E. rewrite burst_spikes_unfold in E.
    destruct (poisson_spikes burst_rate duration dt rng) as [[onsets|e|] rng1];
      try discriminate E.
    injection E as <- <-.
    set (raw := flat_map (burst_of spb duration interval) onsets).
    assert (Hperm : Permutation (sorted raw) raw)
      by (symmetry; apply sorted_perm).
    split; [apply sorted_ascending|]. split.
    + eapply Permutation_Forall; [symmetry; exact Hperm|].
      unfold raw. apply Forall_flat_map. apply Forall_forall.
      intros b _. apply burst_of_before_duration.
    + exists onsets. split; [reflexivity|]. split; [exact Hperm|].
      intros b Hb. split.
      * apply Forall_forall. intros t Ht.
        apply (Permutation_in _ (Permutation_sym Hperm)).
        unfold raw. apply in_flat_map. exists b. split; assumption.
      * intro Hfit. apply burst_of_whole. exact Hfit.
  - intros Hdt Hdur. rewrite burst_spikes_unfold.
    rewrite (poisson_spikes_eq burst_rate duration dt rng Hdt Hdur).
    eexists; eexists; reflexivity.
Qed.

End Burst.

(** Onsets in adjacent bins give overlapping bursts: the first two output
    entries belong to different bursts and are dt apart, not
    intraburst_interval. *)
Lemma C5_counterexample_overlapping_bursts :
  ~ burst_as_specified 1000 2 (1#100) (5#1000) (1#1000) (rs_seed 42 : Z).
Proof.
  intros (l & rng' & E & _ & _ & Hruns).
  vm_compute in E. injection E as <- _.
  specialize (Hruns 0%nat). cbn [Z.to_nat Pos.to_nat Pos.iter_op Nat.add List.length] in Hruns.
  assert (Hlen : (2 <= 15)%nat) by lia.
  specialize (Hruns Hlen eq_refl 0%nat (le_n 2)).
  vm_compute in Hruns. discriminate Hruns.
Qed.

Lemma C5_burst_sorted_and_spaced_witness :
  0 < (1#1000) /\ 0 <= (1#100) /\
  exists l rng',
    burst_spikes 1000 2 (1#100) (5#1000) (1#1000) (rs_seed 42 : Z) = (Ok l, rng') /\
    StronglySorted Qle l /\ Forall (fun t => t < (1#100)) l.
Proof.
  assert (Hdt : 0 < (1#1000)) by reflexivity.
  assert (Hdur : 0 <= (1#100)) by discriminate.
  split; [exact Hdt|]. split; [exact Hdur|].
  destruct (proj2 (C5_burst_sorted_and_spaced 1000 2 (1#100) (5#1000) (1#1000)
                                              (rs_seed 42 : Z)) Hdt Hdur)
    as (l & rng' & E).
  destruct (proj1 (C5_burst_sorted_and_spaced 1000 2 (1#100) (5#1000) (1#1000)
                                              (rs_seed 42 : Z)) l rng' E)
    as (Hsorted & Hbefore & _).
  exists l, rng'. repeat split; assumption.
Defined.

(** ** Refractory spikes *)

Lemma gaps_at_least_snoc (gap : Q) (l : list Q) (a t : Q) :
  gaps_at_least gap (l ++ [a]) -> gap <= t - a ->
  gaps_at_least gap ((l ++ [a]) ++ [t]).
Proof.
  induction l as [|x l IH]; cbn [app gaps_at_least].
  - intros _ Hgap. split; [exact Hgap|exact I].
  - destruct l as [|y l]; cbn [app gaps_at_least] in *.
    + intros [Hxa _] Hgap. split; [exact Hxa|]. split; [exact Hgap|exact I].
    + intros [Hxy Hrest] Hgap. split; [exact Hxy|]. apply IH; assumption.
Qed.

Lemma inject_Z_succ (n : nat) :
  inject_Z (Z.of_nat (S n)) == inject_Z (Z.of_nat n) + 1.
Proof.
  rewrite Nat2Z.inj_succ. unfold Z.succ. rewrite inject_Z_plus. reflexivity.
Qed.

Section Refractory.
Context {RS : Type} `{RandomState RS}.
Variables rate duration refractory_period dt : Q.

(** Loop invariant: the spikes so far respect the gap, and [last_spike]
    is the last of them (or the start value when there is none). *)
Lemma refractory_loop_gaps (fuel : nat) :
  forall (t last_spike : Q) (acc : list Q) (rng : RS) (l : list Q) (rng' : RS),
    gaps_at_least refractory_period acc ->
    (acc = [] \/ exists acc', acc = acc' ++ [last_spike]) ->
    refractory_loop fuel rate duration refractory_period dt t last_spike acc rng
    = Some (l, rng') ->
    gaps_at_least refractory_period l.
Proof.
  induction fuel as [|fuel IH]; intros t last_spike acc rng l rng' Hgaps Hlast E;
    [discriminate E|].
  cbn [refractory_loop] in E.
  destruct (Qltb t duration); [|injection E as <- _; exact Hgaps].
  destruct (Qle_bool refractory_period (t - last_spike)) eqn:Egap;
    [|eapply IH; eassumption].
  destruct (random_sample rng) as [u rng1].
  destruct (Qltb u (rate * dt)); [|eapply IH; eassumption].
  apply Qle_bool_iff in Egap.
  eapply IH; [| |exact E].
  - destruct Hlast as [->|(acc' & ->)]; [exact I|].
    apply gaps_at_least_snoc; assumption.
  - right. exists acc. reflexivity.
Qed.

(** With [dt > 0] the loop leaves after at most [n] further steps when
    [t + n * dt] has reached [duration]. *)
Lemma refractory_loop_exits (fuel : nat) :
  0 < dt ->
  forall (n : nat) (t last_spike : Q) (acc : list Q) (rng : RS),
    duration <= t + inject_Z (Z.of_nat n) * dt ->
    (n < fuel)%nat ->
    exists l rng',
      refractory_loop fuel rate duration refractory_period dt t last_spike acc rng
      = Some (l, rng').
Proof.
  intro Hdt. induction fuel as [|fuel IH]; intros n t last_spike acc rng Hreach Hn;
    [lia|].
  cbn [refractory_loop].
  destruct (Qltb t duration) eqn:Et; [|eexists; eexists; reflexivity].
  apply Qltb_lt in Et.
  destruct n as [|n].
  { exfalso. change (inject_Z (Z.of_nat 0)) with 0 in Hreach. lra. }
  assert (Hnext : duration <= t + dt + inject_Z (Z.of_nat n) * dt).
  { rewrite inject_Z_succ in Hreach. lra. }
  assert (Hfuel : (n < fuel)%nat) by lia.
  destruct (Qle_bool refractory_period (t - last_spike));
    [|apply (IH n); assumption].
  destruct (random_sample rng) as [u rng1].
  destruct (Qltb u (rate * dt)); apply (IH n); assumption.
Qed.

Lemma refractory_steps_reach :
  0 < dt -> duration <= 0 + inject_Z (Z.of_nat (refractory_steps duration dt)) * dt.
Proof.
  intro Hdt. unfold refractory_steps.
  assert (Hceil : duration / dt
                  <= inject_Z (Z.of_nat (Z.to_nat (Qceiling (duration / dt))))).
  { apply Qle_trans with (inject_Z (Qceiling (duration / dt)));
      [apply Qle_ceiling|].
    rewrite <- Zle_Qle. lia. }
  assert (E : duration == duration / dt * dt) by (field; lra).
  rewrite E at 1. rewrite Qplus_0_l.
  apply Qmult_le_compat_r; [exact Hceil|lra].
Qed.

(** Without [dt > 0] and with [duration > 0] the loop never leaves:
    [t] stays at or below 0. *)
Lemma refractory_loop_stuck (fuel : nat) :
  dt <= 0 -> 0 < duration ->
  forall (t last_spike : Q) (acc : list Q) (rng : RS),
    t <= 0 ->
    refractory_loop fuel rate duration refractory_period dt t last_spike acc rng
    = None.
Proof.
  intros Hdt Hdur. induction fuel as [|fuel IH]; intros t last_spike acc rng Ht;
    [reflexivity|].
  cbn [refractory_loop].
  assert (Et : Qltb t duration = true) by (apply Qltb_lt; lra).
  rewrite Et.
  assert (Hnext : t + dt <= 0) by lra.
  destruct (Qle_bool refractory_period (t - last_spike)); [|apply IH; assumption].
  destruct (random_sample rng) as [u rng1].
  destruct (Qltb u (rate * dt)); apply IH; assumption.
Qed.

Lemma refractory_spikes_returns (rng : RS) :
  0 < dt \/ duration <= 0 ->
  exists l rng',
    refractory_spikes rate duration refractory_period dt rng = (Ok l, rng').
Proof.
  intro Hcase. unfold refractory_spikes.
  assert (Hloop : exists l rng',
             refractory_loop (S (refractory_steps duration dt)) rate duration
                             refractory_period dt 0 (- refractory_period) [] rng
             = Some (l, rng')).
  { destruct (Qlt_le_dec 0 dt) as [Hdt|Hdt].
    - apply (refractory_loop_exits _ Hdt (refractory_steps duration dt));
        [apply refractory_steps_reach; exact Hdt|lia].
    - destruct Hcase as [Hpos|Hdur]; [lra|].
      cbn [refractory_loop].
      assert (E : Qltb 0 duration = false) by (apply Qltb_ge; exact Hdur).
      rewrite E. eexists; eexists; reflexivity. }
  destruct Hloop as (l & rng' & Eloop). rewrite Eloop.
  assert (Eguard : Qltb 0 dt || Qle_bool duration 0 = true).
  { apply orb_true_iff. destruct Hcase as [Hdt|Hdur].
    - left. apply Qltb_lt. exact Hdt.
    - right. apply Qle_bool_iff. exact Hdur. }
  rewrite Eguard. eexists; eexists; reflexivity.
Qed.

(** C7. Whatever the rate, duration, refractory period, time step and
    random stream, any two consecutive spike times returned by
    [refractory_spikes] differ by at least the refractory period; and
    with a positive time step the call does return. *)
Theorem C7_refractory_gap :
  forall rng : RS,
    (forall l rng',
        refractory_spikes rate duration refractory_period dt rng = (Ok l, rng') ->
        gaps_at_least refractory_period l) /\
    (0 < dt ->
     exists l rng',
       refractory_spikes rate duration refractory_period dt rng = (Ok l, rng')).
Proof.
  intro rng. split.
  - intros l rng' E. unfold refractory_spikes in E.
    destruct (Qltb 0 dt || Qle_bool duration 0); [|discriminate E].
    destruct (refractory_loop _ _ _ _ _ _ _ _ _) as [[l0 rng0]|] eqn:Eloop;
      [|discriminate E].
    injection E as <- _.
    apply (refractory_loop_gaps (S (refractory_steps duration dt))
                                0 (- refractory_period) [] rng l0 rng0);
      [exact I|left; reflexivity|exact Eloop].
  - intro Hdt. apply refractory_spikes_returns. left. exact Hdt.
Qed.

End Refractory.

Lemma C7_refractory_gap_witness :
  0 < (1#1000) /\
  exists l rng',
    refractory_spikes 1000 (6#1000) (2#1000) (1#1000) (rs_seed 42 : Z) = (Ok l, rng') /\
    gaps_at_least (2#1000) l.
Proof.
  assert (Hdt : 0 < (1#1000)) by reflexivity.
  split; [exact Hdt|].
  destruct (proj2 (C7_refractory_gap 1000 (6#1000) (2#1000) (1#1000) (rs_seed 42 : Z)) Hdt)
    as (l & rng' & E).
  exists l, rng'. split; [exact E|].
  exact (proj1 (C7_refractory_gap 1000 (6#1000) (2#1000) (1#1000) (rs_seed 42 : Z))
               l rng' E).
Defined.

Example refractory_run :
  fst (refractory_spikes 1000 (6#1000) (2#1000) (1#1000) (rs_seed 42 : Z))
  = Ok [0; 0 + (1#1000) + (1#1000); 0 + (1#1000) + (1#1000) + (1#1000) + (1#1000)].
Proof. vm_compute. reflexivity. Qed.

(** ** Reproducibility from the seed *)

Section Reproducibility.
Context {RS : Type} `{RandomState RS} `{FloatMath}.

(** The d20 roll is the next draw of the process-wide generator: neither
    the seed nor any other field of the model enters it. *)
Lemma d20_roll_from_process_generator (difficulty wisdom : Z) (duration : Q)
      (p : Process RS) (a : Activity) :
  fst (generate_intuition_signal difficulty wisdom duration p) = Ok a ->
  option_map d20_roll (intuition_data a) = Some (fst (randint 1 21 (np_random p))).
Proof.
  rewrite generate_intuition_signal_unfold.
  destruct (randint 1 21 (np_random p)) as [roll g]. cbv zeta.
  destruct (simulate_activity duration _ _ (brain p)) as [[a0|e|] b];
    cbn [fst]; intro E; try discriminate E.
  injection E as <-. reflexivity.
Qed.

(** The generators owned by the model are both started from the seed. *)
Lemma owned_generators_from_seed (n : Z) (channels : option (list string))
      (sr : Q) (s : Z) :
  spike_gen (BrainModel_init n channels sr s) = rs_seed s /\
  eeg_rng (eeg_gen (BrainModel_init n channels sr s)) = rs_seed s.
Proof. split; reflexivity. Qed.

End Reproducibility.

(** C1 (evaluation at the failing input). Two models built with the same
    seed 42 and given the same call, one after the other in one process:
    the first rolls 12 and simulates the active state, the second rolls 6
    and simulates the relaxed state, because the roll is drawn from the
    process-wide generator and not from the seeded ones. *)
Theorem C1_same_seed_rolls_differ :
  let first :=
    generate_intuition_signal 10 10 (4#1000)
                              {| np_random := 7%Z; brain := brain_one_channel |} in
  let second :=
    generate_intuition_signal 10 10 (4#1000)
                              {| np_random := np_random (snd first);
                                 brain := brain_one_channel |} in
  exists a1 a2,
    fst first = Ok a1 /\ fst second = Ok a2 /\
    option_map d20_roll (intuition_data a1) = Some 12%Z /\
    option_map d20_roll (intuition_data a2) = Some 6%Z /\
    a_state a1 = "active"%string /\ a_state a2 = "relaxed"%string.
Proof.
  vm_compute. eexists; eexists. repeat split.
Qed.

Lemma C2_outcome_classification_witness :
  (1 <= 17 <= 20)%Z /\
  o_state (intuition_outcome 17 18 10) = "focused"%string /\
  o_spike_rate_range (intuition_outcome 17 18 10) = (30, 60) /\
  o_state (intuition_outcome 3 10 15) = "drowsy"%string /\
  randint 1 21 7%Z = (12%Z, snd (LCG.int_in 1 21 7)) /\
  generate_intuition_signal 10 10 (4#1000)
                            {| np_random := 7%Z; brain := brain_no_channels |}
  = let o := intuition_outcome 12 10 10 in
    let (r, b) := simulate_activity (4#1000) (o_state o) (o_spike_rate_range o)
                                    brain_no_channels in
    (match r with
     | Ok a => Ok (with_intuition_data a
                     {| d20_roll := 12;
                        wisdom_modifier := o_wisdom_mod o;
                        total_score := o_intuition_score o;
                        difficulty_class := 10;
                        success := o_success o;
                        character_wisdom := 10 |})
     | Raise e => Raise e
     | Diverge => Diverge
     end,
     {| np_random := snd (LCG.int_in 1 21 7); brain := b |}).
Proof.
  assert (H17 : (1 <= 17 <= 20)%Z) by lia.
  assert (H3 : (1 <= 3 <= 20)%Z) by lia.
  assert (H12 : (1 <= 12 <= 20)%Z) by lia.
  split; [exact H17|].
  pose proof (C2_outcome_classification (RS := Z) 17 18 10 H17)
    as (_ & _ & _ & Hfocused & _).
  pose proof (C2_outcome_classification (RS := Z) 3 10 15 H3)
    as (_ & _ & _ & _ & _ & Hdrowsy & _).
  pose proof (C2_outcome_classification (RS := Z) 12 10 10 H12)
    as (_ & _ & _ & _ & _ & _ & _ & Hsignal).
  split; [apply Hfocused; [reflexivity|cbn; lia]|].
  split; [apply Hfocused; [reflexivity|cbn; lia]|].
  split; [apply Hdrowsy; [reflexivity|cbn; lia]|].
  split; [reflexivity|].
  exact (Hsignal {| np_random := 7%Z; brain := brain_no_channels |}
                 (snd (LCG.int_in 1 21 7)) (4#1000) eq_refl).
Defined.

(** * Further properties of the generators *)

(** ** Truncation of negative quotients *)

Lemma py_int_small (x : Q) : -(1) < x -> x < 1 -> py_int x = 0%Z.
Proof.
  destruct x as [n d]. unfold Qlt, py_int. cbn [Qnum Qden Qopp]. intros Hlo Hhi.
  destruct (Z_le_gt_dec 0 n) as [Hn|Hn].
  - apply Z.quot_small. lia.
  - replace n with (- (- n))%Z by lia.
    rewrite Z.quot_opp_l by lia. rewrite Z.quot_small; lia.
Qed.

Lemma py_int_negative (x : Q) : x <= -(1) -> (py_int x < 0)%Z.
Proof.
  destruct x as [n d]. unfold Qle, py_int. cbn [Qnum Qden Qopp]. intro Hle.
  replace n with (- (- n))%Z by lia.
  rewrite Z.quot_opp_l by lia.
  assert (1 <= (- n) ÷ Z.pos d)%Z; [|lia].
  apply Z.quot_le_lower_bound; lia.
Qed.

Section PoissonEdges.
Context {RS : Type} `{RandomState RS}.

Lemma poisson_spikes_refused (rate duration dt : Q) (rng : RS) :
  0 < dt -> duration <= - dt ->
  poisson_spikes rate duration dt rng
  = (Raise (ValueError "negative dimensions are not allowed"), rng).
Proof.
  intros Hdt Hdur.
  unfold poisson_spikes, bind, py_div, ret, rng_random, raise.
  rewrite (Qeq_bool_pos dt Hdt).
  assert (Hq : duration / dt <= -(1)).
  { apply Qle_shift_div_r; [exact Hdt|]. lra. }
  apply py_int_negative in Hq. apply Z.ltb_lt in Hq. rewrite Hq. reflexivity.
Qed.

Lemma poisson_spikes_short (rate duration dt : Q) (rng : RS) :
  0 < dt -> - dt < duration -> duration < dt ->
  poisson_spikes rate duration dt rng = (Ok [], rng).
Proof.
  intros Hdt Hlo Hhi.
  unfold poisson_spikes, bind, py_div, ret, rng_random, raise.
  rewrite (Qeq_bool_pos dt Hdt).
  assert (Hq1 : -(1) < duration / dt).
  { apply Qlt_shift_div_l; [exact Hdt|]. lra. }
  assert (Hq2 : duration / dt < 1).
  { apply Qlt_shift_div_r; [exact Hdt|]. lra. }
  rewrite (py_int_small _ Hq1 Hq2). reflexivity.
Qed.

(** X1. Edge behaviour of [poisson_spikes] for a positive time step: a
    negative duration of one step or more is refused by the size check of
    the draw (ValueError) before anything is drawn; a duration whose
    magnitude is below one step (negative ones included) gives an empty
    train without drawing; and a zero time step raises ZeroDivisionError. *)
Theorem X1_poisson_edge_durations :
  forall (rate duration dt : Q) (rng : RS),
    (0 < dt -> duration <= - dt ->
     poisson_spikes rate duration dt rng
     = (Raise (ValueError "negative dimensions are not allowed"), rng)) /\
    (0 < dt -> - dt < duration -> duration < dt ->
     poisson_spikes rate duration dt rng = (Ok [], rng)) /\
    (dt == 0 ->
     poisson_spikes rate duration dt rng
     = (Raise (ZeroDivisionError "float division by zero"), rng)).
Proof.
  intros rate duration dt rng. split; [|split].
  - apply poisson_spikes_refused.
  - apply poisson_spikes_short.
  - intro Hzero.
    unfold poisson_spikes, bind, py_div, raise.
    apply Qeq_bool_iff in Hzero. rewrite Hzero. reflexivity.
Qed.

(** What a positive time step leaves of [poisson_spikes]: the refusal, or
    the times of the bins that fired. *)
Lemma poisson_spikes_cases (rate duration dt : Q) (rng : RS) (l : list Q) (rng' : RS) :
  0 < dt ->
  poisson_spikes rate duration dt rng = (Ok l, rng') ->
  l = poisson_times rate dt (fst (random_n (poisson_bins duration dt) rng)).
Proof.
  intros Hdt E.
  destruct (Qlt_le_dec duration 0) as [Hneg|Hpos].
  - assert (Hbins : poisson_bins duration dt = 0%nat).
    { unfold poisson_bins.
      assert (Hq : duration / dt <= 0).
      { apply Qle_shift_div_r; [exact Hdt|]. lra. }
      apply Qfloor_resp_le in Hq. change (Qfloor 0) with 0%Z in Hq. lia. }
    rewrite Hbins. cbn [random_n fst].
    destruct (Qlt_le_dec (- dt) duration) as [Hshort|Hlong].
    + rewrite poisson_spikes_short in E by (assumption || lra).
      injection E as <- _. reflexivity.
    + rewrite poisson_spikes_refused in E by assumption. discriminate E.
  - rewrite poisson_spikes_eq in E by assumption.
    injection E as <- _. reflexivity.
Qed.

Lemma poisson_times_length (rate dt : Q) (draws : list Q) :
  (List.length (poisson_times rate dt draws) <= List.length draws)%nat.
Proof.
  unfold poisson_times, np_where. rewrite length_map.
  etransitivity; [apply np_where_from_length|]. rewrite length_map. constructor.
Qed.

Lemma poisson_times_nonneg (rate dt : Q) (draws : list Q) :
  0 < dt -> Forall (fun t => 0 <= t) (poisson_times rate dt draws).
Proof.
  intro Hdt. unfold poisson_times. apply Forall_map. apply Forall_forall.
  intros i _. apply Qmult_le_0_compat; [|lra].
  rewrite <- (Zle_Qle 0). lia.
Qed.

(** The fields of a returned spike train. *)
Lemma generate_spike_train_fields (id : Z) (rate duration : Q) (mode : string)
      (kwargs : Kwargs) (rng : RS) (train : SpikeTrain) (rng' : RS) :
  generate_spike_train id rate duration mode kwargs rng = (Ok train, rng') ->
  neuron_id train = id /\ st_mode train = mode /\ st_duration train = duration /\
  spike_count train = List.length (spike_times train) /\
  parameters train = kwargs /\
  firing_rate train
  = (if Qltb 0 duration
     then inject_Z (Z.of_nat (List.length (spike_times train))) / duration
     else 0).
Proof.
  unfold generate_spike_train, bind.
  match goal with
  | |- context [match ?c rng with _ => _ end] =>
      destruct (c rng) as [[times|e|] rng1]
  end; unfold ret; intro E; try discriminate E.
  injection E as <- _. repeat split.
Qed.

(** X2. A Poisson train over a positive duration with a positive time
    step is always returned, whatever the target rate: it carries the
    requested id, mode and duration, its spike count is the number of its
    spike times and is at most the number of bins int(duration / dt), and
    its reported firing rate is that count over the duration, hence not
    negative. *)
Theorem X2_poisson_count_and_rate :
  forall (id : Z) (rate duration : Q) (dt_arg : option Q) (rng : RS),
    let dt := default (1#1000) dt_arg in
    0 < dt -> 0 < duration ->
    exists train rng',
      generate_spike_train id rate duration "poisson"
        {| kw_dt := dt_arg; kw_refractory_period := None;
           kw_spikes_per_burst := None; kw_intraburst_interval := None |} rng
      = (Ok train, rng') /\
      neuron_id train = id /\ st_mode train = "poisson"%string /\
      st_duration train = duration /\
      spike_count train = List.length (spike_times train) /\
      (spike_count train <= poisson_bins duration dt)%nat /\
      firing_rate train = inject_Z (Z.of_nat (spike_count train)) / duration /\
      0 <= firing_rate train.
Proof.
  intros id rate duration dt_arg rng dt Hdt Hdur.
  assert (Hdur0 : 0 <= duration) by lra.
  unfold generate_spike_train.
  cbn [String.eqb Ascii.eqb Bool.eqb kw_dt kw_refractory_period
       kw_spikes_per_burst kw_intraburst_interval is_none andb].
  fold dt. unfold bind at 1.
  rewrite (poisson_spikes_eq rate duration dt rng Hdt Hdur0). unfold ret.
  eexists; eexists. split; [reflexivity|].
  cbn [neuron_id st_mode st_duration spike_count spike_times firing_rate].
  set (times := poisson_times rate dt _).
  assert (Hlen : (List.length times <= poisson_bins duration dt)%nat).
  { unfold times. etransitivity; [apply poisson_times_length|].
    rewrite random_n_length. constructor. }
  assert (Hpos : 0 <= inject_Z (Z.of_nat (List.length times))).
  { rewrite <- (Zle_Qle 0). lia. }
  rewrite (proj2 (Qltb_lt 0 duration) Hdur).
  do 4 (split; [reflexivity|]). split; [exact Hlen|]. split; [reflexivity|].
  apply Qle_shift_div_l; [exact Hdur|]. lra.
Qed.

End PoissonEdges.

Lemma X1_poisson_edge_durations_witness :
  poisson_spikes 20 (-(1)) (1#1000) (rs_seed 42 : Z)
  = (Raise (ValueError "negative dimensions are not allowed"), rs_seed 42) /\
  poisson_spikes 20 (-(1#2000)) (1#1000) (rs_seed 42 : Z) = (Ok [], rs_seed 42) /\
  poisson_spikes 20 1 0 (rs_seed 42 : Z)
  = (Raise (ZeroDivisionError "float division by zero"), rs_seed 42).
Proof.
  split; [|split].
  - apply (proj1 (X1_poisson_edge_durations 20 (-(1)) (1#1000) (rs_seed 42 : Z)));
      [reflexivity|discriminate].
  - apply (proj1 (proj2 (X1_poisson_edge_durations 20 (-(1#2000)) (1#1000)
                                                   (rs_seed 42 : Z))));
      reflexivity.
  - apply (proj2 (proj2 (X1_poisson_edge_durations 20 1 0 (rs_seed 42 : Z)))).
    reflexivity.
Defined.

Lemma X2_poisson_count_and_rate_witness :
  0 < (1#1000) /\ 0 < 1 /\
  exists train rng',
    generate_spike_train 0 5000 1 "poisson" no_kwargs (rs_seed 42 : Z) = (Ok train, rng') /\
    (spike_count train <= 1000)%nat /\
    0 <= firing_rate train.
Proof.
  assert (Hdt : 0 < (1#1000)) by reflexivity.
  assert (Hdur : 0 < 1) by reflexivity.
  split; [exact Hdt|]. split; [exact Hdur|].
  destruct (X2_poisson_count_and_rate 0 5000 1 None (rs_seed 42 : Z) Hdt Hdur)
    as (train & rng' & E & _ & _ & _ & _ & Hcount & _ & Hrate).
  exists train, rng'. split; [exact E|]. split; [exact Hcount|exact Hrate].
Defined.

(** ** Refractory trains: range, order and the clock *)

Lemma StronglySorted_snoc (l : list Q) (t : Q) :
  StronglySorted Qlt l -> Forall (fun s => s < t) l -> StronglySorted Qlt (l ++ [t]).
Proof.
  induction 1 as [|a l Hs IH Ha]; intro Hall; cbn [app].
  - repeat constructor.
  - inversion Hall as [|? ? Hat Hlt]; subst. constructor; [apply IH; exact Hlt|].
    apply Forall_app. split; [exact Ha|]. constructor; [exact Hat|constructor].
Qed.

Lemma ticks_snoc (ticks : list nat) (k : nat) :
  StronglySorted lt ticks -> Forall (fun i => (i < k)%nat) ticks ->
  StronglySorted lt (ticks ++ [k]).
Proof.
  induction 1 as [|a l Hs IH Ha]; intro Hall; cbn [app].
  - repeat constructor.
  - inversion Hall as [|? ? Hak Hlk]; subst. constructor; [apply IH; exact Hlk|].
    apply Forall_app. split; [exact Ha|]. constructor; [exact Hak|constructor].
Qed.

Section RefractoryRange.
Context {RS : Type} `{RandomState RS}.
Variables rate duration refractory_period dt : Q.

Lemma refractory_loop_range (fuel : nat) :
  0 < dt ->
  forall (t last_spike : Q) (acc : list Q) (rng : RS) (l : list Q) (rng' : RS),
    0 <= t ->
    Forall (fun s => 0 <= s /\ s < duration /\ s < t) acc ->
    StronglySorted Qlt acc ->
    refractory_loop fuel rate duration refractory_period dt t last_spike acc rng
    = Some (l, rng') ->
    Forall (fun s => 0 <= s /\ s < duration) l /\ StronglySorted Qlt l.
Proof.
  intro Hdt. induction fuel as [|fuel IH];
    intros t last_spike acc rng l rng' Ht Hacc Hsorted E; [discriminate E|].
  cbn [refractory_loop] in E.
  assert (Hweak : Forall (fun s => 0 <= s /\ s < duration /\ s < t + dt) acc).
  { eapply Forall_impl; [|exact Hacc]. cbn. intros s (H0 & H1 & H2).
    repeat split; lra. }
  assert (Ht' : 0 <= t + dt) by lra.
  destruct (Qltb t duration) eqn:Et.
  - apply Qltb_lt in Et.
    destruct (Qle_bool refractory_period (t - last_spike));
      [|apply (IH _ _ _ _ _ _ Ht' Hweak Hsorted E)].
    destruct (random_sample rng) as [u rng1].
    destruct (Qltb u (rate * dt)); [|apply (IH _ _ _ _ _ _ Ht' Hweak Hsorted E)].
    apply (IH _ _ _ _ _ _ Ht') in E; [exact E| |].
    + apply Forall_app. split; [exact Hweak|].
      constructor; [repeat split; lra|constructor].
    + apply StronglySorted_snoc; [exact Hsorted|].
      eapply Forall_impl; [|exact Hacc]. cbn. intros s (_ & _ & Hs). exact Hs.
  - injection E as <- _. split; [|exact Hsorted].
    eapply Forall_impl; [|exact Hacc]. cbn. intros s (H0 & H1 & _). split; assumption.
Qed.

(** Every spike time is a reading of the clock, and later spikes are
    later readings. *)
Lemma refractory_loop_ticks (fuel : nat) :
  forall (k : nat) (last_spike : Q) (ticks : list nat) (rng : RS)
         (l : list Q) (rng' : RS),
    Forall (fun i => (i < k)%nat) ticks -> StronglySorted lt ticks ->
    refractory_loop fuel rate duration refractory_period dt
                    (clock dt k) last_spike (map (clock dt) ticks) rng
    = Some (l, rng') ->
    exists ticks', StronglySorted lt ticks' /\ l = map (clock dt) ticks'.
Proof.
  induction fuel as [|fuel IH];
    intros k last_spike ticks rng l rng' Hbelow Hsorted E; [discriminate E|].
  cbn [refractory_loop] in E.
  change (clock dt k + dt) with (clock dt (S k)) in E.
  assert (Hweak : Forall (fun i => (i < S k)%nat) ticks).
  { eapply Forall_impl; [|exact Hbelow]. cbn. intros i Hi. lia. }
  destruct (Qltb (clock dt k) duration).
  - destruct (Qle_bool refractory_period (clock dt k - last_spike));
      [|apply (IH _ _ _ _ _ _ Hweak Hsorted E)].
    destruct (random_sample rng) as [u rng1].
    destruct (Qltb u (rate * dt)); [|apply (IH _ _ _ _ _ _ Hweak Hsorted E)].
    change (map (clock dt) ticks ++ [clock dt k])
      with (map (clock dt) ticks ++ map (clock dt) [k]) in E.
    rewrite <- map_app in E.
    apply (IH (S k) _ (ticks ++ [k])) in E; [exact E| |].
    + apply Forall_app. split; [exact Hweak|]. repeat constructor.
    + apply ticks_snoc; assumption.
  - injection E as <- _. exists ticks. split; [exact Hsorted|reflexivity].
Qed.

Lemma refractory_spikes_loop (rng : RS) (l : list Q) (rng' : RS) :
  refractory_spikes rate duration refractory_period dt rng = (Ok l, rng') ->
  refractory_loop (S (refractory_steps duration dt)) rate duration refractory_period dt
                  0 (- refractory_period) [] rng
  = Some (l, rng').
Proof.
  unfold refractory_spikes.
  destruct (Qltb 0 dt || Qle_bool duration 0); [|discriminate].
  destruct (refractory_loop _ _ _ _ _ _ _ _ _) as [[l0 rng0]|]; [|discriminate].
  intro E. injection E as <- <-. reflexivity.
Qed.

(** X3. With a positive time step, the spike times returned by
    [refractory_spikes] lie in [0, duration) and are strictly increasing,
    and each of them is a reading of the loop clock, that is 0.0 advanced
    by [t += dt] some number of times (a running sum, not an index times
    dt as in the Poisson mode), with later spikes at later readings.  A
    duration <= 0 gives the empty train without drawing. *)
Theorem X3_refractory_times :
  forall (rng : RS),
    (0 < dt ->
     forall l rng',
       refractory_spikes rate duration refractory_period dt rng = (Ok l, rng') ->
       Forall (fun s => 0 <= s /\ s < duration) l /\
       StronglySorted Qlt l /\
       exists ticks : list nat,
         StronglySorted lt ticks /\ l = map (clock dt) ticks) /\
    (duration <= 0 ->
     refractory_spikes rate duration refractory_period dt rng = (Ok [], rng)).
Proof.
  intro rng. split.
  - intros Hdt l rng' E. apply refractory_spikes_loop in E.
    pose proof (refractory_loop_range _ Hdt 0 (- refractory_period) [] rng l rng'
                  (Qle_refl 0) (Forall_nil _) (SSorted_nil _) E) as [Hrange Hsorted].
    split; [exact Hrange|]. split; [exact Hsorted|].
    exact (refractory_loop_ticks _ 0 (- refractory_period) [] rng l rng'
             (Forall_nil _) (SSorted_nil _) E).
  - intro Hdur. unfold refractory_spikes.
    assert (Eguard : Qltb 0 dt || Qle_bool duration 0 = true).
    { apply orb_true_iff. right. apply Qle_bool_iff. exact Hdur. }
    rewrite Eguard. cbn [refractory_loop].
    rewrite (proj2 (Qltb_ge 0 duration) Hdur). reflexivity.
Qed.

End RefractoryRange.

Lemma X3_refractory_times_witness :
  0 < (1#1000) /\
  exists l rng',
    refractory_spikes 1000 (6#1000) (2#1000) (1#1000) (rs_seed 42 : Z) = (Ok l, rng') /\
    l <> [] /\
    Forall (fun s => 0 <= s /\ s < (6#1000)) l /\
    StronglySorted Qlt l.
Proof.
  assert (Hdt : 0 < (1#1000)) by reflexivity.
  split; [exact Hdt|].
  destruct (refractory_spikes 1000 (6#1000) (2#1000) (1#1000) (rs_seed 42 : Z))
    as [r rng'] eqn:E.
  assert (Hok : exists l, r = Ok l /\ l <> []).
  { vm_compute in E. injection E as <- _. eexists. split; [reflexivity|discriminate]. }
  destruct Hok as (l & -> & Hne).
  destruct (proj1 (X3_refractory_times 1000 (6#1000) (2#1000) (1#1000) (rs_seed 42 : Z))
                  Hdt l rng' E) as (Hrange & Hsorted & _).
  exists l, rng'. split; [reflexivity|]. split; [exact Hne|].
  split; [exact Hrange|exact Hsorted].
Defined.

(** ** Burst trains: range and count *)

Lemma burst_of_length (spb : Z) (duration interval b : Q) :
  (List.length (burst_of spb duration interval b) <= Z.to_nat spb)%nat.
Proof.
  unfold burst_of. rewrite <- (range_length spb).
  induction (range spb) as [|i l IH]; [constructor|].
  cbn [flat_map List.length]. rewrite length_app.
  destruct (Qltb _ duration); cbn [List.length]; lia.
Qed.

Lemma burst_of_nonneg (spb : Z) (duration interval b : Q) :
  0 <= interval -> 0 <= b ->
  Forall (fun t => 0 <= t) (burst_of spb duration interval b).
Proof.
  intros Hint Hb. unfold burst_of. apply Forall_flat_map. apply Forall_forall.
  intros i Hi. unfold range in Hi. apply in_map_iff in Hi.
  destruct Hi as (k & <- & _).
  destruct (Qltb _ duration); constructor; [|constructor].
  assert (Hk : 0 <= inject_Z (Z.of_nat k)) by (rewrite <- (Zle_Qle 0); lia).
  pose proof (Qmult_le_0_compat _ _ Hk Hint). lra.
Qed.

Lemma flat_map_length_le {A B} (f : A -> list B) (n : nat) (l : list A) :
  (forall a, (List.length (f a) <= n)%nat) ->
  (List.length (flat_map f l) <= n * List.length l)%nat.
Proof.
  intro Hf. induction l as [|a l IH]; cbn [flat_map List.length]; [lia|].
  rewrite length_app. specialize (Hf a). lia.
Qed.

Section BurstRange.
Context {RS : Type} `{RandomState RS}.

(** X4. With a positive time step and a non-negative intra-burst
    interval, every spike time returned by [burst_spikes] lies in
    [0, duration), and there are at most spikes_per_burst spikes per bin
    of the onset draw; a spikes_per_burst <= 0 gives an empty train. *)
Theorem X4_burst_times :
  forall (burst_rate : Q) (spikes_per_burst : Z) (duration interval dt : Q)
         (rng : RS) (l : list Q) (rng' : RS),
    0 < dt -> 0 <= interval ->
    burst_spikes burst_rate spikes_per_burst duration interval dt rng = (Ok l, rng') ->
    Forall (fun t => 0 <= t /\ t < duration) l /\
    (List.length l <= Z.to_nat spikes_per_burst * poisson_bins duration dt)%nat /\
    ((spikes_per_burst <= 0)%Z -> l = []).
Proof.
  intros burst_rate spb duration interval dt rng l rng' Hdt Hint E.
  rewrite burst_spikes_unfold in E.
  destruct (poisson_spikes burst_rate duration dt rng) as [[onsets|e|] rng1] eqn:Ep;
    try discriminate E.
  injection E as <- <-.
  apply (poisson_spikes_cases _ _ _ _ _ _ Hdt) in Ep.
  set (raw := flat_map (burst_of spb duration interval) onsets).
  assert (Hperm : Permutation raw (sorted raw)) by apply sorted_perm.
  assert (Honsets : Forall (fun b => 0 <= b) onsets).
  { rewrite Ep. apply poisson_times_nonneg. exact Hdt. }
  assert (Hlen : (List.length onsets <= poisson_bins duration dt)%nat).
  { rewrite Ep. etransitivity; [apply poisson_times_length|].
    rewrite random_n_length. constructor. }
  assert (Hraw : (List.length raw <= Z.to_nat spb * List.length onsets)%nat).
  { apply flat_map_length_le. intro b. apply burst_of_length. }
  split; [|split].
  - eapply Permutation_Forall; [exact Hperm|].
    unfold raw. apply Forall_flat_map.
    eapply Forall_impl; [|exact Honsets]. cbn. intros b Hb.
    pose proof (burst_of_nonneg spb duration interval b Hint Hb) as Hge.
    pose proof (burst_of_before_duration spb duration interval b) as Hlt.
    rewrite Forall_forall in *. intros t Ht. split; [apply Hge|apply Hlt]; exact Ht.
  - rewrite <- (Permutation_length Hperm). nia.
  - intro Hspb. apply length_zero_iff_nil.
    rewrite <- (Permutation_length Hperm).
    replace (Z.to_nat spb) with 0%nat in Hraw by lia. lia.
Qed.

End BurstRange.

Lemma X4_burst_times_witness :
  0 < (1#1000) /\ 0 <= (5#1000) /\
  exists l rng',
    burst_spikes 1000 2 (1#100) (5#1000) (1#1000) (rs_seed 42 : Z) = (Ok l, rng') /\
    Forall (fun t => 0 <= t /\ t < (1#100)) l.
Proof.
  assert (Hdt : 0 < (1#1000)) by reflexivity.
  assert (Hint : 0 <= (5#1000)) by discriminate.
  split; [exact Hdt|]. split; [exact Hint|].
  destruct (burst_spikes 1000 2 (1#100) (5#1000) (1#1000) (rs_seed 42 : Z))
    as [r rng'] eqn:E.
  assert (Hok : exists l, r = Ok l).
  { vm_compute in E. injection E as <- _. eexists. reflexivity. }
  destruct Hok as (l & ->).
  exists l, rng'. split; [reflexivity|].
  exact (proj1 (X4_burst_times 1000 2 (1#100) (5#1000) (1#1000) (rs_seed 42 : Z)
                               l rng' Hdt Hint E)).
Defined.

(** ** Populations *)

Lemma for_each_related {S A B} (R : A -> B -> Prop) (body : A -> Py S B) :
  (forall x s y s', body x s = (Ok y, s') -> R x y) ->
  forall xs s ys s', for_each body xs s = (Ok ys, s') -> Forall2 R xs ys.
Proof.
  intro Hbody. induction xs as [|x xs IH]; intros s ys s' E.
  - cbn in E. injection E as <- _. constructor.
  - cbn [for_each] in E. unfold bind at 1 in E.
    destruct (body x s) as [[y|e|] s1] eqn:Ey; try discriminate E.
    unfold bind at 1 in E.
    destruct (for_each body xs s1) as [[ys0|e|] s2] eqn:Eys; try discriminate E.
    injection E as <- _. constructor; [eapply Hbody; exact Ey|eapply IH; exact Eys].
Qed.

Lemma range_positive (n : Z) :
  (0 < n)%Z -> range n = 0%Z :: map Z.of_nat (seq 1 (Z.to_nat n - 1)).
Proof.
  intro Hn. unfold range.
  destruct (Z.to_nat n) as [|k] eqn:E; [lia|].
  replace (S k - 1)%nat with k by lia. reflexivity.
Qed.

Section Populations.
Context {RS : Type} `{RandomState RS}.

(** X5. [generate_population] forwards no keyword arguments, so for a
    positive number of neurons it cannot run in burst mode: the first
    neuron already raises TypeError for the missing spikes_per_burst; an
    unknown mode raises the unknown-mode error at the first neuron; in
    both cases one rate has been drawn.  With n_neurons <= 0 nothing is
    generated, drawn or checked, whatever the mode string. *)
Theorem X5_population_modes :
  forall (n_neurons : Z) (rate_range : Q * Q) (duration : Q) (mode : string) (rng : RS),
    ((n_neurons <= 0)%Z ->
     generate_population n_neurons rate_range duration mode rng = (Ok [], rng)) /\
    ((0 < n_neurons)%Z -> mode = "burst"%string ->
     exists msg,
       generate_population n_neurons rate_range duration mode rng
       = (Raise (TypeError msg), snd (uniform (fst rate_range) (snd rate_range) rng))) /\
    ((0 < n_neurons)%Z -> ~ known_mode mode ->
     generate_population n_neurons rate_range duration mode rng
     = (Raise (InvalidMode mode), snd (uniform (fst rate_range) (snd rate_range) rng))).
Proof.
  intros n rate_range duration mode rng. split; [|split].
  - intro Hn. unfold generate_population, range.
    replace (Z.to_nat n) with 0%nat by lia. reflexivity.
  - intros Hn ->. unfold generate_population. rewrite (range_positive n Hn).
    cbn [for_each]. unfold bind at 1. unfold bind at 1.
    destruct (uniform (fst rate_range) (snd rate_range) rng) as [rate rng1].
    cbn [snd]. eexists. reflexivity.
  - intros Hn Hmode. unfold generate_population. rewrite (range_positive n Hn).
    cbn [for_each]. unfold bind at 1. unfold bind at 1.
    destruct (uniform (fst rate_range) (snd rate_range) rng) as [rate rng1].
    cbn [snd]. unfold known_mode in Hmode. unfold generate_spike_train.
    destruct (String.eqb_spec mode "poisson"); [tauto|].
    destruct (String.eqb_spec mode "refractory"); [tauto|].
    destruct (String.eqb_spec mode "burst"); [tauto|].
    reflexivity.
Qed.

(** X6. A population that is returned holds the neurons 0 .. n_neurons-1
    in index order, each train carrying the requested mode and duration,
    a spike count equal to the number of its spike times, and no mode
    parameters. *)
Theorem X6_population_indexing :
  forall (n_neurons : Z) (rate_range : Q * Q) (duration : Q) (mode : string)
         (rng : RS) (trains : list SpikeTrain) (rng' : RS),
    generate_population n_neurons rate_range duration mode rng = (Ok trains, rng') ->
    map neuron_id trains = range n_neurons /\
    List.length trains = Z.to_nat n_neurons /\
    Forall (fun train =>
              st_mode train = mode /\ st_duration train = duration /\
              spike_count train = List.length (spike_times train) /\
              parameters train = no_kwargs) trains.
Proof.
  intros n rate_range duration mode rng trains rng' E.
  unfold generate_population in E.
  apply (for_each_related
           (fun i train =>
              neuron_id train = i /\ st_mode train = mode /\
              st_duration train = duration /\
              spike_count train = List.length (spike_times train) /\
              parameters train = no_kwargs)) in E.
  - rewrite <- range_length.
    induction E as [|i train ids ts (Hid & Hrest) _ IH]; [repeat split; constructor|].
    destruct IH as (IHid & IHlen & IHall).
    cbn [map List.length]. rewrite Hid, IHid, IHlen.
    repeat split. constructor; assumption.
  - intros i s train s' Ei. unfold bind at 1 in Ei.
    destruct (uniform (fst rate_range) (snd rate_range) s) as [rate s1].
    apply generate_spike_train_fields in Ei.
    destruct Ei as (H1 & H2 & H3 & H4 & H5 & _). repeat split; assumption.
Qed.

End Populations.

Lemma X5_population_modes_witness :
  (exists msg,
      generate_population 3 (10, 30) 1 "burst" (rs_seed 42 : Z)
      = (Raise (TypeError msg), snd (uniform 10 30 (rs_seed 42 : Z)))) /\
  generate_population 3 (10, 30) 1 "telepathy" (rs_seed 42 : Z)
  = (Raise (InvalidMode "telepathy"), snd (uniform 10 30 (rs_seed 42 : Z))) /\
  generate_population 0 (10, 30) 1 "telepathy" (rs_seed 42 : Z) = (Ok [], rs_seed 42).
Proof.
  assert (Hmode : ~ known_mode "telepathy").
  { intros [E|[E|E]]; discriminate E. }
  split; [|split].
  - apply (proj1 (proj2 (X5_population_modes 3 (10, 30) 1 "burst" (rs_seed 42 : Z))));
      [reflexivity|reflexivity].
  - apply (proj2 (proj2 (X5_population_modes 3 (10, 30) 1 "telepathy" (rs_seed 42 : Z))));
      [reflexivity|exact Hmode].
  - apply (proj1 (X5_population_modes 0 (10, 30) 1 "telepathy" (rs_seed 42 : Z))).
    discriminate.
Defined.

Lemma X6_population_indexing_witness :
  exists trains rng',
    generate_population 3 (10, 30) (2#1000) "refractory" (rs_seed 42 : Z)
    = (Ok trains, rng') /\
    map neuron_id trains = [0; 1; 2]%Z.
Proof.
  destruct (generate_population 3 (10, 30) (2#1000) "refractory" (rs_seed 42 : Z))
    as [r rng'] eqn:E.
  assert (Hok : exists trains, r = Ok trains).
  { vm_compute in E. injection E as <- _. eexists. reflexivity. }
  destruct Hok as (trains & ->).
  exists trains, rng'. split; [reflexivity|].
  exact (proj1 (X6_population_indexing 3 (10, 30) (2#1000) "refractory" (rs_seed 42 : Z)
                                       trains rng' E)).
Defined.

(** ** EEG signals: lengths and failures *)

Lemma array_add_length (a b : list Q) :
  List.length a = List.length b -> List.length (array_add a b) = List.length a.
Proof.
  revert b. induction a as [|x a IH]; intros [|y b] E; try discriminate E;
    [reflexivity|].
  cbn [array_add List.length]. f_equal. apply IH. injection E as E. exact E.
Qed.

Lemma time_axis_length (n : Z) (sr : Q) : List.length (time_axis n sr) = Z.to_nat n.
Proof. unfold time_axis. rewrite length_map. apply range_length. Qed.

Lemma canonical_band_lookup (band : string) :
  canonical_band band <-> exists r, dict_get band BANDS = Some r.
Proof.
  unfold canonical_band, BANDS, dict_get. split.
  - intros [<-|[<-|[<-|[<-|[<-|[]]]]]]; eexists; reflexivity.
  - intros [r Hr]. cbn [In].
    destruct (String.eqb_spec band "delta"); [auto|].
    destruct (String.eqb_spec band "theta"); [auto|].
    destruct (String.eqb_spec band "alpha"); [auto|].
    destruct (String.eqb_spec band "beta"); [auto 6|].
    destruct (String.eqb_spec band "gamma"); [auto 6|].
    discriminate Hr.
Qed.

Section SignalLengths.
Context {RS : Type} `{RandomState RS} `{FloatMath}.

Lemma uniform_n_ok (low high : Q) (n : nat) (rng : RS) :
  exists us rng', uniform_n low high n rng = (Ok us, rng') /\ List.length us = n.
Proof.
  revert rng. induction n as [|n IH]; intros rng.
  - exists [], rng. split; reflexivity.
  - cbn [uniform_n]. destruct (uniform low high rng) as [u rng1].
    destruct (IH rng1) as (us & rng2 & E & Hlen).
    exists (u :: us), rng2. unfold bind. rewrite E. unfold ret.
    split; [reflexivity|]. cbn. congruence.
Qed.

Lemma normal_n_ok (loc scale : Q) (n : nat) (rng : RS) :
  exists us rng', normal_n loc scale n rng = (Ok us, rng') /\ List.length us = n.
Proof.
  revert rng. induction n as [|n IH]; intros rng.
  - exists [], rng. split; reflexivity.
  - cbn [normal_n]. destruct (normal loc scale rng) as [u rng1].
    destruct (IH rng1) as (us & rng2 & E & Hlen).
    exists (u :: us), rng2. unfold bind. rewrite E. unfold ret.
    split; [reflexivity|]. cbn. congruence.
Qed.

Lemma add_components_length (t : list Q) (comps : list (Q * Q * Q)) (signal : list Q) :
  List.length t = List.length signal ->
  List.length (add_components t comps signal) = List.length signal.
Proof.
  revert signal. induction comps as [|[[f p] w] comps IH]; intros signal E;
    [reflexivity|].
  cbn [add_components].
  assert (Hadd : List.length (array_add signal
                   (map (fun tj => w * np_sin (2 * np_pi * f * tj + p)) t))
                 = List.length signal).
  { apply array_add_length. rewrite length_map. congruence. }
  rewrite IH; congruence.
Qed.

(** The draws of [generate_band] and the samples it builds from them. *)
Lemma generate_band_known (sr : Q) (band : string) (duration amplitude : Q) (rng : RS) :
  canonical_band band ->
  exists rng',
    (sample_count sr duration < 0)%Z /\
    generate_band sr band duration amplitude rng
    = (Raise (ValueError "negative dimensions are not allowed"), rng')
    \/
    (0 <= sample_count sr duration)%Z /\
    exists signal,
      generate_band sr band duration amplitude rng = (Ok signal, rng') /\
      List.length signal = Z.to_nat (sample_count sr duration).
Proof.
  intro Hband. apply canonical_band_lookup in Hband. destruct Hband as ([lo hi] & Hb).
  destruct (uniform_n_ok lo hi 3 rng) as (fs & rng1 & E1 & _).
  destruct (uniform_n_ok 0 (2 * np_pi) 3 rng1) as (ps & rng2 & E2 & _).
  destruct (uniform_n_ok (5#10) 1 3 rng2) as (ws & rng3 & E3 & _).
  exists rng3.
  assert (Hgen :
    generate_band sr band duration amplitude rng
    = if (sample_count sr duration <? 0)%Z
      then (Raise (ValueError "negative dimensions are not allowed"), rng3)
      else (Ok (map (fun x => amplitude * x)
                    (add_components
                       (time_axis (sample_count sr duration) sr)
                       (combine (combine fs ps) (map (fun w => w / Qsum ws) ws))
                       (repeat 0 (Z.to_nat (sample_count sr duration))))),
            rng3)).
  { unfold generate_band. rewrite Hb. fold (sample_count sr duration).
    unfold bind at 1. rewrite E1. unfold bind at 1. rewrite E2.
    unfold bind at 1. rewrite E3. unfold bind at 1. unfold np_zeros.
    destruct (sample_count sr duration <? 0)%Z; reflexivity. }
  rewrite Hgen.
  destruct (sample_count sr duration <? 0)%Z eqn:En.
  - left. apply Z.ltb_lt in En. split; [exact En|reflexivity].
  - right. apply Z.ltb_ge in En. split; [exact En|].
    eexists. split; [reflexivity|].
    rewrite length_map, add_components_length; rewrite repeat_length;
      [reflexivity|apply time_axis_length].
Qed.

Lemma generate_band_unknown (sr : Q) (band : string) (duration amplitude : Q) (rng : RS) :
  ~ canonical_band band ->
  generate_band sr band duration amplitude rng
  = (Raise (ValueError ("Unknown band: " ++ band)), rng).
Proof.
  intro Hband. unfold generate_band.
  destruct (dict_get band BANDS) as [r|] eqn:E; [|reflexivity].
  exfalso. apply Hband. apply canonical_band_lookup. exists r. exact E.
Qed.

(** X7. [generate_band] refuses an unknown band name before drawing
    anything; for one of the five bands it draws its nine parameters and
    then either returns exactly int(duration * sampling_rate) samples or,
    when that count is negative, raises the ValueError of [np.zeros]. *)
Theorem X7_band_samples :
  forall (sr : Q) (band : string) (duration amplitude : Q) (rng : RS),
    (~ canonical_band band ->
     generate_band sr band duration amplitude rng
     = (Raise (ValueError ("Unknown band: " ++ band)), rng)) /\
    (canonical_band band -> (0 <= sample_count sr duration)%Z ->
     exists signal rng',
       generate_band sr band duration amplitude rng = (Ok signal, rng') /\
       List.length signal = Z.to_nat (sample_count sr duration)) /\
    (canonical_band band -> (sample_count sr duration < 0)%Z ->
     exists rng',
       generate_band sr band duration amplitude rng
       = (Raise (ValueError "negative dimensions are not allowed"), rng')).
Proof.
  intros sr band duration amplitude rng. split; [|split].
  - apply generate_band_unknown.
  - intros Hband Hn.
    destruct (generate_band_known sr band duration amplitude rng Hband)
      as (rng' & [[Hneg _]|[_ (signal & E & Hlen)]]); [lia|].
    exists signal, rng'. split; assumption.
  - intros Hband Hn.
    destruct (generate_band_known sr band duration amplitude rng Hband)
      as (rng' & [[_ E]|[Hpos _]]); [|lia].
    exists rng'. exact E.
Qed.

Lemma generate_band_length (sr : Q) (band : string) (duration amplitude : Q)
      (rng : RS) (signal : list Q) (rng' : RS) :
  generate_band sr band duration amplitude rng = (Ok signal, rng') ->
  List.length signal = Z.to_nat (sample_count sr duration).
Proof.
  intro E.
  destruct (dict_get band BANDS) as [r|] eqn:Eb.
  - assert (Hband : canonical_band band)
      by (apply canonical_band_lookup; exists r; exact Eb).
    destruct (generate_band_known sr band duration amplitude rng Hband)
      as (rng1 & [[_ E1]|[_ (signal1 & E1 & Hlen)]]); rewrite E1 in E.
    + discriminate E.
    + injection E as <- _. exact Hlen.
  - unfold generate_band in E. rewrite Eb in E. discriminate E.
Qed.

Lemma add_bands_length (sr duration : Q) (bw : list (string * Q)) :
  forall (signal : list Q) (rng : RS) (out : list Q) (rng' : RS),
    List.length signal = Z.to_nat (sample_count sr duration) ->
    add_bands sr duration bw signal rng = (Ok out, rng') ->
    List.length out = Z.to_nat (sample_count sr duration).
Proof.
  induction bw as [|[band w] bw IH]; intros signal rng out rng' Hlen E.
  - cbn in E. injection E as <- _. exact Hlen.
  - cbn [add_bands] in E. destruct (Qltb 0 w); [|eapply IH; eassumption].
    unfold bind at 1 in E.
    destruct (generate_band sr band duration w rng) as [[bs|e|] rng1] eqn:Eb;
      try discriminate E.
    apply generate_band_length in Eb.
    eapply IH; [|exact E]. rewrite array_add_length; congruence.
Qed.

Lemma add_bands_ok (sr duration : Q) (bw : list (string * Q)) :
  (0 <= sample_count sr duration)%Z ->
  Forall (fun kv => canonical_band (fst kv)) bw ->
  forall (signal : list Q) (rng : RS),
    List.length signal = Z.to_nat (sample_count sr duration) ->
    exists out rng', add_bands sr duration bw signal rng = (Ok out, rng').
Proof.
  intros Hn Hbands. induction Hbands as [|[band w] bw Hband _ IH];
    intros signal rng Hlen.
  - exists signal, rng. reflexivity.
  - cbn [add_bands]. destruct (Qltb 0 w); [|apply IH; exact Hlen].
    destruct (generate_band_known sr band duration w rng Hband)
      as (rng1 & [[Hneg _]|[_ (bs & Eb & Hbs)]]); [lia|].
    unfold bind at 1. rewrite Eb. apply IH.
    rewrite array_add_length; congruence.
Qed.

Lemma generate_mixed_signal_length (sr duration : Q)
      (band_weights : option (list (string * Q))) (noise_level : Q)
      (rng : RS) (signal : list Q) (rng' : RS) :
  generate_mixed_signal sr duration band_weights noise_level rng = (Ok signal, rng') ->
  (0 <= sample_count sr duration)%Z /\
  List.length signal = Z.to_nat (sample_count sr duration).
Proof.
  unfold generate_mixed_signal. fold (sample_count sr duration).
  unfold bind at 1.
  destruct (normalize_weights _ rng) as [[ws|e|] rng1]; try discriminate.
  unfold bind at 1. unfold np_zeros.
  destruct (sample_count sr duration <? 0)%Z eqn:En; [discriminate|].
  apply Z.ltb_ge in En. unfold ret at 1. unfold bind at 1.
  destruct (add_bands sr duration ws _ rng1) as [[out|e|] rng2] eqn:Ea;
    try discriminate.
  apply add_bands_length in Ea; [|apply repeat_length].
  destruct (Qltb 0 noise_level).
  - destruct (normal_n_ok 0 noise_level (Z.to_nat (sample_count sr duration)) rng2)
      as (noise & rng3 & En3 & Hnoise).
    unfold bind. rewrite En3. unfold ret. intro E. injection E as <- _.
    split; [exact En|]. rewrite array_add_length; congruence.
  - unfold ret. intro E. injection E as <- _. split; assumption.
Qed.

End SignalLengths.

Lemma X7_band_samples_witness :
  ~ canonical_band "omega" /\ canonical_band "alpha" /\
  generate_band 250 "omega" 1 1 (rs_seed 42 : Z)
  = (Raise (ValueError "Unknown band: omega"), rs_seed 42) /\
  (exists signal rng',
      generate_band 250 "alpha" (4#100) 1 (rs_seed 42 : Z) = (Ok signal, rng') /\
      List.length signal = 10%nat) /\
  (exists rng',
      generate_band 250 "alpha" (-(1)) 1 (rs_seed 42 : Z)
      = (Raise (ValueError "negative dimensions are not allowed"), rng')).
Proof.
  assert (Hno : ~ canonical_band "omega").
  { intros [E|[E|[E|[E|[E|[]]]]]]; discriminate E. }
  assert (Hyes : canonical_band "alpha") by (cbn; auto).
  split; [exact Hno|]. split; [exact Hyes|]. split; [|split].
  - apply (proj1 (X7_band_samples 250 "omega" 1 1 (rs_seed 42 : Z)) Hno).
  - apply (proj1 (proj2 (X7_band_samples 250 "alpha" (4#100) 1 (rs_seed 42 : Z))) Hyes).
    discriminate.
  - apply (proj2 (proj2 (X7_band_samples 250 "alpha" (-(1)) 1 (rs_seed 42 : Z))) Hyes).
    reflexivity.
Defined.

(** ** Channel statistics *)

Lemma Qmax_ge_l (x y : Q) : x <= Qmax x y.
Proof.
  unfold Qmax. destruct (Qle_bool x y) eqn:E; [|apply Qle_refl].
  apply Qle_bool_iff. exact E.
Qed.

Lemma Qmax_ge_r (x y : Q) : y <= Qmax x y.
Proof.
  unfold Qmax. destruct (Qle_bool x y) eqn:E; [apply Qle_refl|].
  apply Qlt_le_weak. apply Qltb_lt. unfold Qltb. rewrite E. reflexivity.
Qed.

Lemma fold_Qmax_ge (ms : list Q) :
  forall m, m <= fold_left Qmax ms m /\ Forall (fun x => x <= fold_left Qmax ms m) ms.
Proof.
  induction ms as [|x ms IH]; intro m; cbn [fold_left].
  - split; [apply Qle_refl|constructor].
  - destruct (IH (Qmax m x)) as [Hinit Hall]. split.
    + eapply Qle_trans; [apply Qmax_ge_l|exact Hinit].
    + constructor; [|exact Hall].
      eapply Qle_trans; [apply Qmax_ge_r|exact Hinit].
Qed.

Lemma fold_Qplus_le_bound (bound : Q) (l : list Q) :
  Forall (fun m => m <= bound) l ->
  forall a, fold_left Qplus l a <= a + inject_Z (Z.of_nat (List.length l)) * bound.
Proof.
  induction 1 as [|x l Hx _ IH]; intro a; cbn [fold_left List.length].
  - change (inject_Z (Z.of_nat 0)) with 0. lra.
  - eapply Qle_trans; [apply IH|]. rewrite inject_Z_succ. lra.
Qed.

Lemma fold_Qplus_nonneg (l : list Q) :
  Forall (fun m => 0 <= m) l -> forall a, 0 <= a -> 0 <= fold_left Qplus l a.
Proof.
  induction 1 as [|x l Hx _ IH]; intros a Ha; cbn [fold_left]; [exact Ha|].
  apply IH. lra.
Qed.

Section Channels.
Context {RS : Type} `{RandomState RS} `{FloatMath}.

Lemma generate_mental_state_length (sr : Q) (state : string) (duration : Q)
      (rng : RS) (signal : list Q) (rng' : RS) :
  generate_mental_state sr state duration rng = (Ok signal, rng') ->
  canonical_state state /\
  (0 <= sample_count sr duration)%Z /\
  List.length signal = Z.to_nat (sample_count sr duration).
Proof.
  unfold generate_mental_state.
  destruct (dict_get state state_profiles) as [profile|] eqn:Ep; [|discriminate].
  intro E. split; [|eapply generate_mixed_signal_length; exact E].
  unfold canonical_state. unfold state_profiles, dict_get in Ep.
  destruct (String.eqb_spec state "relaxed"); [auto|].
  destruct (String.eqb_spec state "focused"); [auto|].
  destruct (String.eqb_spec state "drowsy"); [auto|].
  destruct (String.eqb_spec state "active"); [auto|].
  discriminate Ep.
Qed.

(** Weights of non-zero sum over known bands, and a sample count that is
    not negative: the mixed signal is produced. *)
Lemma generate_mixed_signal_ok (sr duration : Q) (bw : list (string * Q))
      (noise_level : Q) (rng : RS) :
  Qeq_bool (Qsum (map snd bw)) 0 = false ->
  Forall (fun kv => canonical_band (fst kv)) bw ->
  (0 <= sample_count sr duration)%Z ->
  exists signal rng',
    generate_mixed_signal sr duration (Some bw) noise_level rng = (Ok signal, rng').
Proof.
  intros Htotal Hbands Hn. unfold generate_mixed_signal.
  fold (sample_count sr duration). unfold bind at 1.
  unfold normalize_weights. rewrite (normalize_loop _ bw rng Htotal).
  unfold bind at 1. unfold np_zeros.
  destruct (sample_count sr duration <? 0)%Z eqn:En; [apply Z.ltb_lt in En; lia|].
  unfold ret at 1. unfold bind at 1.
  destruct (add_bands_ok sr duration
              (map (fun kv => (fst kv, snd kv / Qsum (map snd bw))) bw) Hn)
    with (signal := repeat 0 (Z.to_nat (sample_count sr duration))) (rng := rng)
    as (out & rng2 & Ea).
  { apply Forall_map. exact Hbands. }
  { apply repeat_length. }
  rewrite Ea. destruct (Qltb 0 noise_level).
  - destruct (normal_n_ok 0 noise_level (Z.to_nat (sample_count sr duration)) rng2)
      as (noise & rng3 & En3 & _).
    unfold bind. rewrite En3. eexists; eexists; reflexivity.
  - eexists; eexists; reflexivity.
Qed.

Lemma generate_mental_state_ok (sr : Q) (state : string) (duration : Q) (rng : RS) :
  canonical_state state ->
  (0 <= sample_count sr duration)%Z ->
  exists signal rng',
    generate_mental_state sr state duration rng = (Ok signal, rng') /\
    List.length signal = Z.to_nat (sample_count sr duration).
Proof.
  intros Hstate Hn.
  assert (Hok : exists signal rng',
             generate_mental_state sr state duration rng = (Ok signal, rng')).
  { unfold generate_mental_state.
    destruct Hstate as [-> | [-> | [-> | ->]]];
      match goal with
      | |- context [dict_get ?s state_profiles] =>
          let v := eval vm_compute in (dict_get s state_profiles) in
          change (dict_get s state_profiles) with v
      end; cbv beta iota;
      (apply generate_mixed_signal_ok;
       [reflexivity
       |repeat (apply Forall_cons; [unfold canonical_band; cbn; tauto|]);
        apply Forall_nil
       |exact Hn]). }
  destruct Hok as (signal & rng' & E). exists signal, rng'. split; [exact E|].
  apply generate_mental_state_length in E. apply E.
Qed.

(** What [generate_channel_data] makes of the signal of the state. *)
Lemma generate_channel_data_cases (sr : Q) (name : string) (duration : Q)
      (state : string) (noise_level : Q) (rng : RS) :
  generate_channel_data sr name duration state noise_level rng =
  match generate_mental_state sr state duration rng with
  | (Ok [], rng') => (Raise EmptyReduction, rng')
  | (Ok (x :: xs), rng') =>
      (Ok {| channel_name := name;
             signal := x :: xs;
             time := time_axis (Z.of_nat (List.length (x :: xs))) sr;
             cd_sampling_rate := sr;
             cd_duration := duration;
             n_samples := List.length (x :: xs);
             cd_state := state;
             mean_amplitude := Qsum (map Qabs (x :: xs))
                               / inject_Z (Z.of_nat (List.length (x :: xs)));
             peak_amplitude := fold_left Qmax (map Qabs xs) (Qabs x) |}, rng')
  | (Raise e, rng') => (Raise e, rng')
  | (Diverge, rng') => (Diverge, rng')
  end.
Proof.
  unfold generate_channel_data, bind.
  destruct (generate_mental_state sr state duration rng) as [[[|x xs]|e|] rng'];
    reflexivity.
Qed.

Lemma generate_channel_data_fields (sr : Q) (name : string) (duration : Q)
      (state : string) (noise_level : Q) (rng : RS) (cd : ChannelData) (rng' : RS) :
  generate_channel_data sr name duration state noise_level rng = (Ok cd, rng') ->
  exists x xs,
    generate_mental_state sr state duration rng = (Ok (x :: xs), rng') /\
    channel_name cd = name /\ cd_state cd = state /\
    cd_sampling_rate cd = sr /\ cd_duration cd = duration /\
    signal cd = x :: xs /\
    n_samples cd = List.length (x :: xs) /\
    time cd = time_axis (Z.of_nat (List.length (x :: xs))) sr /\
    mean_amplitude cd
    = Qsum (map Qabs (x :: xs)) / inject_Z (Z.of_nat (List.length (x :: xs))) /\
    peak_amplitude cd = fold_left Qmax (map Qabs xs) (Qabs x).
Proof.
  rewrite generate_channel_data_cases.
  destruct (generate_mental_state sr state duration rng) as [[[|x xs]|e|] rng1];
    intro E; try discriminate E.
  injection E as <- <-. exists x, xs. repeat split.
Qed.

(** X8. A channel returned by [generate_channel_data] carries the
    requested name and a canonical state, holds exactly
    int(duration * sampling_rate) >= 1 samples with a time axis of the same
    length, and its statistics are consistent: every sample magnitude is
    at most the peak amplitude and 0 <= mean amplitude <= peak amplitude.
    The noise_level argument has no influence on the result. *)
Theorem X8_channel_data_consistent :
  forall (sr : Q) (name : string) (duration : Q) (state : string) (noise_level : Q)
         (rng : RS) (cd : ChannelData) (rng' : RS),
    generate_channel_data sr name duration state noise_level rng = (Ok cd, rng') ->
    channel_name cd = name /\ cd_state cd = state /\ canonical_state state /\
    cd_sampling_rate cd = sr /\ cd_duration cd = duration /\
    Z.of_nat (n_samples cd) = sample_count sr duration /\
    (1 <= n_samples cd)%nat /\
    List.length (signal cd) = n_samples cd /\
    List.length (time cd) = n_samples cd /\
    Forall (fun x => Qabs x <= peak_amplitude cd) (signal cd) /\
    0 <= mean_amplitude cd /\ mean_amplitude cd <= peak_amplitude cd /\
    (forall other_level,
        generate_channel_data sr name duration state other_level rng = (Ok cd, rng')).
Proof.
  intros sr name duration state noise_level rng cd rng' E.
  pose proof (generate_channel_data_fields _ _ _ _ _ _ _ _ E)
    as (x & xs & Es & Hname & Hst & Hsr & Hdur & Hsig & Hns & Htime & Hmean & Hpk).
  pose proof (generate_mental_state_length _ _ _ _ _ _ Es) as (Hstate & Hn & Hlen).
  set (sig := x :: xs) in *.
  assert (Hsize : (1 <= List.length sig)%nat) by (unfold sig; cbn [List.length]; lia).
  assert (Hpos : 0 < inject_Z (Z.of_nat (List.length sig))).
  { rewrite <- (Zlt_Qlt 0). lia. }
  destruct (fold_Qmax_ge (map Qabs xs) (Qabs x)) as [Hinit Hrest].
  rewrite <- Hpk in Hinit, Hrest.
  assert (Hpeak : Forall (fun m => m <= peak_amplitude cd) (map Qabs sig)).
  { unfold sig. cbn [map]. constructor; assumption. }
  assert (Hmags : Forall (fun m => 0 <= m) (map Qabs sig)).
  { apply Forall_map. apply Forall_forall. intros y _. apply Qabs_nonneg. }
  rewrite Hns, Hsig, Htime, Hmean.
  do 5 (split; [assumption|]).
  split; [lia|]. split; [exact Hsize|]. split; [reflexivity|].
  split; [rewrite time_axis_length; lia|].
  split; [rewrite Forall_map in Hpeak; exact Hpeak|].
  split; [|split].
  - apply Qle_shift_div_l; [exact Hpos|]. rewrite Qmult_0_l.
    apply fold_Qplus_nonneg; [exact Hmags|apply Qle_refl].
  - apply Qle_shift_div_r; [exact Hpos|].
    pose proof (fold_Qplus_le_bound _ _ Hpeak 0) as Hsum.
    rewrite length_map in Hsum. unfold Qsum. lra.
  - intro other. rewrite <- E. rewrite !generate_channel_data_cases. reflexivity.
Qed.

End Channels.

Lemma X8_channel_data_consistent_witness :
  exists cd rng',
    generate_channel_data 250 "C3" (4#1000) "focused" (1#10) (rs_seed 42 : Z)
    = (Ok cd, rng') /\
    n_samples cd = 1%nat /\ mean_amplitude cd <= peak_amplitude cd.
Proof.
  destruct (generate_channel_data 250 "C3" (4#1000) "focused" (1#10) (rs_seed 42 : Z))
    as [r rng'] eqn:E.
  assert (Hok : exists cd, r = Ok cd).
  { vm_compute in E. injection E as <- _. eexists. reflexivity. }
  destruct Hok as (cd & ->).
  pose proof (X8_channel_data_consistent 250 "C3" (4#1000) "focused" (1#10)
                                         (rs_seed 42 : Z) cd rng' E)
    as (_ & _ & _ & _ & _ & Hn & _ & _ & _ & _ & _ & Hmean & _).
  exists cd, rng'. split; [reflexivity|]. split; [|exact Hmean].
  apply Nat2Z.inj. rewrite Hn. reflexivity.
Defined.

(** ** Montages *)

Section Montages.
Context {RS : Type} `{RandomState RS} `{FloatMath}.

Lemma generate_channel_data_ok (sr : Q) (name : string) (duration : Q)
      (state : string) (noise_level : Q) (rng : RS) :
  canonical_state state -> (1 <= sample_count sr duration)%Z ->
  exists cd rng',
    generate_channel_data sr name duration state noise_level rng = (Ok cd, rng').
Proof.
  intros Hstate Hn.
  destruct (generate_mental_state_ok sr state duration rng Hstate)
    as (sig & rng' & Es & Hlen); [lia|].
  rewrite generate_channel_data_cases, Es.
  destruct sig as [|x xs]; [cbn [List.length] in Hlen; lia|].
  eexists; eexists; reflexivity.
Qed.

Lemma generate_channel_data_empty (sr : Q) (name : string) (duration : Q)
      (state : string) (noise_level : Q) (rng : RS) :
  canonical_state state -> sample_count sr duration = 0%Z ->
  exists rng',
    generate_channel_data sr name duration state noise_level rng
    = (Raise EmptyReduction, rng').
Proof.
  intros Hstate Hn.
  destruct (generate_mental_state_ok sr state duration rng Hstate)
    as (sig & rng' & Es & Hlen); [lia|].
  rewrite generate_channel_data_cases, Es. rewrite Hn in Hlen.
  destruct sig as [|x xs]; [|discriminate Hlen].
  exists rng'. reflexivity.
Qed.

Lemma generate_montage_ok (sr : Q) (channels : list string) (duration : Q)
      (state : string) (rng : RS) :
  canonical_state state -> (1 <= sample_count sr duration)%Z ->
  exists data rng',
    generate_montage sr channels duration state rng = (Ok data, rng') /\
    List.length data = List.length channels.
Proof.
  intros Hstate Hn. unfold generate_montage.
  destruct (for_each_ok (fun _ => True)
              (fun channel => generate_channel_data sr channel duration state (1#10))
              channels) with (s := rng) as (data & rng' & E & Hlen & _).
  - intros c s. destruct (generate_channel_data_ok sr c duration state (1#10) s Hstate Hn)
      as (cd & s' & Ecd).
    exists cd, s'. split; [exact Ecd|exact I].
  - exists data, rng'. split; assumption.
Qed.

Lemma generate_montage_names (sr : Q) (channels : list string) (duration : Q)
      (state : string) (rng : RS) (data : list ChannelData) (rng' : RS) :
  generate_montage sr channels duration state rng = (Ok data, rng') ->
  map channel_name data = channels /\
  Forall (fun cd => Z.of_nat (n_samples cd) = sample_count sr duration /\
                    List.length (signal cd) = n_samples cd /\
                    cd_state cd = state) data.
Proof.
  intro E. unfold generate_montage in E.
  apply (for_each_related
           (fun c cd => channel_name cd = c /\
                        Z.of_nat (n_samples cd) = sample_count sr duration /\
                        List.length (signal cd) = n_samples cd /\
                        cd_state cd = state)) in E.
  - induction E as [|c cd cs cds (Hname & Hrest) _ [IHnames IHall]];
      [split; constructor|].
    cbn [map]. rewrite Hname, IHnames. split; [reflexivity|].
    constructor; assumption.
  - intros c s cd s' Ecd.
    pose proof (generate_channel_data_fields _ _ _ _ _ _ _ _ Ecd)
      as (x & xs & Es & Hname & Hst & _ & _ & Hsig & Hns & _).
    pose proof (generate_mental_state_length _ _ _ _ _ _ Es) as (_ & Hn & Hlen).
    repeat split; try assumption; [|congruence].
    rewrite Hns, Hlen. lia.
Qed.

(** X9. A montage that is returned has one channel per requested name,
    in the order given, each with int(duration * sampling_rate) samples
    and the requested state.  For a canonical state and a duration of at
    least one sample the montage is always produced; with a non-empty
    channel list and a duration shorter than one sample (duration 0
    included) the first channel fails in [np.max] on its empty signal; an
    empty channel list returns an empty montage without looking at the
    state. *)
Theorem X9_montage_channels :
  forall (sr : Q) (channels : list string) (duration : Q) (state : string) (rng : RS),
    (forall data rng',
        generate_montage sr channels duration state rng = (Ok data, rng') ->
        map channel_name data = channels /\
        Forall (fun cd => Z.of_nat (n_samples cd) = sample_count sr duration /\
                          List.length (signal cd) = n_samples cd /\
                          cd_state cd = state) data) /\
    (canonical_state state -> (1 <= sample_count sr duration)%Z ->
     exists data rng', generate_montage sr channels duration state rng = (Ok data, rng')) /\
    (canonical_state state -> sample_count sr duration = 0%Z -> channels <> [] ->
     exists rng',
       generate_montage sr channels duration state rng = (Raise EmptyReduction, rng')) /\
    (channels = [] -> generate_montage sr channels duration state rng = (Ok [], rng)).
Proof.
  intros sr channels duration state rng. split; [|split; [|split]].
  - apply generate_montage_names.
  - intros Hstate Hn.
    destruct (generate_montage_ok sr channels duration state rng Hstate Hn)
      as (data & rng' & E & _).
    exists data, rng'. exact E.
  - intros Hstate Hn Hne. destruct channels as [|c cs]; [congruence|].
    destruct (generate_channel_data_empty sr c duration state (1#10) rng Hstate Hn)
      as (rng' & E).
    exists rng'. unfold generate_montage. cbn [for_each]. unfold bind at 1.
    rewrite E. reflexivity.
  - intros ->. reflexivity.
Qed.

End Montages.

Lemma X9_montage_channels_witness :
  canonical_state "focused" /\
  (exists data rng',
      generate_montage 250 ["Fp1"; "C3"]%string 1 "focused" (rs_seed 42 : Z)
      = (Ok data, rng') /\
      map channel_name data = ["Fp1"; "C3"]%string /\
      Forall (fun cd => Z.of_nat (n_samples cd) = 250%Z /\
                        List.length (signal cd) = n_samples cd /\
                        cd_state cd = "focused"%string) data) /\
  (exists rng',
      generate_montage 250 ["Fp1"; "C3"]%string 0 "focused" (rs_seed 42 : Z)
      = (Raise EmptyReduction, rng')) /\
  generate_montage 250 [] 1 "zen" (rs_seed 42 : Z) = (Ok [], rs_seed 42).
Proof.
  assert (Hstate : canonical_state "focused") by (right; left; reflexivity).
  pose proof (X9_montage_channels 250 ["Fp1"; "C3"]%string 1 "focused" (rs_seed 42 : Z))
    as (Hpost & Htotal & _).
  pose proof (X9_montage_channels 250 ["Fp1"; "C3"]%string 0 "focused" (rs_seed 42 : Z))
    as (_ & _ & Hshort & _).
  pose proof (X9_montage_channels 250 [] 1 "zen" (rs_seed 42 : Z))
    as (_ & _ & _ & Hnone).
  split; [exact Hstate|]. split; [|split].
  - destruct (Htotal Hstate) as (data & rng' & E); [discriminate|].
    exists data, rng'. split; [exact E|]. exact (Hpost data rng' E).
  - apply (Hshort Hstate); [reflexivity|discriminate].
  - apply Hnone. reflexivity.
Defined.

(** ** The brain model: what a call leaves behind *)

Lemma outcome_state_canonical (roll wisdom difficulty : Z) :
  canonical_state (o_state (intuition_outcome roll wisdom difficulty)).
Proof.
  pose proof (outcome_selection roll wisdom difficulty) as Hsel. cbv zeta in Hsel.
  unfold canonical_state.
  destruct (difficulty <=? _)%Z; [destruct (_ <=? _)%Z|destruct (_ <? _)%Z];
    injection Hsel as -> _; auto.
Qed.

Section BrainCalls.
Context {RS : Type} `{RandomState RS} `{FloatMath}.

(** The configuration of a model: everything but its generators, its
    current state and its history. *)
Lemma simulate_activity_keeps_configuration (duration : Q) (state : string)
      (range : Q * Q) (self : BrainModel RS) :
  let self' := snd (simulate_activity duration state range self) in
  n_neurons self' = n_neurons self /\
  sampling_rate self' = sampling_rate self /\
  seed self' = seed self /\
  eeg_channels self' = eeg_channels self /\
  eeg_sampling_rate (eeg_gen self') = eeg_sampling_rate (eeg_gen self).
Proof.
  cbv zeta. rewrite simulate_activity_unfold. cbv zeta.
  destruct (generate_population _ _ _ _ _) as [[spike_data|e|] rng1];
    [destruct (generate_montage _ _ _ _ _) as [[eeg_data|e|] rng2]| |];
    repeat split.
Qed.

Lemma simulate_activity_history (duration : Q) (state : string)
      (range : Q * Q) (self : BrainModel RS) :
  match simulate_activity duration state range self with
  | (Ok activity, self') =>
      activity_history self'
      = activity_history self
        ++ [history_entry_of duration state (a_spike_trains activity)]
  | (_, self') => activity_history self' = activity_history self
  end.
Proof.
  rewrite simulate_activity_unfold. cbv zeta.
  destruct (generate_population _ _ _ _ _) as [[spike_data|e|] rng1];
    try reflexivity.
  destruct (generate_montage _ _ _ _ _) as [[eeg_data|e|] rng2]; reflexivity.
Qed.

(** A simulation that can be carried out: the steps all return. *)
Lemma simulate_activity_ok (duration : Q) (state : string) (range : Q * Q)
      (self : BrainModel RS) :
  0 <= duration ->
  eeg_channels self = [] \/
  (canonical_state state /\
   (1 <= sample_count (eeg_sampling_rate (eeg_gen self)) duration)%Z) ->
  exists spike_data rng1 eeg_data rng2,
    generate_population (n_neurons self) range duration "poisson" (spike_gen self)
    = (Ok spike_data, rng1) /\
    List.length spike_data = Z.to_nat (n_neurons self) /\
    generate_montage (eeg_sampling_rate (eeg_gen self)) (eeg_channels self)
                     duration state (eeg_rng (eeg_gen self))
    = (Ok eeg_data, rng2) /\
    map channel_name eeg_data = eeg_channels self /\
    simulate_activity duration state range self
    = (Ok (activity_of self duration state spike_data eeg_data),
       history_append (history_entry_of duration state spike_data)
         (set_eeg_rng rng2 (set_spike_gen rng1 (set_current_state state self)))).
Proof.
  intros Hdur Hcase.
  destruct (generate_population_poisson (n_neurons self) range duration
                                        (spike_gen self) Hdur)
    as (spike_data & rng1 & Epop & Hlen & _).
  assert (Hmontage : exists eeg_data rng2,
             generate_montage (eeg_sampling_rate (eeg_gen self)) (eeg_channels self)
                              duration state (eeg_rng (eeg_gen self))
             = (Ok eeg_data, rng2)).
  { destruct Hcase as [Hnone|[Hstate Hn]].
    - rewrite Hnone. eexists; eexists; reflexivity.
    - destruct (generate_montage_ok _ (eeg_channels self) duration state
                                    (eeg_rng (eeg_gen self)) Hstate Hn)
        as (eeg_data & rng2 & E & _).
      exists eeg_data, rng2. exact E. }
  destruct Hmontage as (eeg_data & rng2 & Emon).
  exists spike_data, rng1, eeg_data, rng2.
  split; [exact Epop|]. split; [exact Hlen|]. split; [exact Emon|].
  split; [apply (generate_montage_names _ _ _ _ _ _ _ Emon)|].
  rewrite simulate_activity_unfold. cbv zeta. rewrite Epop, Emon. reflexivity.
Qed.

(** X10. For a duration >= 0 of at least one EEG sample and a canonical
    state (or any state when the model has no channels),
    [simulate_activity] returns an activity with the requested state and
    duration, one spike train per neuron and one channel per configured
    name in order; it appends exactly one entry to the history, holding
    the duration, the state and the total spike count, and leaves
    [current_state] at the requested state. *)
Theorem X10_simulate_activity_records :
  forall (self : BrainModel RS) (duration : Q) (state : string) (range : Q * Q),
    0 <= duration ->
    eeg_channels self = [] \/
    (canonical_state state /\
     (1 <= sample_count (eeg_sampling_rate (eeg_gen self)) duration)%Z) ->
    exists activity self',
      simulate_activity duration state range self = (Ok activity, self') /\
      a_state activity = state /\ a_duration activity = duration /\
      a_n_neurons activity = n_neurons self /\
      List.length (a_spike_trains activity) = Z.to_nat (n_neurons self) /\
      map channel_name (a_eeg_signals activity) = eeg_channels self /\
      a_n_channels activity = List.length (a_eeg_signals activity) /\
      intuition_data activity = None /\
      activity_history self'
      = activity_history self
        ++ [ {| h_duration := duration; h_state := state;
                h_spike_count :=
                  fold_left Nat.add (map spike_count (a_spike_trains activity)) 0%nat |} ] /\
      current_state self' = state.
Proof.
  intros self duration state range Hdur Hcase.
  destruct (simulate_activity_ok duration state range self Hdur Hcase)
    as (spike_data & rng1 & eeg_data & rng2 & _ & Hlen & _ & Hnames & E).
  eexists; eexists. split; [exact E|].
  cbn [activity_of a_state a_duration a_n_neurons a_spike_trains a_eeg_signals
       a_n_channels intuition_data].
  repeat (split; [reflexivity || assumption|]).
  split; [rewrite <- Hnames; rewrite length_map; reflexivity|].
  repeat split.
Qed.

(** X11. With at least one EEG channel and a duration >= 0 shorter than
    one EEG sample (duration 0 included), [simulate_activity] in any
    canonical state, and [generate_intuition_signal] for any difficulty
    and wisdom, fail with the ValueError of [np.max] on an empty signal;
    the history is left as it was, although the spike trains were
    generated and, for the intuition signal, the d20 was rolled. *)
Theorem X11_short_duration_fails :
  forall (self : BrainModel RS) (duration : Q),
    0 <= duration ->
    eeg_channels self <> [] ->
    sample_count (eeg_sampling_rate (eeg_gen self)) duration = 0%Z ->
    (forall (state : string) (range : Q * Q),
        canonical_state state ->
        exists self',
          simulate_activity duration state range self = (Raise EmptyReduction, self') /\
          activity_history self' = activity_history self /\
          current_state self' = state) /\
    (forall (g : RS) (difficulty wisdom : Z),
        exists self',
          generate_intuition_signal difficulty wisdom duration
                                    {| np_random := g; brain := self |}
          = (Raise EmptyReduction,
             {| np_random := snd (randint 1 21 g); brain := self' |}) /\
          activity_history self' = activity_history self).
Proof.
  intros self duration Hdur Hne Hn.
  assert (Hsim : forall state range, canonical_state state ->
             exists self',
               simulate_activity duration state range self = (Raise EmptyReduction, self') /\
               activity_history self' = activity_history self /\
               current_state self' = state).
  { intros state range Hstate.
    destruct (generate_population_poisson (n_neurons self) range duration
                                          (spike_gen self) Hdur)
      as (spike_data & rng1 & Epop & _).
    destruct (eeg_channels self) as [|c cs] eqn:Ech; [congruence|].
    destruct (generate_channel_data_empty (eeg_sampling_rate (eeg_gen self)) c duration
                                          state (1#10) (eeg_rng (eeg_gen self)) Hstate Hn)
      as (rng2 & Ecd).
    eexists. rewrite simulate_activity_unfold. cbv zeta. rewrite Epop, Ech.
    unfold generate_montage. cbn [for_each]. unfold bind at 1. rewrite Ecd.
    split; [reflexivity|]. split; reflexivity. }
  split; [exact Hsim|].
  intros g difficulty wisdom. rewrite generate_intuition_signal_unfold.
  cbn [np_random brain]. destruct (randint 1 21 g) as [roll g'] eqn:Eroll. cbv zeta.
  destruct (Hsim (o_state (intuition_outcome roll wisdom difficulty))
                 (o_spike_rate_range (intuition_outcome roll wisdom difficulty))
                 (outcome_state_canonical roll wisdom difficulty))
    as (self' & E & Hhist & _).
  exists self'. rewrite E. split; [reflexivity|exact Hhist].
Qed.

(** X12. For a duration >= 0 of at least one EEG sample (or a model
    without channels), [generate_intuition_signal] always returns: the
    activity carries the d20 drawn from the process-wide generator, its
    state is one of the four canonical states, success holds exactly for
    the states focused and active, the total score is the roll plus the
    modifier, and the history grows by one entry with that state. *)
Theorem X12_intuition_signal_returns :
  forall (p : Process RS) (difficulty wisdom : Z) (duration : Q),
    0 <= duration ->
    eeg_channels (brain p) = [] \/
    (1 <= sample_count (eeg_sampling_rate (eeg_gen (brain p))) duration)%Z ->
    exists activity d p',
      generate_intuition_signal difficulty wisdom duration p = (Ok activity, p') /\
      intuition_data activity = Some d /\
      d20_roll d = fst (randint 1 21 (np_random p)) /\
      np_random p' = snd (randint 1 21 (np_random p)) /\
      total_score d = (d20_roll d + wisdom_modifier d)%Z /\
      difficulty_class d = difficulty /\ character_wisdom d = wisdom /\
      canonical_state (a_state activity) /\
      (success d = true <->
       a_state activity = "focused"%string \/ a_state activity = "active"%string) /\
      exists entry,
        activity_history (brain p') = activity_history (brain p) ++ [entry] /\
        h_state entry = a_state activity /\ h_duration entry = duration /\
        current_state (brain p') = a_state activity.
Proof.
  intros p difficulty wisdom duration Hdur Hcase.
  rewrite generate_intuition_signal_unfold.
  destruct (randint 1 21 (np_random p)) as [roll g]. cbv zeta. cbn [fst snd].
  set (o := intuition_outcome roll wisdom difficulty).
  pose proof (outcome_state_canonical roll wisdom difficulty) as Hcanon. fold o in Hcanon.
  pose proof (outcome_fields roll wisdom difficulty) as (Hmod & Hscore & Hsucc).
  pose proof (outcome_selection roll wisdom difficulty) as Hsel.
  cbv zeta in Hsel. fold o in Hmod, Hscore, Hsucc, Hsel.
  assert (Hcase' : eeg_channels (brain p) = [] \/
                   (canonical_state (o_state o) /\
                    (1 <= sample_count (eeg_sampling_rate (eeg_gen (brain p))) duration)%Z)).
  { destruct Hcase as [Hnone|Hn]; [left; exact Hnone|right; split; assumption]. }
  destruct (simulate_activity_ok duration (o_state o) (o_spike_rate_range o) (brain p)
                                 Hdur Hcase')
    as (spike_data & rng1 & eeg_data & rng2 & _ & _ & _ & _ & E).
  rewrite E. eexists; eexists; eexists. split; [reflexivity|].
  cbn [with_intuition_data intuition_data d20_roll total_score wisdom_modifier
       difficulty_class character_wisdom success a_state activity_of np_random brain].
  split; [reflexivity|]. split; [reflexivity|]. split; [reflexivity|].
  split; [rewrite Hscore, Hmod; reflexivity|].
  split; [reflexivity|]. split; [reflexivity|]. split; [exact Hcanon|].
  split.
  - rewrite Hsucc. revert Hsel.
    destruct (difficulty <=? _)%Z; [destruct (_ <=? _)%Z|destruct (_ <? _)%Z];
      intro Hsel; injection Hsel as -> _;
      (split;
       [intro Hx; first [discriminate Hx|auto]
       |intros [E0|E0]; first [discriminate E0|reflexivity]]).
  - eexists. split; [reflexivity|]. repeat split.
Qed.

(** X13. Whatever its arguments and however it ends, a call of
    [simulate_activity] or [generate_intuition_signal] never rewrites the
    history: the old history is kept in order and at most one entry is
    appended (exactly one when the call returns an activity, none
    otherwise); and the configuration of the model (number of neurons,
    channel list, sampling rate, seed) is never changed. *)
Theorem X13_history_append_only :
  forall (self : BrainModel RS) (duration : Q),
    (forall (state : string) (range : Q * Q),
        let (r, self') := simulate_activity duration state range self in
        (match r with
         | Ok activity =>
             exists entry, activity_history self' = activity_history self ++ [entry]
         | _ => activity_history self' = activity_history self
         end) /\
        n_neurons self' = n_neurons self /\ eeg_channels self' = eeg_channels self /\
        sampling_rate self' = sampling_rate self /\ seed self' = seed self) /\
    (forall (g : RS) (difficulty wisdom : Z),
        let (r, p') := generate_intuition_signal difficulty wisdom duration
                                                 {| np_random := g; brain := self |} in
        (match r with
         | Ok activity =>
             exists entry,
               activity_history (brain p') = activity_history self ++ [entry]
         | _ => activity_history (brain p') = activity_history self
         end) /\
        n_neurons (brain p') = n_neurons self /\
        eeg_channels (brain p') = eeg_channels self /\
        sampling_rate (brain p') = sampling_rate self /\
        seed (brain p') = seed self).
Proof.
  intros self duration.
  assert (Hsim : forall state range,
             let (r, self') := simulate_activity duration state range self in
             (match r with
              | Ok activity =>
                  exists entry, activity_history self' = activity_history self ++ [entry]
              | _ => activity_history self' = activity_history self
              end) /\
             n_neurons self' = n_neurons self /\ eeg_channels self' = eeg_channels self /\
             sampling_rate self' = sampling_rate self /\ seed self' = seed self).
  { intros state range.
    pose proof (simulate_activity_history duration state range self) as Hhist.
    pose proof (simulate_activity_keeps_configuration duration state range self) as Hconf.
    cbv zeta in Hconf.
    destruct (simulate_activity duration state range self) as [r self'].
    cbn [snd] in Hconf. destruct Hconf as (H1 & H2 & H3 & H4 & _).
    split; [|repeat split; assumption].
    destruct r as [activity|e|]; [eexists; exact Hhist|exact Hhist|exact Hhist]. }
  split; [exact Hsim|].
  intros g difficulty wisdom. rewrite generate_intuition_signal_unfold.
  cbn [np_random brain]. destruct (randint 1 21 g) as [roll g']. cbv zeta.
  specialize (Hsim (o_state (intuition_outcome roll wisdom difficulty))
                   (o_spike_rate_range (intuition_outcome roll wisdom difficulty))).
  destruct (simulate_activity duration _ _ self) as [[activity|e|] self'];
    cbn [brain]; exact Hsim.
Qed.

End BrainCalls.

Lemma X10_simulate_activity_records_witness :
  0 <= (4#1000) /\ canonical_state "relaxed" /\
  (1 <= sample_count (eeg_sampling_rate (eeg_gen brain_one_channel)) (4#1000))%Z /\
  exists activity self',
    simulate_activity (4#1000) "relaxed" (10, 30) brain_one_channel
    = (Ok activity, self') /\
    map channel_name (a_eeg_signals activity) = ["Fp1"%string] /\
    List.length (activity_history self') = 1%nat /\
    current_state self' = "relaxed"%string.
Proof.
  assert (Hdur : 0 <= (4#1000)) by discriminate.
  assert (Hstate : canonical_state "relaxed") by (left; reflexivity).
  assert (Hn : (1 <= sample_count (eeg_sampling_rate (eeg_gen brain_one_channel))
                                  (4#1000))%Z) by discriminate.
  split; [exact Hdur|]. split; [exact Hstate|]. split; [exact Hn|].
  destruct (X10_simulate_activity_records brain_one_channel (4#1000) "relaxed" (10, 30)
              Hdur (or_intror (conj Hstate Hn)))
    as (activity & self' & E & _ & _ & _ & _ & Hnames & _ & _ & Hhist & Hcur).
  exists activity, self'. split; [exact E|]. split; [exact Hnames|].
  split; [rewrite Hhist; reflexivity|exact Hcur].
Defined.

Lemma X11_short_duration_fails_witness :
  0 <= 0 /\ eeg_channels brain_one_channel <> [] /\
  sample_count (eeg_sampling_rate (eeg_gen brain_one_channel)) 0 = 0%Z /\
  canonical_state "active" /\
  (exists self',
      simulate_activity 0 "active" (5, 50) brain_one_channel
      = (Raise EmptyReduction, self') /\
      activity_history self' = [] /\ current_state self' = "active"%string) /\
  (exists self',
      generate_intuition_signal 10 10 0 {| np_random := 7%Z; brain := brain_one_channel |}
      = (Raise EmptyReduction,
         {| np_random := snd (randint 1 21 7%Z); brain := self' |}) /\
      activity_history self' = []).
Proof.
  assert (Hdur : 0 <= 0) by discriminate.
  assert (Hch : eeg_channels brain_one_channel <> []) by discriminate.
  assert (Hn : sample_count (eeg_sampling_rate (eeg_gen brain_one_channel)) 0 = 0%Z)
    by reflexivity.
  assert (Hstate : canonical_state "active") by (right; right; right; reflexivity).
  pose proof (X11_short_duration_fails brain_one_channel 0 Hdur Hch Hn) as [Hsim Hsig].
  split; [exact Hdur|]. split; [exact Hch|]. split; [exact Hn|]. split; [exact Hstate|].
  split; [exact (Hsim "active"%string (5, 50) Hstate)|exact (Hsig 7%Z 10%Z 10%Z)].
Defined.

Lemma X12_intuition_signal_returns_witness :
  0 <= (4#1000) /\
  (1 <= sample_count (eeg_sampling_rate (eeg_gen brain_one_channel)) (4#1000))%Z /\
  exists activity d p',
    generate_intuition_signal 10 10 (4#1000)
                              {| np_random := 7%Z; brain := brain_one_channel |}
    = (Ok activity, p') /\
    intuition_data activity = Some d /\
    d20_roll d = 12%Z /\
    canonical_state (a_state activity) /\
    List.length (activity_history (brain p')) = 1%nat.
Proof.
  assert (Hdur : 0 <= (4#1000)) by discriminate.
  assert (Hn : (1 <= sample_count (eeg_sampling_rate (eeg_gen brain_one_channel))
                                  (4#1000))%Z) by discriminate.
  split; [exact Hdur|]. split; [exact Hn|].
  destruct (X12_intuition_signal_returns
              {| np_random := 7%Z; brain := brain_one_channel |} 10 10 (4#1000)
              Hdur (or_intror Hn))
    as (activity & d & p' & E & Hd & Hroll & _ & _ & _ & _ & Hcanon & _
        & entry & Hhist & _).
  exists activity, d, p'. split; [exact E|]. split; [exact Hd|].
  split; [exact Hroll|]. split; [exact Hcanon|].
  rewrite Hhist. reflexivity.
Defined.

(** ** Monotonicity of the outcome *)

(** The outcome as a function of the margin score - difficulty. *)
Lemma outcome_by_margin (roll wisdom difficulty : Z) :
  let o := intuition_outcome roll wisdom difficulty in
  let margin := (roll + (wisdom - 10) / 2 - difficulty)%Z in
  (o_state o, o_spike_rate_range o, o_success o) =
  if (margin <? -5)%Z then ("drowsy"%string, (5, 20), false)
  else if (margin <? 0)%Z then ("relaxed"%string, (10, 30), false)
  else if (margin <? 5)%Z then ("active"%string, (20, 45), true)
  else ("focused"%string, (30, 60), true).
Proof.
  cbv zeta.
  pose proof (outcome_fields roll wisdom difficulty) as (_ & _ & Hs).
  pose proof (outcome_selection roll wisdom difficulty) as Hsel.
  cbv zeta in Hs, Hsel. rewrite Hs.
  assert (Hpair : forall (a b : string * (Q * Q)) (c : bool), a = b -> (a, c) = (b, c))
    by (intros; subst; reflexivity).
  replace (o_state (intuition_outcome roll wisdom difficulty),
           o_spike_rate_range (intuition_outcome roll wisdom difficulty),
           (difficulty <=? roll + (wisdom - 10) / 2)%Z)
    with ((o_state (intuition_outcome roll wisdom difficulty),
           o_spike_rate_range (intuition_outcome roll wisdom difficulty)),
          (difficulty <=? roll + (wisdom - 10) / 2)%Z) by reflexivity.
  rewrite Hsel. clear Hsel Hs Hpair.
  set (score := (roll + (wisdom - 10) / 2)%Z).
  destruct (Z.leb_spec difficulty score);
    destruct (Z.leb_spec (difficulty + 5) score);
    destruct (Z.ltb_spec score (difficulty - 5));
    destruct (Z.ltb_spec (score - difficulty) (-5));
    destruct (Z.ltb_spec (score - difficulty) 0);
    destruct (Z.ltb_spec (score - difficulty) 5);
    try reflexivity; exfalso; lia.
Qed.

(** X14. The outcome never gets worse when the roll or the wisdom grows
    or the difficulty falls: the selected state does not go down in the
    order drowsy, relaxed, active, focused, a success stays a success, and
    both ends of the spike-rate envelope do not decrease. *)
Theorem X14_outcome_monotone :
  forall (roll1 roll2 wisdom1 wisdom2 difficulty1 difficulty2 : Z),
    (roll1 <= roll2)%Z -> (wisdom1 <= wisdom2)%Z -> (difficulty2 <= difficulty1)%Z ->
    let o1 := intuition_outcome roll1 wisdom1 difficulty1 in
    let o2 := intuition_outcome roll2 wisdom2 difficulty2 in
    (state_rank (o_state o1) <= state_rank (o_state o2))%Z /\
    (0 <= state_rank (o_state o1))%Z /\
    (o_success o1 = true -> o_success o2 = true) /\
    fst (o_spike_rate_range o1) <= fst (o_spike_rate_range o2) /\
    snd (o_spike_rate_range o1) <= snd (o_spike_rate_range o2).
Proof.
  intros roll1 roll2 wisdom1 wisdom2 difficulty1 difficulty2 Hroll Hwis Hdiff o1 o2.
  assert (Hmod : ((wisdom1 - 10) / 2 <= (wisdom2 - 10) / 2)%Z)
    by (apply Z.div_le_mono; lia).
  pose proof (outcome_by_margin roll1 wisdom1 difficulty1) as H1.
  pose proof (outcome_by_margin roll2 wisdom2 difficulty2) as H2.
  cbv zeta in H1, H2. fold o1 in H1. fold o2 in H2.
  set (m1 := (roll1 + (wisdom1 - 10) / 2 - difficulty1)%Z) in *.
  set (m2 := (roll2 + (wisdom2 - 10) / 2 - difficulty2)%Z) in *.
  assert (Hm : (m1 <= m2)%Z) by (unfold m1, m2; lia).
  destruct (Z.ltb_spec m1 (-5)); [|destruct (Z.ltb_spec m1 0); [|destruct (Z.ltb_spec m1 5)]];
    injection H1 as -> -> ->;
    (destruct (Z.ltb_spec m2 (-5));
     [|destruct (Z.ltb_spec m2 0); [|destruct (Z.ltb_spec m2 5)]]);
    injection H2 as -> -> ->;
    try (exfalso; lia);
    (split; [cbn; lia|]); (split; [cbn; lia|]);
    (split; [intro Hx; first [reflexivity|discriminate Hx]|]);
    cbn [fst snd]; split; discriminate.
Qed.

Lemma X14_outcome_monotone_witness :
  (3 <= 17)%Z /\ (10 <= 18)%Z /\ (10 <= 15)%Z /\
  (state_rank (o_state (intuition_outcome 3 10 15))
   <= state_rank (o_state (intuition_outcome 17 18 10)))%Z.
Proof.
  assert (Hroll : (3 <= 17)%Z) by lia.
  assert (Hwis : (10 <= 18)%Z) by lia.
  assert (Hdiff : (10 <= 15)%Z) by lia.
  split; [exact Hroll|]. split; [exact Hwis|]. split; [exact Hdiff|].
  exact (proj1 (X14_outcome_monotone 3 17 10 18 15 10 Hroll Hwis Hdiff)).
Defined.

(** ** The per-state breakdown adds up *)

Lemma dict_get_none_keys {V} (k : string) (d : list (string * V)) :
  dict_get k d = None <-> ~ In k (map fst d).
Proof.
  induction d as [|[k' v] d IH]; cbn [dict_get map fst In]; [tauto|].
  destruct (String.eqb_spec k k') as [->|Hne].
  - split; [discriminate|]. intro Hn. exfalso. apply Hn. left. reflexivity.
  - rewrite IH. split; [intros Hn [E|Hin]; [congruence|tauto]|tauto].
Qed.

Lemma dict_set_keys {V} (k : string) (v : V) (d : list (string * V)) :
  map fst (dict_set k v d)
  = if dict_has k d then map fst d else map fst d ++ [k].
Proof.
  unfold dict_has. induction d as [|[k' v'] d IH]; cbn [dict_set dict_get map fst app];
    [reflexivity|].
  destruct (String.eqb k k'); [reflexivity|].
  cbn [map fst]. rewrite IH. destruct (dict_get k d); reflexivity.
Qed.

Lemma breakdown_count_set (k : string) (v : StateStat) (d : list (string * StateStat)) :
  breakdown_count (dict_set k v d)
  = (breakdown_count d
     - match dict_get k d with Some e => ss_count e | None => 0 end
     + ss_count v)%Z.
Proof.
  induction d as [|[k' v'] d IH]; cbn [dict_set dict_get breakdown_count fold_right snd].
  - lia.
  - destruct (String.eqb k k'); cbn [breakdown_count fold_right snd].
    + lia.
    + fold (breakdown_count (dict_set k v d)). fold (breakdown_count d). rewrite IH. lia.
Qed.

Lemma dict_set_twice {V} (k : string) (v1 v2 : V) (d : list (string * V)) :
  dict_set k v2 (dict_set k v1 d) = dict_set k v2 d.
Proof.
  induction d as [|[k' v'] d IH]; cbn [dict_set].
  - rewrite String.eqb_refl. reflexivity.
  - destruct (String.eqb k k') eqn:E; cbn [dict_set]; rewrite E; [reflexivity|].
    rewrite IH. reflexivity.
Qed.

Lemma dict_set_values {V} (P : V -> Prop) (k : string) (v : V) (d : list (string * V)) :
  Forall (fun kv => P (snd kv)) d -> P v ->
  Forall (fun kv => P (snd kv)) (dict_set k v d).
Proof.
  intros Hd Hv. induction Hd as [|[k' v'] d Hkv Hd IH]; cbn [dict_set].
  - repeat constructor. exact Hv.
  - destruct (String.eqb k k'); constructor; assumption.
Qed.

Lemma dict_get_value {V} (P : V -> Prop) (k : string) (d : list (string * V)) (v : V) :
  Forall (fun kv => P (snd kv)) d -> dict_get k d = Some v -> P v.
Proof.
  induction 1 as [|[k' v'] d Hkv Hd IH]; cbn [dict_get]; [discriminate|].
  destruct (String.eqb k k'); [|exact IH].
  intro E. injection E as <-. exact Hkv.
Qed.

Lemma count_state_adds (states : list (string * StateStat)) (h : HistoryEntry) :
  breakdown_count (count_state states h) = (breakdown_count states + 1)%Z.
Proof.
  unfold count_state, dict_has.
  destruct (dict_get (h_state h) states) as [e|] eqn:E.
  - rewrite E. rewrite breakdown_count_set, E.
    cbn [ss_count]. lia.
  - rewrite dict_get_set_same.
    rewrite !breakdown_count_set, dict_get_set_same, E.
    cbn [ss_count]. lia.
Qed.

Lemma count_state_positive (states : list (string * StateStat)) (h : HistoryEntry) :
  Forall (fun kv => (1 <= ss_count (snd kv))%Z) states ->
  Forall (fun kv => (1 <= ss_count (snd kv))%Z) (count_state states h).
Proof.
  intro Hpos. unfold count_state, dict_has.
  destruct (dict_get (h_state h) states) as [e|] eqn:E.
  - rewrite E. apply (dict_set_values (fun e => (1 <= ss_count e)%Z)); [exact Hpos|].
    pose proof (dict_get_value (fun e => (1 <= ss_count e)%Z) _ _ _ Hpos E) as He.
    cbv beta in He. cbn [ss_count]. lia.
  - rewrite dict_get_set_same, dict_set_twice.
    apply (dict_set_values (fun e => (1 <= ss_count e)%Z)); [exact Hpos|].
    cbn [ss_count]. lia.
Qed.

Lemma count_state_keys (states : list (string * StateStat)) (h : HistoryEntry) :
  map fst (count_state states h)
  = if dict_has (h_state h) states then map fst states
    else map fst states ++ [h_state h].
Proof.
  unfold count_state, dict_has.
  destruct (dict_get (h_state h) states) as [e|] eqn:E.
  - rewrite E. rewrite dict_set_keys. unfold dict_has. rewrite E. reflexivity.
  - rewrite dict_get_set_same. rewrite !dict_set_keys. unfold dict_has.
    rewrite dict_get_set_same, E. reflexivity.
Qed.

Lemma fold_count_state_totals (history : list HistoryEntry) :
  forall states,
    breakdown_count (fold_left count_state history states)
    = (breakdown_count states + Z.of_nat (List.length history))%Z.
Proof.
  induction history as [|h rest IH]; intro states; cbn [fold_left List.length].
  - lia.
  - rewrite IH, count_state_adds. lia.
Qed.

Lemma fold_count_state_positive (history : list HistoryEntry) :
  forall states,
    Forall (fun kv => (1 <= ss_count (snd kv))%Z) states ->
    Forall (fun kv => (1 <= ss_count (snd kv))%Z) (fold_left count_state history states).
Proof.
  induction history as [|h rest IH]; intros states Hpos; cbn [fold_left]; [exact Hpos|].
  apply IH. apply count_state_positive. exact Hpos.
Qed.

Lemma fold_count_state_keys (history : list HistoryEntry) :
  forall states,
    NoDup (map fst states) ->
    NoDup (map fst (fold_left count_state history states)) /\
    forall s, In s (map fst (fold_left count_state history states))
              <-> In s (map fst states) \/ In s (map h_state history).
Proof.
  induction history as [|h rest IH]; intros states Hnd; cbn [fold_left map In].
  - split; [exact Hnd|]. intro s. tauto.
  - assert (Hnd1 : NoDup (map fst (count_state states h))).
    { rewrite count_state_keys. unfold dict_has.
      destruct (dict_get (h_state h) states) as [e|] eqn:E; [exact Hnd|].
      apply dict_get_none_keys in E.
      apply NoDup_app; [exact Hnd|repeat constructor; intros []|].
      intros x Hx [<-|[]]. exact (E Hx). }
    destruct (IH _ Hnd1) as [Hnd2 Hin]. split; [exact Hnd2|].
    intro s. rewrite Hin, count_state_keys. unfold dict_has.
    destruct (dict_get (h_state h) states) as [e|] eqn:E.
    + assert (Hk : In (h_state h) (map fst states)).
      { destruct (in_dec string_dec (h_state h) (map fst states)) as [Hi|Hi];
          [exact Hi|]. apply dict_get_none_keys in Hi. congruence. }
      split; [tauto|]. intros [Hs|[<-|Hs]]; tauto.
    + rewrite in_app_iff. cbn [In]. tauto.
Qed.

Section SummaryBreakdown.
Context {RS : Type} `{RandomState RS}.

(** X15. In the summary of a non-empty history the per-state breakdown
    accounts for every simulation: its keys are exactly the states that
    occur in the history, each once, every count is at least 1, and the
    counts add up to total_simulations. *)
Theorem X15_breakdown_adds_up :
  forall self : BrainModel RS,
    activity_history self <> [] ->
    exists states,
      dict_get "states" (get_summary_stats self) = Some (SStates states) /\
      NoDup (map fst states) /\
      (forall s, In s (map fst states) <-> In s (map h_state (activity_history self))) /\
      Forall (fun kv => (1 <= ss_count (snd kv))%Z) states /\
      dict_get "total_simulations" (get_summary_stats self)
      = Some (SInt (breakdown_count states)).
Proof.
  intros self Hne. unfold get_summary_stats.
  destruct (activity_history self) as [|h rest] eqn:Eh; [congruence|].
  set (history := h :: rest).
  exists (fold_left count_state history []).
  pose proof (fold_count_state_totals history []) as Hc.
  destruct (fold_count_state_keys history [] (NoDup_nil _)) as [Hnd Hin].
  split; [reflexivity|]. split; [exact Hnd|]. split; [|split].
  - intro s. rewrite Hin. cbn [map In]. tauto.
  - apply fold_count_state_positive. constructor.
  - rewrite Hc. reflexivity.
Qed.

End SummaryBreakdown.

Lemma X15_breakdown_adds_up_witness :
  let self :=
    history_append {| h_duration := 1; h_state := "active"; h_spike_count := 4 |}
      (history_append {| h_duration := 2; h_state := "drowsy"; h_spike_count := 1 |}
         (history_append {| h_duration := 3; h_state := "active"; h_spike_count := 6 |}
            (BrainModel_init 100 None 250 42 : BrainModel Z))) in
  activity_history self <> [] /\
  exists states,
    dict_get "states" (get_summary_stats self) = Some (SStates states) /\
    map fst states = ["active"; "drowsy"]%string /\
    breakdown_count states = 3%Z.
Proof.
  cbv zeta.
  match goal with |- activity_history ?m <> [] /\ _ => set (self := m) end.
  assert (Hne : activity_history self <> []) by discriminate.
  split; [exact Hne|].
  destruct (X15_breakdown_adds_up self Hne)
    as (states & Hstates & _ & _ & _ & _).
  exists states. split; [exact Hstates|].
  cbn in Hstates. injection Hstates as <-. split; reflexivity.
Defined.

(** * The API layer *)

(** ** Callbacks *)

Section Callbacks.
Context {RS : Type} `{RandomState RS} `{FloatMath} {W : Type}.

(** The loop of [_trigger_callbacks] is [callbacks_run] on what the
    callbacks can reach; nothing else of the session changes. *)
Lemma run_callbacks_effect {P} (call : Callback RS W -> Hook RS W P) (event : string)
      (cbs : list (Callback RS W)) :
  forall (data : P) (s : Session RS W),
    run_callbacks call event cbs data s
    = (match fst (callbacks_run call event cbs (reach_of data s)) with
       | None => Done (r_data (snd (callbacks_run call event cbs (reach_of data s))))
       | Some e => Failed (NotAnException e)
       end,
       with_reach (snd (callbacks_run call event cbs (reach_of data s))) s).
Proof.
  induction cbs as [|cb cbs IH]; intros data s.
  - cbn. destruct s; reflexivity.
  - cbn [run_callbacks callbacks_run]. unfold api_bind, run_callback.
    cbn [reach_of r_data r_np_random r_world r_stdout].
    destruct (call cb data (ses_np_random s) (ses_world s)) as [[[exit d] g] w].
    destruct exit as [|message|e].
    + rewrite IH. reflexivity.
    + rewrite IH. reflexivity.
    + reflexivity.
Qed.

Lemma trigger_callbacks_effect {P} (call : Callback RS W -> Hook RS W P) (event : string)
      (data : P) (s : Session RS W) :
  trigger_callbacks call event data s
  = (match fst (callbacks_run call event (registered_for event (api s)) (reach_of data s)) with
     | None => Done (r_data (snd (callbacks_run call event (registered_for event (api s))
                                                (reach_of data s))))
     | Some e => Failed (NotAnException e)
     end,
     with_reach (snd (callbacks_run call event (registered_for event (api s))
                                    (reach_of data s))) s).
Proof.
  unfold trigger_callbacks. fold (registered_for event (api s)).
  apply run_callbacks_effect.
Qed.

(** Callbacks in list order: a run over [cbs1 ++ cbs2] is the run over
    [cbs1] followed, unless something escaped, by the run over [cbs2]. *)
Lemma run_callbacks_app {P} (call : Callback RS W -> Hook RS W P) (event : string)
      (cbs1 cbs2 : list (Callback RS W)) :
  forall (data : P) (s : Session RS W),
    run_callbacks call event (cbs1 ++ cbs2) data s
    = (data1 <~ run_callbacks call event cbs1 data ;;
       run_callbacks call event cbs2 data1) s.
Proof.
  induction cbs1 as [|cb cbs1 IH]; intros data s; [reflexivity|].
  cbn [app run_callbacks]. unfold api_bind.
  destruct (run_callback call event cb data s) as [[d|e|] s1]; try reflexivity.
  rewrite IH. reflexivity.
Qed.

(** X16. [register_callback] refuses an event that is not a key of the
    registry with a ValueError and leaves the session as it was; for a
    known event it appends the callback after those already registered
    for that event and touches no other event, so that the next trigger
    of the event runs the earlier callbacks first and the new one last,
    on what they left (and not at all when one of them let something
    other than an Exception escape). *)
Theorem X16_register_callback :
  forall (event : string) (cb : Callback RS W) (s : Session RS W),
    (dict_get event (callbacks (api s)) = None ->
     register_callback event cb s
     = (Failed (CoreError (ValueError ("Unknown event: " ++ event))), s)) /\
    (forall registered,
        dict_get event (callbacks (api s)) = Some registered ->
        exists s',
          register_callback event cb s = (Done tt, s') /\
          registered_for event (api s') = registered ++ [cb] /\
          (forall other, other <> event ->
                         registered_for other (api s') = registered_for other (api s)) /\
          map fst (callbacks (api s')) = map fst (callbacks (api s)) /\
          json_logger (api s') = json_logger (api s) /\
          brain_model (api s') = brain_model (api s) /\
          outside s' = outside s /\
          (forall P (call : Callback RS W -> Hook RS W P) (data : P),
              let (r, s1) := trigger_callbacks call event data s in
              let (r', s1') := trigger_callbacks call event data s' in
              match r with
              | Done data1 =>
                  r' = fst (run_callback call event cb data1 s1) /\
                  outside s1' = outside (snd (run_callback call event cb data1 s1))
              | _ => r' = r /\ outside s1' = outside s1
              end)).
Proof.
  intros event cb s. split.
  - intro Hnone. unfold register_callback. rewrite Hnone. reflexivity.
  - intros registered Hsome. unfold register_callback. rewrite Hsome.
    set (s' := with_api (set_callbacks
                           (dict_set event (registered ++ [cb]) (callbacks (api s)))) s).
    assert (Hreg : registered_for event (api s') = registered ++ [cb]).
    { unfold registered_for, s'. cbn [with_api api set_callbacks callbacks].
      rewrite dict_get_set_same. reflexivity. }
    exists s'. split; [reflexivity|]. split; [exact Hreg|].
    split; [|split; [|split; [|split; [|split]]]].
    + intros other Hne. unfold registered_for, s'.
      cbn [with_api api set_callbacks callbacks].
      rewrite dict_get_set_other by congruence. reflexivity.
    + unfold s'. cbn [with_api api set_callbacks callbacks].
      rewrite dict_set_keys. unfold dict_has. rewrite Hsome. reflexivity.
    + reflexivity.
    + reflexivity.
    + reflexivity.
    + intros P call data.
      assert (Hs : trigger_callbacks call event data s
                   = run_callbacks call event registered data s).
      { unfold trigger_callbacks. rewrite Hsome. reflexivity. }
      assert (Hs' : trigger_callbacks call event data s'
                    = run_callbacks call event (registered ++ [cb]) data s').
      { unfold trigger_callbacks. fold (registered_for event (api s')).
        rewrite Hreg. reflexivity. }
      rewrite Hs, Hs', run_callbacks_app. unfold api_bind.
      rewrite !run_callbacks_effect.
      change (reach_of data s') with (reach_of data s).
      destruct (callbacks_run call event registered (reach_of data s)) as [[e|] o];
        cbn [fst snd]; [split; reflexivity|].
      cbn [run_callbacks]. unfold api_bind, run_callback.
      cbn [with_reach after_callback ses_np_random ses_world ses_stdout].
      destruct (call cb (r_data o) (r_np_random o) (r_world o)) as [[[exit d] g] w].
      destruct exit; split; reflexivity.
Qed.




End Callbacks.

Lemma X16_register_callback_witness :
  let s := fresh_session brain_one_channel true in
  register_callback "on_tuesday" (recording_callback "a") s
  = (Failed (CoreError (ValueError "Unknown event: on_tuesday")), s) /\
  exists s',
    register_callback "post_roll" (recording_callback "a") s = (Done tt, s') /\
    registered_for "post_roll" (api s') = [recording_callback "a"] /\
    registered_for "pre_roll" (api s') = [].
Proof.
  cbv zeta. set (s := fresh_session brain_one_channel true).
  pose proof (X16_register_callback "on_tuesday" (recording_callback "a") s) as [Hbad _].
  pose proof (X16_register_callback "post_roll" (recording_callback "a") s) as [_ Hgood].
  split; [apply Hbad; reflexivity|].
  destruct (Hgood [] eq_refl) as (s' & E & Hreg & Hother & _).
  exists s'. split; [exact E|]. split; [exact Hreg|].
  rewrite (Hother "pre_roll"%string); [reflexivity|discriminate].
Defined.

(** ** One intuition check *)

(** Throughout, a callback is what [Callback] makes of it: code that
    acts on the dict it is handed, on the process-wide generator and on
    the world of its caller, and that ends by returning, by raising an
    Exception or by letting something else escape.  A callback that
    reaches the API object itself, or that keeps the dict to write into
    it after it has returned, is not covered. *)

Section IntuitionCheck.
Context {RS : Type} `{RandomState RS} `{FloatMath} {W : Type}.

(** A check, phase by phase: the pre_roll callbacks, the brain call on
    the generator as they left it, the callbacks of the critical event,
    those of post_roll, the log. *)
Lemma intuition_check_unfold (name : string) (wisdom difficulty : Z)
      (context : option string) (duration : Q) (s : Session RS W) :
  intuition_check name wisdom difficulty context duration s =
  let pre := pre_roll_run name wisdom difficulty context s in
  let s1 := with_reach (snd pre) s in
  match fst pre with
  | Some e => (Failed (NotAnException e), s1)
  | None =>
      let (rb, p) := generate_intuition_signal difficulty wisdom duration (process_of s1) in
      let s2 := after_brain_call s1 p in
      match rb with
      | Raise e => (Failed (CoreError e), s2)
      | Diverge => (Hangs, s2)
      | Ok neural_data =>
          match intuition_data neural_data with
          | None => (Failed (KeyError "intuition_data"), s2)
          | Some d =>
              let crit := critical_run (d20_roll d) (api s)
                            (reach_of (check_result_of name context duration neural_data d)
                                      s2) in
              match fst crit with
              | Some e => (Failed (NotAnException e), with_reach (snd crit) s2)
              | None =>
                  let post := callbacks_run on_result "post_roll"
                                (registered_for "post_roll" (api s)) (snd crit) in
                  let s3 := with_reach (snd post) s2 in
                  match fst post with
                  | Some e => (Failed (NotAnException e), s3)
                  | None => (Done (r_data (snd post)),
                             after_logging s3 (r_data (snd post)))
                  end
              end
          end
      end
  end.
Proof.
  cbv zeta. unfold intuition_check.
  unfold api_bind at 1. rewrite trigger_callbacks_effect.
  fold (pre_data_of name wisdom difficulty context).
  fold (pre_roll_run name wisdom difficulty context s).
  destruct (pre_roll_run name wisdom difficulty context s) as [[e|] o1]; cbn [fst snd];
    [reflexivity|].
  unfold api_bind at 1. unfold call_brain. fold (process_of (with_reach o1 s)).
  destruct (generate_intuition_signal difficulty wisdom duration
                                      (process_of (with_reach o1 s)))
    as [[neural_data|e|] p]; try reflexivity.
  fold (after_brain_call (with_reach o1 s) p).
  set (s2 := after_brain_call (with_reach o1 s) p).
  destruct (intuition_data neural_data) as [d|]; [|reflexivity].
  fold (check_result_of name context duration neural_data d).
  set (result := check_result_of name context duration neural_data d).
  assert (Hcrit :
    (if (d20_roll d =? 20)%Z
     then trigger_callbacks on_result "critical_success" result
     else if (d20_roll d =? 1)%Z
          then trigger_callbacks on_result "critical_failure" result
          else api_ret result) s2
    = (match fst (critical_run (d20_roll d) (api s) (reach_of result s2)) with
       | None => Done (r_data (snd (critical_run (d20_roll d) (api s) (reach_of result s2))))
       | Some e => Failed (NotAnException e)
       end,
       with_reach (snd (critical_run (d20_roll d) (api s) (reach_of result s2))) s2)).
  { unfold critical_run, critical_event.
    destruct (d20_roll d =? 20)%Z;
      [exact (trigger_callbacks_effect on_result "critical_success" result s2)|].
    destruct (d20_roll d =? 1)%Z;
      [exact (trigger_callbacks_effect on_result "critical_failure" result s2)|].
    unfold api_ret. cbn [fst snd]. reflexivity. }
  unfold api_bind at 1. rewrite Hcrit.
  destruct (critical_run (d20_roll d) (api s) (reach_of result s2))
    as [[e|] [d2 g2 w2 out2]]; cbn [fst snd]; [reflexivity|].
  unfold api_bind at 1. rewrite trigger_callbacks_effect. cbn [r_data].
  change (registered_for "post_roll" (api (with_reach (Build_Reach d2 g2 w2 out2) s2)))
    with (registered_for "post_roll" (api s)).
  change (reach_of d2 (with_reach (Build_Reach d2 g2 w2 out2) s2))
    with (Build_Reach d2 g2 w2 out2).
  destruct (callbacks_run on_result "post_roll" (registered_for "post_roll" (api s))
                          (Build_Reach d2 g2 w2 out2))
    as [[e|] o3]; cbn [fst snd]; [reflexivity|].
  unfold api_bind at 1. unfold after_logging, log_result.
  cbn [with_reach after_callback api ses_np_random ses_world ses_stdout ses_clock
       ses_ticks ses_files].
  destruct (enable_logging (api s2)); reflexivity.
Qed.

End IntuitionCheck.

Section CheckOutcome.
Context {RS : Type} `{RandomState RS} `{FloatMath} {W : Type}.

Lemma generate_intuition_signal_data (difficulty wisdom : Z) (duration : Q)
      (p : Process RS) (a : Activity) :
  fst (generate_intuition_signal difficulty wisdom duration p) = Ok a ->
  exists d, intuition_data a = Some d /\
            d20_roll d = fst (randint 1 21 (np_random p)) /\
            difficulty_class d = difficulty /\ character_wisdom d = wisdom.
Proof.
  rewrite generate_intuition_signal_unfold.
  destruct (randint 1 21 (np_random p)) as [roll g]. cbv zeta.
  destruct (simulate_activity duration _ _ (brain p)) as [[a0|e|] b];
    cbn [fst]; intro E; try discriminate E.
  injection E as <-. eexists. split; [reflexivity|]. repeat split.
Qed.



(** X18. The callbacks of a check run in a fixed order, each on what
    the one before it left: first those of pre_roll; then the brain call,
    on the generator as they left it; then, only when the brain call
    returned, those of critical_success when the d20 it drew is 20 or
    those of critical_failure when it is 1 (never both, none otherwise),
    then those of post_roll, on the result dict as the critical ones left
    it; that dict, as the post_roll ones leave it, is what the check
    returns.  A callback that raises an Exception prints one line and the
    next one runs.  A callback that lets anything else escape ends the
    check with that exception: no later callback runs and, when it is a
    pre_roll one, the brain call is not made.  Nothing else touches the
    world of the caller or prints. *)
Theorem X18_callback_order :
  forall (name : string) (wisdom difficulty : Z) (context : option string)
         (duration : Q) (s : Session RS W),
    let pre := pre_roll_run name wisdom difficulty context s in
    let (r, s') := intuition_check name wisdom difficulty context duration s in
    match fst pre with
    | Some e =>
        r = Failed (NotAnException e) /\ outside s' = reached (snd pre) /\
        brain_model (api s') = brain_model (api s)
    | None =>
        let (rb, p) :=
          generate_intuition_signal difficulty wisdom duration
            {| np_random := r_np_random (snd pre); brain := brain_model (api s) |} in
        match rb with
        | Ok neural_data =>
            exists d,
              intuition_data neural_data = Some d /\
              let crit :=
                critical_run (d20_roll d) (api s)
                  {| r_data := check_result_of name context duration neural_data d;
                     r_np_random := np_random p;
                     r_world := r_world (snd pre);
                     r_stdout := r_stdout (snd pre) |} in
              match fst crit with
              | Some e => r = Failed (NotAnException e) /\ outside s' = reached (snd crit)
              | None =>
                  let post := callbacks_run on_result "post_roll"
                                (registered_for "post_roll" (api s)) (snd crit) in
                  outside s' = reached (snd post) /\
                  match fst post with
                  | Some e => r = Failed (NotAnException e)
                  | None => r = Done (r_data (snd post))
                  end
              end
        | Raise e =>
            r = Failed (CoreError e) /\
            outside s' = (np_random p, r_world (snd pre), r_stdout (snd pre))
        | Diverge =>
            r = Hangs /\
            outside s' = (np_random p, r_world (snd pre), r_stdout (snd pre))
        end
    end.
Proof.
  intros name wisdom difficulty context duration s. cbv zeta.
  rewrite intuition_check_unfold. cbv zeta.
  destruct (pre_roll_run name wisdom difficulty context s) as [[e|] o1]; cbn [fst snd];
    [repeat split|].
  change (process_of (with_reach o1 s))
    with {| np_random := r_np_random o1; brain := brain_model (api s) |}.
  pose proof (generate_intuition_signal_data difficulty wisdom duration
                {| np_random := r_np_random o1; brain := brain_model (api s) |}) as Hdata.
  destruct (generate_intuition_signal difficulty wisdom duration _)
    as [[neural_data|e|] p]; cbn [fst] in Hdata; try (split; reflexivity).
  destruct (Hdata neural_data eq_refl) as (d & Hd & _).
  rewrite Hd.
  change (reach_of (check_result_of name context duration neural_data d)
                   (after_brain_call (with_reach o1 s) p))
    with {| r_data := check_result_of name context duration neural_data d;
            r_np_random := np_random p; r_world := r_world o1;
            r_stdout := r_stdout o1 |}.
  destruct (critical_run (d20_roll d) (api s) _) as [[e|] o2] eqn:Ecrit; cbn [fst snd].
  - exists d. split; [reflexivity|]. rewrite Ecrit. split; reflexivity.
  - destruct (callbacks_run on_result "post_roll" _ o2) as [[e|] o3] eqn:Epost;
      cbn [fst snd].
    + exists d. split; [reflexivity|]. rewrite Ecrit. cbn [fst snd]. rewrite Epost.
      split; reflexivity.
    + unfold after_logging.
      destruct (enable_logging _); exists d; (split; [reflexivity|]);
        rewrite Ecrit; cbn [fst snd]; rewrite Epost; split; reflexivity.
Qed.

(** What a check does to the log, the clock, the files and the model. *)
Lemma intuition_check_bookkeeping :
  forall (name : string) (wisdom difficulty : Z) (context : option string)
         (duration : Q) (s : Session RS W),
    let pre := pre_roll_run name wisdom difficulty context s in
    let (r, s') := intuition_check name wisdom difficulty context duration s in
    (match r with
     | Done result =>
         if enable_logging (api s) then
           log_entries (json_logger (api s'))
           = log_entries (json_logger (api s))
             ++ [ {| entry_data := result;
                     entry_timestamp := Some (ses_clock s (ses_ticks s)) |} ] /\
           ses_ticks s' = S (ses_ticks s)
         else
           log_entries (json_logger (api s')) = log_entries (json_logger (api s)) /\
           ses_ticks s' = ses_ticks s
     | _ =>
         log_entries (json_logger (api s')) = log_entries (json_logger (api s)) /\
         ses_ticks s' = ses_ticks s
     end) /\
    ses_files s' = ses_files s /\
    ses_clock s' = ses_clock s /\
    callbacks (api s') = callbacks (api s) /\
    enable_logging (api s') = enable_logging (api s) /\
    brain_model (api s')
    = match fst pre with
      | Some _ => brain_model (api s)
      | None =>
          brain (snd (generate_intuition_signal difficulty wisdom duration
                        {| np_random := r_np_random (snd pre);
                           brain := brain_model (api s) |}))
      end.
Proof.
  intros name wisdom difficulty context duration s. cbv zeta.
  rewrite intuition_check_unfold. cbv zeta.
  destruct (pre_roll_run name wisdom difficulty context s) as [[e|] o1]; cbn [fst snd];
    [repeat split|].
  change (process_of (with_reach o1 s))
    with {| np_random := r_np_random o1; brain := brain_model (api s) |}.
  destruct (generate_intuition_signal difficulty wisdom duration _)
    as [[neural_data|e|] p]; cbn [snd]; try (repeat split).
  destruct (intuition_data neural_data) as [d|]; [|repeat split].
  destruct (critical_run (d20_roll d) (api s) _) as [[e|] o2]; cbn [fst snd];
    [repeat split|].
  destruct (callbacks_run on_result "post_roll" _ o2) as [[e|] o3]; cbn [fst snd];
    [repeat split|].
  unfold after_logging.
  change (enable_logging (api (with_reach o3 (after_brain_call (with_reach o1 s) p))))
    with (enable_logging (api s)).
  destruct (enable_logging (api s)) eqn:Elog; repeat split; exact Elog.
Qed.

(** X19. A check is logged exactly when it returns and logging is on:
    then one entry is appended after the earlier ones, holding the
    returned result (the dict as the callbacks left it) and the clock
    reading as timestamp, and the clock has been read once.  A failed
    check, or any check with logging off, leaves the log and the clock as
    they were.  In every case the files and the callback registry are
    untouched, and the model object is what the brain call, made on the
    generator as the pre_roll callbacks left it, has made of it (the
    object as it was when a pre_roll callback ended the check). *)
Theorem X19_check_logging :
  forall (name : string) (wisdom difficulty : Z) (context : option string)
         (duration : Q) (s : Session RS W),
    let pre := pre_roll_run name wisdom difficulty context s in
    let (r, s') := intuition_check name wisdom difficulty context duration s in
    (match r with
     | Done result =>
         if enable_logging (api s) then
           log_entries (json_logger (api s'))
           = log_entries (json_logger (api s))
             ++ [ {| entry_data := result;
                     entry_timestamp := Some (ses_clock s (ses_ticks s)) |} ] /\
           ses_ticks s' = S (ses_ticks s)
         else
           log_entries (json_logger (api s')) = log_entries (json_logger (api s)) /\
           ses_ticks s' = ses_ticks s
     | _ =>
         log_entries (json_logger (api s')) = log_entries (json_logger (api s)) /\
         ses_ticks s' = ses_ticks s
     end) /\
    ses_files s' = ses_files s /\
    ses_clock s' = ses_clock s /\
    callbacks (api s') = callbacks (api s) /\
    enable_logging (api s') = enable_logging (api s) /\
    brain_model (api s')
    = match fst pre with
      | Some _ => brain_model (api s)
      | None =>
          brain (snd (generate_intuition_signal difficulty wisdom duration
                        {| np_random := r_np_random (snd pre);
                           brain := brain_model (api s) |}))
      end.
Proof. exact intuition_check_bookkeeping. Qed.

End CheckOutcome.


(** A check with a raising callback on every event: it still returns, the
    callbacks after the raising one still run, and one line is printed
    per raise. *)
Example raising_callbacks_run :
  let s0 := fresh_session brain_one_channel true in
  let s1 := snd (register_callback "pre_roll" (raising_callback "pre") s0) in
  let s2 := snd (register_callback "post_roll" (raising_callback "post1") s1) in
  let s3 := snd (register_callback "post_roll" (recording_callback "post2") s2) in
  let (r, s') := intuition_check "Aria" 10 10 None (4#1000) s3 in
  (exists result, r = Done result) /\
  ses_world s' = ["pre"; "post1"; "post2"]%string /\
  ses_stdout s' = ["Callback error for pre_roll: boom";
                   "Callback error for post_roll: boom"]%string /\
  List.length (log_entries (json_logger (api s'))) = 1%nat.
Proof.
  vm_compute. split; [eexists; reflexivity|]. repeat split.
Qed.

(** A post_roll callback that lets SystemExit escape: the check ends
    with it, the callback registered after it is not called, nothing is
    printed and nothing is logged, although the brain call was made. *)
Example escaping_callback_ends_the_check :
  let s0 := fresh_session brain_one_channel true in
  let s1 := snd (register_callback "post_roll" (exiting_callback "post1") s0) in
  let s2 := snd (register_callback "post_roll" (recording_callback "post2") s1) in
  let (r, s') := intuition_check "Aria" 10 10 None (4#1000) s2 in
  r = Failed (NotAnException SystemExit) /\
  ses_world s' = ["post1"]%string /\
  ses_stdout s' = [] /\
  log_entries (json_logger (api s')) = [] /\
  List.length (activity_history (brain_model (api s'))) = 1%nat.
Proof.
  vm_compute. repeat split.
Qed.

(** A post_roll callback that writes into the result dict: what it wrote
    is what the check returns and what the log holds. *)
Example callback_edits_are_returned_and_logged :
  let s0 := fresh_session brain_one_channel true in
  let s1 := snd (register_callback "post_roll" (renaming_callback "Mallory") s0) in
  let (r, s') := intuition_check "Aria" 10 10 None (4#1000) s1 in
  (exists result, r = Done result /\ cr_character_name result = "Mallory"%string) /\
  map (fun e => cr_character_name (entry_data e)) (log_entries (json_logger (api s')))
  = ["Mallory"%string].
Proof.
  vm_compute. split; [eexists; split; reflexivity|reflexivity].
Qed.

(** A pre_roll callback that seeds the process-wide generator decides
    the d20 of the check; one that writes into its dict does not change
    the check. *)
Example pre_roll_callbacks_and_the_roll :
  let s0 := fresh_session brain_one_channel true in
  let s1 := snd (register_callback "pre_roll" (reseeding_callback 3) s0) in
  let s2 := snd (register_callback "pre_roll" (renaming_callback "Mallory") s0) in
  let roll s := match fst (intuition_check "Aria" 10 10 None (4#1000) s) with
                | Done result => Some (d20_roll (cr_intuition_check result))
                | _ => None
                end in
  roll s0 = Some 12%Z /\ roll s1 <> roll s0 /\
  fst (intuition_check "Aria" 10 10 None (4#1000) s2)
  = fst (intuition_check "Aria" 10 10 None (4#1000) s0).
Proof.
  vm_compute. split; [reflexivity|]. split; [discriminate|reflexivity].
Qed.

(** ** Batches *)

Section Batches.
Context {RS : Type} `{RandomState RS} `{FloatMath} {W : Type}.

Lemma check_of_bookkeeping (check : CheckParams) (s : Session RS W) :
  let (r, s') := check_of check s in
  enable_logging (api s') = enable_logging (api s) /\
  match r with
  | Done result => logged_exactly s s' [result]
  | _ => logged_exactly s s' []
  end.
Proof.
  unfold check_of.
  pose proof (intuition_check_bookkeeping
                (match cp_character_name check with Some n => n | None => "Unknown"%string end)
                (match cp_wisdom check with Some w => w | None => 10%Z end)
                (match cp_difficulty check with Some d => d | None => 10%Z end)
                (cp_context check)
                (match cp_duration check with Some d => d | None => 1 end) s) as Hbook.
  cbv zeta in Hbook.
  destruct (intuition_check _ _ _ _ _ s) as [r s'].
  destruct Hbook as (Hlog & _ & _ & _ & Hen & _).
  split; [exact Hen|]. unfold logged_exactly.
  destruct r as [result|e|].
  - destruct (enable_logging (api s)).
    + destruct Hlog as [Hlog _]. eexists. split; [exact Hlog|reflexivity].
    + destruct Hlog as [Hlog _]. exists []. rewrite app_nil_r. split; [exact Hlog|reflexivity].
  - destruct Hlog as [Hlog _]. exists []. rewrite app_nil_r. split; [exact Hlog|].
    destruct (enable_logging (api s)); reflexivity.
  - destruct Hlog as [Hlog _]. exists []. rewrite app_nil_r. split; [exact Hlog|].
    destruct (enable_logging (api s)); reflexivity.
Qed.

Lemma logged_exactly_trans (s s1 s2 : Session RS W) (rs1 rs2 : list CheckResult) :
  enable_logging (api s1) = enable_logging (api s) ->
  logged_exactly s s1 rs1 -> logged_exactly s1 s2 rs2 ->
  logged_exactly s s2 (rs1 ++ rs2).
Proof.
  intros Hen (a1 & Hl1 & Ha1) (a2 & Hl2 & Ha2). rewrite Hen in Ha2.
  exists (a1 ++ a2). split; [rewrite Hl2, Hl1, app_assoc; reflexivity|].
  destruct (enable_logging (api s)).
  - rewrite map_app, Ha1, Ha2. reflexivity.
  - subst a1 a2. reflexivity.
Qed.

(** Checks that ran one after the other: one result per check, and the
    log grown by exactly their results. *)
Lemma checks_run_log (s : Session RS W) (checks : list CheckParams)
      (results : list CheckResult) (s' : Session RS W) :
  checks_run s checks results s' ->
  List.length results = List.length checks /\
  enable_logging (api s') = enable_logging (api s) /\
  logged_exactly s s' results.
Proof.
  induction 1 as [s|s check result s1 checks results s2 Hcheck _ (Hlen & Hen & Hlog)].
  - split; [reflexivity|]. split; [reflexivity|].
    exists []. rewrite app_nil_r. split; [reflexivity|].
    destruct (enable_logging (api s)); reflexivity.
  - pose proof (check_of_bookkeeping check s) as Hbook. rewrite Hcheck in Hbook.
    destruct Hbook as [Hen1 Hlog1].
    split; [cbn [List.length]; rewrite Hlen; reflexivity|].
    split; [congruence|].
    exact (logged_exactly_trans s s1 s2 [result] results Hen1 Hlog1 Hlog).
Qed.

(** A batch is its checks run one after the other, up to the first one
    that does not return. *)
Lemma batch_unfold (checks : list CheckParams) :
  forall (s : Session RS W),
    let (r, s') := batch_intuition_checks checks s in
    match r with
    | Done results => checks_run s checks results s'
    | Failed e =>
        exists done check rest results s1,
          checks = done ++ check :: rest /\
          checks_run s done results s1 /\
          check_of check s1 = (Failed e, s')
    | Hangs =>
        exists done check rest results s1,
          checks = done ++ check :: rest /\
          checks_run s done results s1 /\
          check_of check s1 = (Hangs, s')
    end.
Proof.
  change (batch_intuition_checks checks)
    with (api_for_each (check_of (RS := RS) (W := W)) checks).
  induction checks as [|c cs IH]; intro s; [cbn; constructor|].
  cbn [api_for_each]. unfold api_bind at 1.
  destruct (check_of c s) as [[y|e|] s1] eqn:Ec.
  - unfold api_bind at 1. specialize (IH s1).
    destruct (api_for_each _ cs s1) as [[ys|e|] s2].
    + unfold api_ret. cbv beta iota. econstructor; [exact Ec|exact IH].
    + destruct IH as (done & check & rest & results & s3 & Hsplit & Hrun & Hfail).
      exists (c :: done), check, rest, (y :: results), s3.
      split; [rewrite Hsplit; reflexivity|].
      split; [econstructor; [exact Ec|exact Hrun]|exact Hfail].
    + destruct IH as (done & check & rest & results & s3 & Hsplit & Hrun & Hfail).
      exists (c :: done), check, rest, (y :: results), s3.
      split; [rewrite Hsplit; reflexivity|].
      split; [econstructor; [exact Ec|exact Hrun]|exact Hfail].
  - exists [], c, cs, [], s. split; [reflexivity|]. split; [constructor|exact Ec].
  - exists [], c, cs, [], s. split; [reflexivity|]. split; [constructor|exact Ec].
Qed.

(** X20. [batch_intuition_checks] runs the checks in list order, each
    one as [intuition_check] with the defaults of the keys it lacks (the
    name "Unknown", wisdom 10, difficulty 10, no context, one second) and
    from the session the check before it left.  When it returns, every
    check has returned, there is one result per check in that order, and
    with logging on the log has grown by exactly these results.  When it
    does not return, that is because of the first check that did not:
    the exception of that check is the one the caller gets (or the batch
    hangs as the check does), the checks after it are not run, the session
    is as that check left it, and the log has grown by exactly the
    results of the checks before it. *)
Theorem X20_batch_checks :
  forall (checks : list CheckParams) (s : Session RS W),
    let (r, s') := batch_intuition_checks checks s in
    match r with
    | Done results =>
        checks_run s checks results s' /\
        List.length results = List.length checks /\
        logged_exactly s s' results
    | Failed e =>
        exists done check rest results s1,
          checks = done ++ check :: rest /\
          checks_run s done results s1 /\
          check_of check s1 = (Failed e, s') /\
          logged_exactly s s' results
    | Hangs =>
        exists done check rest results s1,
          checks = done ++ check :: rest /\
          checks_run s done results s1 /\
          check_of check s1 = (Hangs, s') /\
          logged_exactly s s' results
    end.
Proof.
  intros checks s. pose proof (batch_unfold checks s) as Hbatch.
  destruct (batch_intuition_checks checks s) as [[results|e|] s'].
  - destruct (checks_run_log _ _ _ _ Hbatch) as (Hlen & _ & Hlog).
    split; [exact Hbatch|]. split; assumption.
  - destruct Hbatch as (done & check & rest & results & s1 & Hsplit & Hrun & Hfail).
    exists done, check, rest, results, s1.
    split; [exact Hsplit|]. split; [exact Hrun|]. split; [exact Hfail|].
    destruct (checks_run_log _ _ _ _ Hrun) as (_ & Hen & Hlog).
    pose proof (check_of_bookkeeping check s1) as Hbook. rewrite Hfail in Hbook.
    destruct Hbook as [_ Hlog1].
    rewrite <- (app_nil_r results).
    exact (logged_exactly_trans s s1 s' results [] Hen Hlog Hlog1).
  - destruct Hbatch as (done & check & rest & results & s1 & Hsplit & Hrun & Hfail).
    exists done, check, rest, results, s1.
    split; [exact Hsplit|]. split; [exact Hrun|]. split; [exact Hfail|].
    destruct (checks_run_log _ _ _ _ Hrun) as (_ & Hen & Hlog).
    pose proof (check_of_bookkeeping check s1) as Hbook. rewrite Hfail in Hbook.
    destruct Hbook as [_ Hlog1].
    rewrite <- (app_nil_r results).
    exact (logged_exactly_trans s s1 s' results [] Hen Hlog Hlog1).
Qed.

End Batches.

(** A batch whose second check asks for a duration of 0: the first check
    is logged, the second fails in the EEG generation, the third is never
    run. *)
Example batch_stops_at_failure :
  let short := {| cp_character_name := Some "Aria"%string; cp_wisdom := None;
                  cp_difficulty := None; cp_context := None;
                  cp_duration := Some (4#1000) |} in
  let zero := {| cp_character_name := None; cp_wisdom := None;
                 cp_difficulty := None; cp_context := None;
                 cp_duration := Some 0 |} in
  let (r, s') := batch_intuition_checks [short; zero; short]
                                        (fresh_session brain_one_channel true) in
  r = Failed (CoreError EmptyReduction) /\
  map (fun e => cr_character_name (entry_data e)) (log_entries (json_logger (api s')))
  = ["Aria"%string] /\
  List.length (activity_history (brain_model (api s'))) = 1%nat.
Proof. vm_compute. repeat split. Qed.

(** ** Statistics *)

Lemma count_where_bounds {A} (f : A -> bool) (l : list A) :
  (0 <= count_where f l <= Z.of_nat (List.length l))%Z.
Proof.
  unfold count_where. pose proof (filter_length_le f l). lia.
Qed.

Lemma count_where_disjoint {A} (f g : A -> bool) (l : list A) :
  (forall x, f x = true -> g x = false) ->
  (count_where f l + count_where g l <= Z.of_nat (List.length l))%Z.
Proof.
  intro Hfg. unfold count_where.
  induction l as [|x l IH]; cbn [filter List.length]; [lia|].
  specialize (Hfg x). destruct (f x); [rewrite Hfg by reflexivity|destruct (g x)];
    cbn [List.length]; lia.
Qed.

Lemma fold_Zadd_bounds (lo hi : Z) (l : list Z) :
  Forall (fun x => (lo <= x <= hi)%Z) l ->
  forall a,
    (a + lo * Z.of_nat (List.length l) <= fold_left Z.add l a
     <= a + hi * Z.of_nat (List.length l))%Z.
Proof.
  induction 1 as [|x l Hx _ IH]; intro a; cbn [fold_left List.length]; [lia|].
  specialize (IH (a + x)%Z). lia.
Qed.

Lemma Qdiv_bounds (x n lo hi : Z) :
  (0 < n)%Z -> (lo * n <= x <= hi * n)%Z ->
  inject_Z lo <= inject_Z x / inject_Z n /\ inject_Z x / inject_Z n <= inject_Z hi.
Proof.
  intros Hn [Hlo Hhi].
  assert (Hpos : 0 < inject_Z n) by (rewrite <- (Zlt_Qlt 0); exact Hn).
  split.
  - apply Qle_shift_div_l; [exact Hpos|].
    rewrite <- inject_Z_mult, <- Zle_Qle. exact Hlo.
  - apply Qle_shift_div_r; [exact Hpos|].
    rewrite <- inject_Z_mult, <- Zle_Qle. exact Hhi.
Qed.

Section Statistics.
Context {RS : Type} `{RandomState RS} {W : Type}.

(** X21. [get_statistics] with logging off or an empty log returns
    exactly total_checks = 0 and the three rates 0.0, without any count
    or average key and without dividing.  Otherwise total_checks is the
    number of logged checks, the success count lies between 0 and that
    number, a check counts as critical success or critical failure but
    never both, each rate is its count over the total and lies in
    [0, 1], and the average d20 roll lies in [1, 20] when every logged
    roll does. *)
Theorem X21_statistics :
  forall self : IntuitionRollAPI RS W,
    let entries := map (fun e => cr_intuition_check (entry_data e))
                       (log_entries (json_logger self)) in
    let total := Z.of_nat (List.length entries) in
    (enable_logging self = false \/ log_entries (json_logger self) = [] ->
     get_statistics self
     = [ ("total_checks", SInt 0); ("success_rate", SFloat 0);
         ("critical_success_rate", SFloat 0);
         ("critical_failure_rate", SFloat 0) ]%string) /\
    (enable_logging self = true -> log_entries (json_logger self) <> [] ->
     exists successes nat_20s nat_1s avg_roll,
       (0 < total)%Z /\
       dict_get "total_checks" (get_statistics self) = Some (SInt total) /\
       dict_get "success_count" (get_statistics self) = Some (SInt successes) /\
       dict_get "critical_success_count" (get_statistics self) = Some (SInt nat_20s) /\
       dict_get "critical_failure_count" (get_statistics self) = Some (SInt nat_1s) /\
       dict_get "success_rate" (get_statistics self)
       = Some (SFloat (inject_Z successes / inject_Z total)) /\
       dict_get "critical_success_rate" (get_statistics self)
       = Some (SFloat (inject_Z nat_20s / inject_Z total)) /\
       dict_get "critical_failure_rate" (get_statistics self)
       = Some (SFloat (inject_Z nat_1s / inject_Z total)) /\
       dict_get "average_d20_roll" (get_statistics self) = Some (SFloat avg_roll) /\
       successes = count_where success entries /\
       (0 <= successes <= total)%Z /\
       (0 <= nat_20s)%Z /\ (0 <= nat_1s)%Z /\ (nat_20s + nat_1s <= total)%Z /\
       0 <= inject_Z successes / inject_Z total /\
       inject_Z successes / inject_Z total <= 1 /\
       (Forall (fun e => (1 <= d20_roll e <= 20)%Z) entries ->
        1 <= avg_roll /\ avg_roll <= 20)).
Proof.
  intros self. cbv zeta. split.
  - intros [Hoff|Hempty]; unfold get_statistics.
    + rewrite Hoff. reflexivity.
    + rewrite Hempty. rewrite orb_true_r. reflexivity.
  - intros Hon Hne. unfold get_statistics. rewrite Hon.
    destruct (log_entries (json_logger self)) as [|e0 es] eqn:El; [congruence|].
    cbn [negb orb]. rewrite <- El.
    set (entries := map (fun e => cr_intuition_check (entry_data e))
                        (log_entries (json_logger self))).
    set (total := Z.of_nat (List.length entries)).
    assert (Htotal : (0 < total)%Z).
    { unfold total, entries. rewrite El. cbn [map List.length]. lia. }
    pose proof (count_where_bounds success entries) as Hs.
    pose proof (count_where_bounds (fun e => (d20_roll e =? 20)%Z) entries) as H20.
    pose proof (count_where_bounds (fun e => (d20_roll e =? 1)%Z) entries) as H1.
    pose proof (count_where_disjoint (fun e => (d20_roll e =? 20)%Z)
                                     (fun e => (d20_roll e =? 1)%Z) entries) as Hdis.
    fold total in Hs, H20, H1, Hdis.
    eexists; eexists; eexists; eexists.
    split; [exact Htotal|].
    do 8 (split; [reflexivity|]).
    split; [reflexivity|]. split; [exact Hs|].
    split; [apply H20|]. split; [apply H1|]. split.
    { apply Hdis. intros x Hx. apply Z.eqb_eq in Hx. apply Z.eqb_neq. lia. }
    destruct (Qdiv_bounds (count_where success entries) total 0 1 Htotal) as [Hlo Hhi];
      [lia|].
    split; [exact Hlo|]. split; [exact Hhi|].
    intro Hrolls.
    assert (Hsum : Forall (fun x => (1 <= x <= 20)%Z) (map d20_roll entries)).
    { apply Forall_map. exact Hrolls. }
    pose proof (fold_Zadd_bounds 1 20 _ Hsum 0) as Hb.
    rewrite length_map in Hb. fold total in Hb.
    apply (Qdiv_bounds _ total 1 20 Htotal). lia.
Qed.

End Statistics.

Lemma X21_statistics_witness :
  let self := api (snd (batch_intuition_checks
                          [ {| cp_character_name := None; cp_wisdom := None;
                               cp_difficulty := None; cp_context := None;
                               cp_duration := Some (4#1000) |} ]
                          (fresh_session brain_one_channel true))) in
  get_statistics (api (fresh_session brain_one_channel true))
  = [ ("total_checks", SInt 0); ("success_rate", SFloat 0);
      ("critical_success_rate", SFloat 0);
      ("critical_failure_rate", SFloat 0) ]%string /\
  enable_logging self = true /\ log_entries (json_logger self) <> [] /\
  dict_get "total_checks" (get_statistics self) = Some (SInt 1) /\
  exists avg_roll,
    dict_get "average_d20_roll" (get_statistics self) = Some (SFloat avg_roll) /\
    1 <= avg_roll /\ avg_roll <= 20.
Proof.
  cbv zeta.
  match goal with |- _ /\ enable_logging ?a = true /\ _ => set (self := a) end.
  assert (Hon : enable_logging self = true) by (vm_compute; reflexivity).
  assert (Hne : log_entries (json_logger self) <> []) by (vm_compute; discriminate).
  pose proof (X21_statistics (api (fresh_session brain_one_channel true))) as [Hzero _].
  pose proof (X21_statistics self) as [_ Hfull].
  split; [apply Hzero; right; reflexivity|].
  split; [exact Hon|]. split; [exact Hne|].
  destruct (Hfull Hon Hne)
    as (successes & n20 & n1 & avg & _ & Htotal & _ & _ & _ & _ & _ & _ & Havg & _ & _
        & _ & _ & _ & _ & _ & Hrange).
  split.
  - rewrite Htotal. vm_compute. reflexivity.
  - exists avg. split; [exact Havg|]. apply Hrange.
    vm_compute. repeat constructor; discriminate.
Defined.

(** ** Saving the log *)

Lemma nodup_app_incl (l1 l2 : list string) :
  incl l1 l2 -> nodup string_dec (l1 ++ l2) = nodup string_dec l2.
Proof.
  induction l1 as [|x l1 IH]; intro Hincl; [reflexivity|].
  cbn [app nodup].
  destruct (in_dec string_dec x (l1 ++ l2)) as [_|Hn].
  - apply IH. intros y Hy. apply Hincl. right. exact Hy.
  - exfalso. apply Hn. apply in_or_app. right. apply Hincl. left. reflexivity.
Qed.

Lemma summary_fieldnames (entries : list (Stamped CheckResult)) :
  entries <> [] ->
  sorted_fieldnames (map summary_entry entries) = summary_columns.
Proof.
  intro Hne. unfold sorted_fieldnames.
  set (keys := ["character_name"; "d20_roll"; "wisdom_modifier"; "total_score";
                "difficulty"; "success"; "state"; "total_spikes"; "context"]%string).
  assert (Hflat : forall es : list (Stamped CheckResult),
             flat_map (map fst) (map summary_entry es) = flat_map (fun _ => keys) es).
  { induction es as [|e es IH]; [reflexivity|].
    cbn [map flat_map]. rewrite IH. reflexivity. }
  rewrite Hflat.
  assert (Hnodup : nodup string_dec (flat_map (fun _ : Stamped CheckResult => keys) entries)
                   = keys).
  { induction entries as [|e es IH]; [congruence|].
    destruct es as [|e' es].
    - cbn [flat_map]. rewrite app_nil_r. vm_compute. reflexivity.
    - change (flat_map (fun _ : Stamped CheckResult => keys) (e :: e' :: es))
        with (keys ++ flat_map (fun _ : Stamped CheckResult => keys) (e' :: es)).
      rewrite nodup_app_incl; [apply IH; discriminate|].
      intros k Hk. cbn [flat_map]. apply in_or_app. left. exact Hk. }
  rewrite Hnodup. vm_compute. reflexivity.
Qed.

Lemma summary_dict_row (entry : Stamped CheckResult) :
  dict_row summary_columns (summary_entry entry) = summary_row entry.
Proof. reflexivity. Qed.

Section SaveLogs.
Context {RS : Type} `{RandomState RS} {W : Type}.
Variable path_join : string -> string -> string.

(** X22. [save_logs] with logging off raises RuntimeError, and with an
    unknown format ValueError, without touching a file.  The format
    json writes every logged entry to the file of the JSON logger.  The
    format csv targets intuition_checks.csv in the log directory: with
    an empty log it returns that path without writing the file; otherwise
    the file gets a header of nine columns in alphabetical order and one
    row per logged check under them.  The API object is never changed. *)
Theorem X22_save_logs :
  forall (format : string) (s : Session RS W),
    let csv_path := path_join (cl_output_dir (csv_logger (api s)))
                              "intuition_checks.csv" in
    let entries := log_entries (json_logger (api s)) in
    (enable_logging (api s) = false ->
     save_logs path_join format s = (Failed (RuntimeError "Logging is not enabled"), s)) /\
    (enable_logging (api s) = true ->
     format <> "json"%string -> format <> "csv"%string ->
     save_logs path_join format s
     = (Failed (CoreError (ValueError ("Unknown format: " ++ format))), s)) /\
    (enable_logging (api s) = true -> format = "json"%string ->
     exists s',
       save_logs path_join format s = (Done (jl_filepath (json_logger (api s))), s') /\
       dict_get (jl_filepath (json_logger (api s))) (ses_files s')
       = Some (JsonFile entries true) /\
       (forall other, other <> jl_filepath (json_logger (api s)) ->
                      dict_get other (ses_files s') = dict_get other (ses_files s)) /\
       api s' = api s) /\
    (enable_logging (api s) = true -> format = "csv"%string -> entries = [] ->
     save_logs path_join format s = (Done csv_path, s)) /\
    (enable_logging (api s) = true -> format = "csv"%string -> entries <> [] ->
     exists s',
       save_logs path_join format s = (Done csv_path, s') /\
       dict_get csv_path (ses_files s')
       = Some (CsvFile (map CStr summary_columns :: map summary_row entries)) /\
       (forall other, other <> csv_path ->
                      dict_get other (ses_files s') = dict_get other (ses_files s)) /\
       api s' = api s).
Proof.
  intros format s. cbv zeta. split; [|split; [|split; [|split]]].
  - intro Hoff. unfold save_logs. rewrite Hoff. reflexivity.
  - intros Hon Hj Hc. unfold save_logs. rewrite Hon. cbn [negb].
    destruct (String.eqb_spec format "json"); [congruence|].
    destruct (String.eqb_spec format "csv"); [congruence|]. reflexivity.
  - intros Hon ->. unfold save_logs. rewrite Hon. cbn [negb String.eqb Ascii.eqb Bool.eqb].
    eexists. split; [reflexivity|].
    cbn [save fst snd ses_files api]. split; [apply dict_get_set_same|].
    split; [|reflexivity].
    intros other Hne. apply dict_get_set_other. congruence.
  - intros Hon -> Hempty. unfold save_logs. rewrite Hon, Hempty.
    cbn [negb String.eqb Ascii.eqb Bool.eqb map save_summary csv_target fst snd].
    destruct s; reflexivity.
  - intros Hon -> Hne. unfold save_logs. rewrite Hon.
    cbn [negb String.eqb Ascii.eqb Bool.eqb].
    destruct (log_entries (json_logger (api s))) as [|e es] eqn:El; [congruence|].
    rewrite <- El.
    assert (Hne' : log_entries (json_logger (api s)) <> []) by congruence.
    assert (Hdata : map summary_entry (log_entries (json_logger (api s))) <> []).
    { rewrite El. discriminate. }
    unfold save_summary.
    destruct (map summary_entry (log_entries (json_logger (api s)))) as [|d ds] eqn:Ed;
      [congruence|].
    rewrite <- Ed.
    cbn [csv_target String.eqb Ascii.eqb Bool.eqb fst snd].
    eexists. split; [reflexivity|].
    cbn [ses_files api]. split; [|split; [|reflexivity]].
    + rewrite dict_get_set_same. unfold summary_rows.
      rewrite (summary_fieldnames _ Hne'). rewrite map_map.
      reflexivity.
    + intros other Hother. apply dict_get_set_other. congruence.
Qed.

End SaveLogs.

Lemma X22_save_logs_witness :
  let off := fresh_session brain_one_channel false in
  let on := fresh_session brain_one_channel true in
  let logged := snd (intuition_check "Aria" 10 10 (Some "door"%string) (4#1000) on) in
  save_logs posix_join "json" off = (Failed (RuntimeError "Logging is not enabled"), off) /\
  save_logs posix_join "xml" on
  = (Failed (CoreError (ValueError "Unknown format: xml")), on) /\
  save_logs posix_join "csv" on = (Done "logs/intuition_checks.csv"%string, on) /\
  (exists s',
      save_logs posix_join "csv" logged = (Done "logs/intuition_checks.csv"%string, s') /\
      exists row,
        dict_get "logs/intuition_checks.csv" (ses_files s')
        = Some (CsvFile [map CStr summary_columns; row]) /\
        List.length row = 9%nat) /\
  (exists s',
      save_logs posix_join "json" logged = (Done "logs/bci.json"%string, s') /\
      exists entry,
        dict_get "logs/bci.json" (ses_files s') = Some (JsonFile [entry] true)).
Proof.
  cbv zeta.
  set (off := fresh_session brain_one_channel false).
  set (on := fresh_session brain_one_channel true).
  set (logged := snd (intuition_check "Aria" 10 10 (Some "door"%string) (4#1000) on)).
  assert (Hon : enable_logging (api logged) = true) by (vm_compute; reflexivity).
  assert (Hlog : exists entry, log_entries (json_logger (api logged)) = [entry]).
  { vm_compute. eexists. reflexivity. }
  destruct Hlog as (entry & Hentry).
  assert (Hne : log_entries (json_logger (api logged)) <> [])
    by (rewrite Hentry; discriminate).
  pose proof (X22_save_logs posix_join "json" off) as (Hoff & _).
  pose proof (X22_save_logs posix_join "xml" on) as (_ & Hxml & _).
  pose proof (X22_save_logs posix_join "csv" on) as (_ & _ & _ & Hempty & _).
  pose proof (X22_save_logs posix_join "csv" logged) as (_ & _ & _ & _ & Hcsv).
  pose proof (X22_save_logs posix_join "json" logged) as (_ & _ & Hjson & _).
  split; [apply Hoff; reflexivity|].
  split; [apply Hxml; [reflexivity|discriminate|discriminate]|].
  split; [apply Hempty; reflexivity|]. split.
  - destruct (Hcsv Hon eq_refl Hne) as (s' & E & Hfile & _).
    exists s'. split; [exact E|]. rewrite Hentry in Hfile.
    exists (summary_row entry). split; [exact Hfile|reflexivity].
  - destruct (Hjson Hon eq_refl) as (s' & E & Hfile & _).
    exists s'. split; [exact E|]. rewrite Hentry in Hfile.
    exists entry. exact Hfile.
Defined.

(** ** CSV rows *)

Lemma neuron_rows_shape (neuron : SpikeTrain) :
  List.length (neuron_rows neuron) = Nat.max 1 (List.length (spike_times neuron)) /\
  Forall (fun row => List.length row = 6%nat /\
                     nth 0 row CNone = CInt (neuron_id neuron)) (neuron_rows neuron) /\
  (spike_times neuron = [] ->
   neuron_rows neuron
   = [[CInt (neuron_id neuron); CNone; CInt (Z.of_nat (spike_count neuron));
       CFloat (st_duration neuron); CFloat (firing_rate neuron);
       CStr (st_mode neuron)]]) /\
  (spike_times neuron <> [] ->
   map (fun row => nth 1 row CNone) (neuron_rows neuron)
   = map CFloat (spike_times neuron)).
Proof.
  unfold neuron_rows. destruct (spike_times neuron) as [|t ts] eqn:E.
  - repeat split; [repeat constructor|congruence].
  - split; [rewrite length_map; cbn [List.length]; lia|].
    split; [apply Forall_map; apply Forall_forall; intros x _; split; reflexivity|].
    split; [discriminate|]. intros _. rewrite map_map. reflexivity.
Qed.

Section CsvFiles.
Context {D : Type}.
Variable path_join : string -> string -> string.

(** X23. [save_spike_trains] writes, under the six-column header, one
    row per spike and exactly one row with an empty spike time for each
    neuron without spikes, in the order of the population; every row has
    six cells.  It writes to the named file of the output directory, or
    to the logger's own file when no name or an empty name is given, and
    leaves every other file alone. *)
Theorem X23_spike_train_rows :
  forall (self : CSVLogger) (spike_data : list SpikeTrain) (filename : option string)
         (files : list (string * FileContent D)),
    let (path, files') := save_spike_trains path_join self spike_data filename files in
    path = (match filename with
            | Some f => if String.eqb f "" then cl_filepath self
                        else path_join (cl_output_dir self) f
            | None => cl_filepath self
            end) /\
    (exists rows,
        dict_get path files' = Some (CsvFile (spike_trains_header :: rows)) /\
        rows = flat_map neuron_rows spike_data /\
        List.length rows = spike_row_count spike_data /\
        Forall (fun row => List.length row = 6%nat) rows /\
        (forall neuron, In neuron spike_data -> spike_times neuron = [] ->
                        In [CInt (neuron_id neuron); CNone;
                            CInt (Z.of_nat (spike_count neuron));
                            CFloat (st_duration neuron); CFloat (firing_rate neuron);
                            CStr (st_mode neuron)] rows)) /\
    (forall other, other <> path -> dict_get other files' = dict_get other files).
Proof.
  intros self spike_data filename files. unfold save_spike_trains. cbv zeta.
  split; [reflexivity|]. split.
  - exists (flat_map neuron_rows spike_data).
    split; [apply dict_get_set_same|]. split; [reflexivity|]. split; [|split].
    + induction spike_data as [|n ns IH]; [reflexivity|].
      cbn [flat_map spike_row_count fold_right]. rewrite length_app.
      rewrite (proj1 (neuron_rows_shape n)). fold (spike_row_count ns).
      rewrite IH. reflexivity.
    + apply Forall_flat_map. apply Forall_forall. intros n _.
      eapply Forall_impl; [|apply (neuron_rows_shape n)]. cbn. intros row [Hlen _].
      exact Hlen.
    + intros neuron Hin Hempty. apply in_flat_map. exists neuron.
      split; [exact Hin|]. rewrite (proj1 (proj2 (proj2 (neuron_rows_shape neuron))) Hempty).
      left. reflexivity.
  - intros other Hne. apply dict_get_set_other. congruence.
Qed.

End CsvFiles.

Lemma X23_spike_train_rows_witness :
  let quiet := {| neuron_id := 3; spike_times := []; spike_count := 0;
                  st_duration := 1; st_mode := "poisson"; firing_rate := 0;
                  parameters := no_kwargs |} in
  let logger := {| cl_output_dir := "logs"; cl_filepath := "logs/bci.csv" |} in
  let (path, files') :=
    save_spike_trains (D := CheckResult) posix_join logger [quiet] (Some ""%string) [] in
  path = "logs/bci.csv"%string /\
  dict_get path files'
  = Some (CsvFile [spike_trains_header;
                   [CInt 3; CNone; CInt 0; CFloat 1; CFloat 0; CStr "poisson"]]).
Proof.
  cbv zeta.
  pose proof (X23_spike_train_rows (D := CheckResult) posix_join
                {| cl_output_dir := "logs"; cl_filepath := "logs/bci.csv" |}
                [ {| neuron_id := 3; spike_times := []; spike_count := 0;
                     st_duration := 1; st_mode := "poisson"; firing_rate := 0;
                     parameters := no_kwargs |} ] (Some ""%string) []) as Hrows.
  destruct (save_spike_trains _ _ _ _ _) as [path files'].
  destruct Hrows as (Hpath & (rows & Hfile & Hrows & _) & _).
  split; [exact Hpath|]. rewrite Hfile, Hrows. reflexivity.
Defined.

(** ** The CSV of EEG signals *)

Section EegCsv.
Context {RS : Type} `{RandomState RS} `{FloatMath} {D : Type}.
Variable path_join : string -> string -> string.




End EegCsv.


(** ** Summaries *)

Lemma insert_key_perm (k : string) (l : list string) :
  Permutation (k :: l) (insert_key k l).
Proof.
  induction l as [|k' l IH]; cbn [insert_key]; [reflexivity|].
  destruct (String.leb k k'); [reflexivity|].
  rewrite perm_swap. apply perm_skip. exact IH.
Qed.

Lemma insert_key_hd (k k' : string) (l : list string) :
  key_le k' k -> HdRel key_le k' l -> HdRel key_le k' (insert_key k l).
Proof.
  intros Hk Hhd. destruct l as [|x l]; cbn [insert_key]; [constructor; exact Hk|].
  inversion Hhd; subst. destruct (String.leb k x); constructor; assumption.
Qed.

Lemma insert_key_sorted (k : string) (l : list string) :
  Sorted key_le l -> Sorted key_le (insert_key k l).
Proof.
  induction 1 as [|k' l Hs IH Hhd]; cbn [insert_key]; [repeat constructor|].
  destruct (String.leb k k') eqn:E.
  - repeat constructor; assumption.
  - constructor; [exact IH|]. apply insert_key_hd; [|exact Hhd].
    unfold key_le. destruct (String.leb_total k k') as [Hle|Hle]; [congruence|exact Hle].
Qed.

Lemma fold_insert_key_perm (keys : list string) :
  Permutation keys (fold_right insert_key [] keys).
Proof.
  induction keys as [|k ks IH]; cbn [fold_right]; [reflexivity|].
  rewrite <- insert_key_perm. apply perm_skip. exact IH.
Qed.

Lemma fold_insert_key_sorted (keys : list string) :
  Sorted key_le (fold_right insert_key [] keys).
Proof.
  induction keys as [|k ks IH]; cbn [fold_right]; [constructor|].
  apply insert_key_sorted. exact IH.
Qed.

Lemma sorted_fieldnames_spec (data : list (list (string * Cell))) :
  Sorted key_le (sorted_fieldnames data) /\
  NoDup (sorted_fieldnames data) /\
  forall k, In k (sorted_fieldnames data)
            <-> exists entry, In entry data /\ In k (map fst entry).
Proof.
  unfold sorted_fieldnames.
  pose proof (fold_insert_key_perm (nodup string_dec (flat_map (map fst) data))) as Hperm.
  split; [apply fold_insert_key_sorted|]. split.
  - eapply Permutation_NoDup; [exact Hperm|]. apply NoDup_nodup.
  - intro k. split.
    + intro Hin. apply (Permutation_in _ (Permutation_sym Hperm)) in Hin.
      apply nodup_In in Hin. apply in_flat_map in Hin. exact Hin.
    + intro Hex. apply (Permutation_in _ Hperm). apply nodup_In.
      apply in_flat_map. exact Hex.
Qed.

Section Summaries.
Context {D : Type}.
Variable path_join : string -> string -> string.

(** X25. [save_summary] given no entries returns the target path
    without writing (a file that did not exist still does not); given
    entries it writes a header made of every key of every entry, each
    once and in alphabetical order, then one row per entry of the same
    width, holding the entry's value in the column of each of its keys
    and the empty string where the entry lacks the key. *)
Theorem X25_save_summary :
  forall (self : CSVLogger) (data : list (list (string * Cell)))
         (filename : option string) (files : list (string * FileContent D)),
    let (path, files') := save_summary path_join self data filename files in
    (data = [] -> files' = files) /\
    (data <> [] ->
     exists header rows,
       dict_get path files' = Some (CsvFile (map CStr header :: rows)) /\
       Sorted key_le header /\ NoDup header /\
       (forall k, In k header <-> exists entry, In entry data /\ In k (map fst entry)) /\
       List.length rows = List.length data /\
       Forall (fun row => List.length row = List.length header) rows /\
       (forall i entry j k,
           nth_error data i = Some entry -> nth_error header j = Some k ->
           exists row,
             nth_error rows i = Some row /\
             nth_error row j
             = Some (match dict_get k entry with Some v => v | None => CStr "" end))).
Proof.
  intros self data filename files. unfold save_summary. cbv zeta.
  destruct data as [|d ds] eqn:Ed; [split; [reflexivity|congruence]|].
  rewrite <- Ed. split; [rewrite Ed; discriminate|]. intros _.
  destruct (sorted_fieldnames_spec data) as (Hsorted & Hnodup & Hkeys).
  exists (sorted_fieldnames data), (map (dict_row (sorted_fieldnames data)) data).
  split; [apply dict_get_set_same|].
  split; [exact Hsorted|]. split; [exact Hnodup|]. split; [exact Hkeys|].
  split; [apply length_map|]. split.
  - apply Forall_map. apply Forall_forall. intros entry _.
    unfold dict_row. apply length_map.
  - intros i entry j k Hi Hj.
    exists (dict_row (sorted_fieldnames data) entry). split.
    + rewrite nth_error_map, Hi. reflexivity.
    + unfold dict_row. rewrite nth_error_map, Hj. reflexivity.
Qed.

End Summaries.

Lemma X25_save_summary_witness :
  let logger := {| cl_output_dir := "logs"; cl_filepath := "logs/bci.csv" |} in
  let data := [ [("b", CInt 1); ("a", CInt 2)]; [("c", CInt 3); ("a", CInt 4)] ]%string in
  save_summary (D := CheckResult) posix_join logger [] None [] = ("logs/bci.csv"%string, []) /\
  data <> [] /\
  let (path, files') := save_summary (D := CheckResult) posix_join logger data None [] in
  exists header rows,
    dict_get path files' = Some (CsvFile (map CStr header :: rows)) /\
    Sorted key_le header /\
    header = ["a"; "b"; "c"]%string /\
    rows = [ [CInt 2; CInt 1; CStr ""]; [CInt 4; CStr ""; CInt 3] ]%string.
Proof.
  cbv zeta.
  set (logger := {| cl_output_dir := "logs"%string; cl_filepath := "logs/bci.csv"%string |}).
  set (data := [ [("b", CInt 1); ("a", CInt 2)]; [("c", CInt 3); ("a", CInt 4)] ]%string).
  assert (Hne : data <> []) by discriminate.
  pose proof (X25_save_summary (D := CheckResult) posix_join logger [] None []) as Hempty.
  pose proof (X25_save_summary (D := CheckResult) posix_join logger data None []) as Hfull.
  split.
  - destruct (save_summary posix_join logger [] None []) as [path files'] eqn:E.
    destruct Hempty as [Hsame _]. rewrite (Hsame eq_refl).
    injection E as <- _. reflexivity.
  - split; [exact Hne|].
    destruct (save_summary posix_join logger data None []) as [path files'] eqn:E.
    destruct Hfull as [_ Hfull]. destruct (Hfull Hne) as (header & rows & Hfile & Hs & _).
    exists header, rows. split; [exact Hfile|]. split; [exact Hs|].
    vm_compute in E. injection E as <- <-.
    match type of Hfile with
    | ?lhs = _ => let v := eval vm_compute in lhs in change lhs with v in Hfile
    end.
    injection Hfile as Hh Hr. split; [|symmetry; exact Hr].
    destruct header as [|a [|b [|c [|e header]]]]; try discriminate Hh.
    cbn [map] in Hh. injection Hh as <- <- <-. reflexivity.
Defined.
